(** * Verification of the carrier-site crawler and location classifier

    A shallow embedding of [utils.py], [config.py], [page_crawler.py],
    [classifier.py], [url_discovery.py], [load_carriers.py] and
    [run_full_crawl.py].

    Conventions of the embedding:
    - a Python [str] is a Rocq [string]; characters are 8-bit, and the
      case and white-space functions act on the ASCII range;
    - a Python [set] of strings is a [gset string], a [dict] keyed by
      strings a [gmap string _], a [list] a [list];
    - the network, the browser, the HTML parser and the regular
      expression engine are outside the repository: what they return is
      an input of the model (an oracle or a record of query results);
    - a raised exception is a constructor of the result type. *)

From Stdlib Require Import Ascii String ZArith List Lia Bool Sorting.Sorted
  Sorting.Permutation Numbers.DecimalString.
From stdpp Require Import base decidable option list sets gmap strings.

Local Open Scope string_scope.
Local Open Scope nat_scope.

(* ===================================================================== *)
(** * Python string built-ins                                            *)
(* ===================================================================== *)

Module Py.

(** [len(s)] *)
Definition len (s : string) : nat := String.length s.

(** The ASCII characters for which [str.isspace] holds. *)
Definition is_space (c : ascii) : bool :=
  let n := nat_of_ascii c in
  ((9 <=? n) && (n <=? 13)) || ((28 <=? n) && (n <=? 32)).

Definition is_upper (c : ascii) : bool :=
  let n := nat_of_ascii c in (65 <=? n) && (n <=? 90).

Definition is_lower (c : ascii) : bool :=
  let n := nat_of_ascii c in (97 <=? n) && (n <=? 122).

Definition is_digit (c : ascii) : bool :=
  let n := nat_of_ascii c in (48 <=? n) && (n <=? 57).

Definition is_alpha (c : ascii) : bool := is_upper c || is_lower c.

Definition lower_char (c : ascii) : ascii :=
  if is_upper c then ascii_of_nat (nat_of_ascii c + 32) else c.

Definition upper_char (c : ascii) : ascii :=
  if is_lower c then ascii_of_nat (nat_of_ascii c - 32) else c.

(** [s.lower()] *)
Fixpoint lower (s : string) : string :=
  match s with
  | EmptyString => EmptyString
  | String c s' => String (lower_char c) (lower s')
  end.

(** [s.upper()] *)
Fixpoint upper (s : string) : string :=
  match s with
  | EmptyString => EmptyString
  | String c s' => String (upper_char c) (upper s')
  end.

(** [s.startswith(p)] *)
Fixpoint startswith (s p : string) {struct p} : bool :=
  match p with
  | EmptyString => true
  | String c p' =>
      match s with
      | EmptyString => false
      | String d s' => Ascii.eqb c d && startswith s' p'
      end
  end.

(** [p in s] *)
Fixpoint contains (p s : string) : bool :=
  startswith s p
  || match s with
     | EmptyString => false
     | String _ s' => contains p s'
     end.

(** [s.endswith(p)] *)
Fixpoint endswith (s p : string) : bool :=
  String.eqb s p
  || match s with
     | EmptyString => false
     | String _ s' => endswith s' p
     end.

(** [any(p in s for p in ps)] *)
Definition any_in (ps : list string) (s : string) : bool :=
  existsb (fun p => contains p s) ps.

(** [s.lstrip(chars)], the set of characters given as a predicate. *)
Fixpoint lstrip_by (f : ascii -> bool) (s : string) : string :=
  match s with
  | EmptyString => EmptyString
  | String c s' => if f c then lstrip_by f s' else s
  end.

(** [s.rstrip(chars)] *)
Fixpoint rstrip_by (f : ascii -> bool) (s : string) : string :=
  match s with
  | EmptyString => EmptyString
  | String c s' =>
      match rstrip_by f s' with
      | EmptyString => if f c then EmptyString else String c EmptyString
      | r => String c r
      end
  end.

(** [s.strip()] *)
Definition strip (s : string) : string :=
  rstrip_by is_space (lstrip_by is_space s).

(** [s.rstrip('/')] *)
Definition rstrip_slash (s : string) : string :=
  rstrip_by (Ascii.eqb "/") s.

(** [s[:n]] *)
Fixpoint take (n : nat) (s : string) : string :=
  match n, s with
  | S k, String c s' => String c (take k s')
  | _, _ => EmptyString
  end.

(** [s[n:]] *)
Fixpoint drop (n : nat) (s : string) : string :=
  match n, s with
  | S k, String _ s' => drop k s'
  | _, _ => s
  end.

(** [s[:-1]] *)
Fixpoint drop_last (s : string) : string :=
  match s with
  | EmptyString => EmptyString
  | String c EmptyString => EmptyString
  | String c s' => String c (drop_last s')
  end.

(** [s.find(c)] for a one-character needle; [None] stands for [-1]. *)
Fixpoint find_char (c : ascii) (s : string) : option nat :=
  match s with
  | EmptyString => None
  | String d s' =>
      if Ascii.eqb c d then Some 0
      else match find_char c s' with
           | Some i => Some (S i)
           | None => None
           end
  end.

(** [s.rfind(c)] *)
Fixpoint rfind_char (c : ascii) (s : string) : option nat :=
  match s with
  | EmptyString => None
  | String d s' =>
      match rfind_char c s' with
      | Some i => Some (S i)
      | None => if Ascii.eqb c d then Some 0 else None
      end
  end.

(** [s.split(c, 1)] when [c in s]: the text before and after the first
    occurrence; [(s, "")] when [c] does not occur. *)
Fixpoint partition (c : ascii) (s : string) : string * string :=
  match s with
  | EmptyString => (EmptyString, EmptyString)
  | String d s' =>
      if Ascii.eqb c d then (EmptyString, s')
      else let '(a, b) := partition c s' in (String d a, b)
  end.

(** [s.split(c)] *)
Fixpoint split (c : ascii) (s : string) : list string :=
  match s with
  | EmptyString => [EmptyString]
  | String d s' =>
      if Ascii.eqb c d then EmptyString :: split c s'
      else match split c s' with
           | [] => [String d EmptyString]
           | w :: ws => String d w :: ws
           end
  end.

(** [sep.join(ws)] *)
Fixpoint join (sep : string) (ws : list string) : string :=
  match ws with
  | [] => EmptyString
  | [w] => w
  | w :: ws' => w ++ sep ++ join sep ws'
  end.

(** [s.replace(old, new)] for a non-empty [old]: occurrences are taken
    left to right without overlap; [skip] counts the characters of the
    occurrence just replaced that are still to be passed over. *)
Fixpoint replace_from (old new s : string) (skip : nat) : string :=
  match s with
  | EmptyString => EmptyString
  | String c s' =>
      match skip with
      | S k => replace_from old new s' k
      | O =>
          if startswith s old
          then new ++ replace_from old new s' (len old - 1)
          else String c (replace_from old new s' 0)
      end
  end.

Definition replace (old new s : string) : string :=
  replace_from old new s 0.

(** [s.count(sub)] for a non-empty [sub] (occurrences without overlap). *)
Fixpoint count_from (sub s : string) (skip : nat) : nat :=
  match s with
  | EmptyString => 0
  | String _ s' =>
      match skip with
      | S k => count_from sub s' k
      | O =>
          if startswith s sub
          then S (count_from sub s' (len sub - 1))
          else count_from sub s' 0
      end
  end.

Definition count (sub s : string) : nat := count_from sub s 0.

(** Characters removed from a string (as [s.replace(c, "")] for each
    [c] of a set). *)
Fixpoint remove_chars (f : ascii -> bool) (s : string) : string :=
  match s with
  | EmptyString => EmptyString
  | String c s' =>
      if f c then remove_chars f s' else String c (remove_chars f s')
  end.

(** [all(f(c) for c in s)] *)
Fixpoint all_chars (f : ascii -> bool) (s : string) : bool :=
  match s with
  | EmptyString => true
  | String c s' => f c && all_chars f s'
  end.

(** [str(n)] for a natural number. *)
Definition str_of_nat (n : nat) : string :=
  NilZero.string_of_uint (Nat.to_uint n).

(** [s * n] *)
Fixpoint repeat (s : string) (n : nat) : string :=
  match n with
  | O => EmptyString
  | S k => s ++ repeat s k
  end.

(** [s.title()]: a letter is upper-cased when the character before it
    is not a letter, and lower-cased otherwise. *)
Fixpoint title_from (after_letter : bool) (s : string) : string :=
  match s with
  | EmptyString => EmptyString
  | String c s' =>
      String (if after_letter then lower_char c else upper_char c)
        (title_from (is_alpha c) s')
  end.

Definition title (s : string) : string := title_from false s.

(** [s.split()]: the maximal runs of characters that are not white
    space. *)
Fixpoint split_ws (s : string) : list string :=
  match s with
  | EmptyString => []
  | String c s' =>
      if is_space c then split_ws s'
      else
        match s' with
        | EmptyString => [String c EmptyString]
        | String d _ =>
            if is_space d then String c EmptyString :: split_ws s'
            else
              match split_ws s' with
              | w :: ws => String c w :: ws
              | [] => [String c EmptyString]
              end
        end
  end.

(** [s.find(sub)]; [None] stands for [-1]. *)
Fixpoint find (sub s : string) : option nat :=
  if startswith s sub then Some 0
  else
    match s with
    | EmptyString => None
    | String _ s' =>
        match find sub s' with
        | Some i => Some (S i)
        | None => None
        end
    end.

(** [s.find(c, start)] for a one-character needle. *)
Definition find_char_from (c : ascii) (start : nat) (s : string)
  : option nat :=
  match find_char c (drop start s) with
  | Some i => Some (start + i)
  | None => None
  end.

(** [s.replace(old, new, 1)] for a non-empty [old]. *)
Fixpoint replace_first (old new s : string) : string :=
  if startswith s old then new ++ drop (len old) s
  else
    match s with
    | EmptyString => EmptyString
    | String c s' => String c (replace_first old new s')
    end.

(** ** Names used in the statements about strings *)

(** [c] is not the character [x]. *)
Definition is_not (x : ascii) (c : ascii) : bool := negb (Ascii.eqb c x).

(** A word: not empty, and without white space. *)
Definition word (w : string) : Prop :=
  w <> "" /\ all_chars (fun c => negb (is_space c)) w = true.

End Py.

(* ===================================================================== *)
(** * Results of calls that may raise                                    *)
(* ===================================================================== *)

(** [Ok a] is a normal return, [ValueError] the exception of that name. *)
Inductive result (A : Type) : Type :=
  | Ok (a : A)
  | ValueError.
Arguments Ok {A} a.
Arguments ValueError {A}.

Definition bind {A B : Type} (r : result A) (k : A -> result B) : result B :=
  match r with
  | Ok a => k a
  | ValueError => ValueError
  end.

Notation "'let*' x ':=' r 'in' k" := (bind r (fun x => k))
  (at level 10, x name, r at level 100, k at level 200).

(* ===================================================================== *)
(** * The regular expressions of the URL pattern tables                  *)
(* ===================================================================== *)

(** The URL patterns of the classifier use only literal characters, the
    escape [\c], the dot, the postfix [?] and the anchor [$]; all are
    compiled with [re.IGNORECASE]. *)
Module Re.

Inductive base : Type :=
  | Chr (c : ascii)
  | Dot.

Inductive atom : Type :=
  | One (b : base)
  | Maybe (b : base)
  | Dollar.

(** [re.compile(p)] on that fragment. *)
Fixpoint compile_from (prev : option base) (p : string) : list atom :=
  let flush := match prev with Some b => [One b] | None => [] end in
  match p with
  | EmptyString => flush
  | String c p' =>
      if Ascii.eqb c "?" then
        match prev with
        | Some b => Maybe b :: compile_from None p'
        | None => compile_from (Some (Chr c)) p'
        end
      else if Ascii.eqb c "$" then flush ++ Dollar :: compile_from None p'
      else if Ascii.eqb c "." then flush ++ compile_from (Some Dot) p'
      else if Ascii.eqb c "\" then
        match p' with
        | String e p'' => flush ++ compile_from (Some (Chr e)) p''
        | EmptyString => flush
        end
      else flush ++ compile_from (Some (Chr c)) p'
  end.

Definition compile (p : string) : list atom := compile_from None p.

Definition newline : ascii := ascii_of_nat 10.

(** One character against a literal (ignoring case) or the dot (any
    character but a newline). *)
Definition base_ok (b : base) (d : ascii) : bool :=
  match b with
  | Chr c => Ascii.eqb (Py.lower_char c) (Py.lower_char d)
  | Dot => negb (Ascii.eqb d newline)
  end.

(** [$] holds at the end of the text and before a final newline. *)
Definition at_end (s : string) : bool :=
  match s with
  | EmptyString => true
  | String c EmptyString => Ascii.eqb c newline
  | _ => false
  end.

(** Does the pattern match at the start of [s]? *)
Fixpoint match_here (r : list atom) (s : string) : bool :=
  match r with
  | [] => true
  | One b :: r' =>
      match s with
      | String d s' => base_ok b d && match_here r' s'
      | EmptyString => false
      end
  | Maybe b :: r' =>
      match s with
      | String d s' => base_ok b d && match_here r' s'
      | EmptyString => false
      end
      || match_here r' s
  | Dollar :: r' => at_end s && match_here r' s
  end.

(** [bool(pattern.search(s))] *)
Fixpoint search (r : list atom) (s : string) : bool :=
  match_here r s
  || match s with
     | EmptyString => false
     | String _ s' => search r s'
     end.

(** [any(p.search(s) for p in patterns)] *)
Definition any_search (patterns : list string) (s : string) : bool :=
  existsb (fun p => search (compile p) s) patterns.

End Re.

(* ===================================================================== *)
(** * urllib.parse (CPython 3.11)                                        *)
(* ===================================================================== *)

Module Urllib.

Record ParseResult : Type := {
  scheme : string;
  netloc : string;
  path : string;
  params : string;
  query : string;
  fragment : string
}.

Definition mem (s : string) (l : list string) : bool :=
  existsb (String.eqb s) l.

Definition uses_relative : list string :=
  [""; "ftp"; "http"; "gopher"; "nntp"; "imap"; "wais"; "file"; "https";
   "shttp"; "mms"; "prospero"; "rtsp"; "rtspu"; "sftp"; "svn"; "svn+ssh";
   "ws"; "wss"].

Definition uses_netloc : list string :=
  [""; "ftp"; "http"; "gopher"; "nntp"; "telnet"; "imap"; "wais"; "file";
   "mms"; "https"; "shttp"; "snews"; "prospero"; "rtsp"; "rtspu"; "rsync";
   "svn"; "svn+ssh"; "sftp"; "nfs"; "git"; "git+ssh"; "ws"; "wss"].

Definition uses_params : list string :=
  [""; "ftp"; "hdl"; "prospero"; "http"; "imap"; "https"; "shttp"; "rtsp";
   "rtspu"; "sip"; "sips"; "mms"; "sftp"; "tel"].

Definition scheme_char (c : ascii) : bool :=
  Py.is_alpha c || Py.is_digit c
  || Ascii.eqb c "+" || Ascii.eqb c "-" || Ascii.eqb c ".".

(** [_WHATWG_C0_CONTROL_OR_SPACE] *)
Definition c0_control_or_space (c : ascii) : bool := nat_of_ascii c <=? 32.

(** [_UNSAFE_URL_BYTES_TO_REMOVE]: tab, carriage return, newline. *)
Definition unsafe_byte (c : ascii) : bool :=
  let n := nat_of_ascii c in (n =? 9) || (n =? 13) || (n =? 10).

Definition netloc_delim (c : ascii) : bool :=
  Ascii.eqb c "/" || Ascii.eqb c "?" || Ascii.eqb c "#".

(** The text before the first delimiter, and the text from it on. *)
Fixpoint span_until (f : ascii -> bool) (s : string) : string * string :=
  match s with
  | EmptyString => (EmptyString, EmptyString)
  | String c s' =>
      if f c then (EmptyString, s)
      else let '(a, b) := span_until f s' in (String c a, b)
  end.

(** [_splitnetloc(url, 2)] *)
Definition splitnetloc (url : string) : string * string :=
  span_until netloc_delim (Py.drop 2 url).

(** The first lines of [urlsplit]: leading C0 control characters and
    spaces are stripped, then tabs, carriage returns and newlines are
    removed everywhere. *)
Definition clean_url (url : string) : string :=
  Py.remove_chars unsafe_byte (Py.lstrip_by c0_control_or_space url).

Definition clean_scheme (scheme : string) : string :=
  Py.remove_chars unsafe_byte
    (Py.rstrip_by c0_control_or_space
       (Py.lstrip_by c0_control_or_space scheme)).

(** The scheme of [urlsplit]: the text before the first colon, when the
    colon is not at index 0, the URL starts with an ASCII letter and that
    text has scheme characters only; else the default [scheme]. The
    result is the scheme and the rest of the URL. *)
Definition split_scheme (url scheme : string) : string * string :=
  match Py.find_char ":" url with
  | Some (S i) =>
      if Py.is_alpha (match url with String c _ => c | _ => " "%char end)
         && Py.all_chars scheme_char (Py.take (S i) url)
      then (Py.lower (Py.take (S i) url), Py.drop (S (S i)) url)
      else (scheme, url)
  | _ => (scheme, url)
  end.

(** The network location of [urlsplit], when the rest starts with two
    slashes. *)
Definition split_authority (url : string) : string * string :=
  if Py.startswith url "//" then splitnetloc url else (EmptyString, url).

(** The end of [urlsplit]: the fragment is cut at the first [#], then
    the query at the first [?]; the result is (path, query, fragment). *)
Definition split_tail (url : string) : string * string * string :=
  let '(url, fragment) :=
    if Py.contains "#" url then Py.partition "#" url
    else (url, EmptyString) in
  let '(url, query) :=
    if Py.contains "?" url then Py.partition "?" url
    else (url, EmptyString) in
  (url, query, fragment).

(** [urlsplit(url, scheme)]. A host in brackets (an IPv6 literal) is
    validated by the library with the [ipaddress] module; the model
    answers [ValueError] for every netloc with a bracket, which is what
    the library does for the ill-formed ones. *)
Definition urlsplit (url scheme : string) : result ParseResult :=
  let url := clean_url url in
  let scheme := clean_scheme scheme in
  let '(scheme, url) := split_scheme url scheme in
  let '(netloc, url) := split_authority url in
  if Py.contains "[" netloc || Py.contains "]" netloc then ValueError
  else
    let '(url, query, fragment) := split_tail url in
    Ok {| scheme := scheme; netloc := netloc; path := url;
          params := EmptyString; query := query; fragment := fragment |}.

(** [_splitparams(url)], called when [';' in url]. *)
Definition splitparams (url : string) : string * string :=
  if Py.contains "/" url then
    match Py.rfind_char "/" url with
    | Some r =>
        match Py.find_char ";" (Py.drop r url) with
        | Some j => (Py.take (r + j) url, Py.drop (S (r + j)) url)
        | None => (url, EmptyString)
        end
    | None => (url, EmptyString)
    end
  else
    match Py.find_char ";" url with
    | Some i => (Py.take i url, Py.drop (S i) url)
    | None => (url, EmptyString)
    end.

(** [urlparse(url, scheme)] *)
Definition urlparse (url scheme : string) : result ParseResult :=
  let* r := urlsplit url scheme in
  if mem (Urllib.scheme r) uses_params && Py.contains ";" (path r) then
    let '(p, ps) := splitparams (path r) in
    Ok {| scheme := Urllib.scheme r; netloc := netloc r; path := p;
          params := ps; query := query r; fragment := fragment r |}
  else Ok r.

(** [urlunsplit((scheme, netloc, url, query, fragment))] *)
Definition urlunsplit (scheme netloc url query fragment : string) : string :=
  let url :=
    if negb (String.eqb netloc "")
       || (negb (String.eqb scheme "") && mem scheme uses_netloc
           && negb (Py.startswith url "//"))
    then
      let url :=
        if negb (String.eqb url "") && negb (Py.startswith url "/")
        then "/" ++ url else url in
      "//" ++ netloc ++ url
    else url in
  let url := if negb (String.eqb scheme "") then scheme ++ ":" ++ url else url in
  let url := if negb (String.eqb query "") then url ++ "?" ++ query else url in
  if negb (String.eqb fragment "") then url ++ "#" ++ fragment else url.

(** [urlunparse((scheme, netloc, url, params, query, fragment))] *)
Definition urlunparse (scheme netloc url params query fragment : string)
  : string :=
  let url := if negb (String.eqb params "") then url ++ ";" ++ params else url in
  urlunsplit scheme netloc url query fragment.

(** [segments[1:-1] = filter(None, segments[1:-1])] *)
Definition drop_empty_middle (segments : list string) : list string :=
  match segments with
  | [] => []
  | [x] => [x]
  | x :: rest =>
      (x :: List.filter (fun s => negb (String.eqb s "")) (removelast rest)
         ++ [List.last rest EmptyString])%list
  end.

(** The loop of [urljoin] over the segments: [..] pops, [.] is skipped. *)
Definition resolve (segments : list string) : list string :=
  fold_left
    (fun resolved seg =>
       if String.eqb seg ".." then removelast resolved
       else if String.eqb seg "." then resolved
       else (resolved ++ [seg])%list)
    segments [].

(** [urljoin(base, url)] *)
Definition urljoin (base url : string) : result string :=
  if String.eqb base "" then Ok url
  else if String.eqb url "" then Ok base
  else
    let* b := urlparse base "" in
    let* u := urlparse url (scheme b) in
    if negb (String.eqb (scheme u) (scheme b))
       || negb (mem (scheme u) uses_relative)
    then Ok url
    else if mem (scheme u) uses_netloc && negb (String.eqb (netloc u) "")
    then Ok (urlunparse (scheme u) (netloc u) (path u) (params u)
               (query u) (fragment u))
    else
      let netloc' := if mem (scheme u) uses_netloc then netloc b else netloc u in
      if String.eqb (path u) "" && String.eqb (params u) ""
      then
        let query' := if String.eqb (query u) "" then query b else query u in
        Ok (urlunparse (scheme u) netloc' (path b) (params b) query'
              (fragment u))
      else
        let base_parts := Py.split "/" (path b) in
        let base_parts :=
          if negb (String.eqb (List.last base_parts EmptyString) "")
          then removelast base_parts else base_parts in
        let segments :=
          if Py.startswith (path u) "/" then Py.split "/" (path u)
          else drop_empty_middle (base_parts ++ Py.split "/" (path u)) in
        let resolved := resolve segments in
        let resolved :=
          if String.eqb (List.last segments EmptyString) "."
             || String.eqb (List.last segments EmptyString) ".."
          then (resolved ++ [EmptyString])%list else resolved in
        let joined := Py.join "/" resolved in
        Ok (urlunparse (scheme u) netloc'
              (if String.eqb joined "" then "/" else joined)
              (params u) (query u) (fragment u)).

(** Two parses that agree on everything but the fragment. *)
Definition same_components (r1 r2 : result ParseResult) : Prop :=
  match r1, r2 with
  | Ok p1, Ok p2 =>
      scheme p1 = scheme p2 /\ netloc p1 = netloc p2 /\ path p1 = path p2
      /\ params p1 = params p2 /\ query p1 = query p2
  | ValueError, ValueError => True
  | _, _ => False
  end.

(** Two URL texts that parse alike, whatever the default scheme. *)
Definition parse_equiv (a b : string) : Prop :=
  forall d, same_components (urlparse a d) (urlparse b d).

(** Two results of [urljoin] that parse alike. *)
Definition join_equiv (r1 r2 : result string) : Prop :=
  match r1, r2 with
  | Ok a, Ok b => parse_equiv a b
  | ValueError, ValueError => True
  | _, _ => False
  end.

End Urllib.

(* ===================================================================== *)
(** * config.py                                                          *)
(* ===================================================================== *)

Module Config.

Definition MAX_PAGES_PER_SITE : nat := 200.

Definition EXCLUDED_URL_PATTERNS : list string :=
  ["/blog"; "/news"; "/press"; "/career"; "/job"; "/apply";
   "/login"; "/signin"; "/register"; "/cart"; "/checkout";
   "/privacy"; "/terms"; "/legal"; "/cookie";
   ".pdf"; ".jpg"; ".jpeg"; ".png"; ".gif"; ".svg"; ".webp";
   ".mp4"; ".mp3"; ".avi"; ".mov";
   ".zip"; ".rar"; ".exe"; ".dmg";
   "facebook.com"; "twitter.com"; "linkedin.com"; "instagram.com";
   "youtube.com"; "mailto:"; "tel:"; "javascript:"].

Definition LOCATION_URL_KEYWORDS : list string :=
  ["location"; "terminal"; "facilit"; "service-center"; "service_center";
   "coverage"; "network"; "find-us"; "find_us"; "where-we"; "branch";
   "office"; "warehouse"; "yard"; "depot"; "hub"; "contact"; "about";
   "center"; "site"; "operation"].

End Config.

(* ===================================================================== *)
(** * utils.py                                                           *)
(* ===================================================================== *)

Module Utils.

(** The "make absolute" block of [normalize_url]. *)
Definition absolutize (url base_url : string) : result string :=
  if Py.startswith url "//" then Ok ("https:" ++ url)
  else if Py.startswith url "/" then Urllib.urljoin base_url url
  else if negb (Py.startswith url "http") then Urllib.urljoin base_url url
  else Ok url.

(** The end of [normalize_url], from the scheme test on: the URL is
    rebuilt from the scheme, the lower-cased netloc, the path and the
    query, and loses a final slash unless its path is the root. *)
Definition rebuild (parsed : Urllib.ParseResult) : option string :=
  if negb (Urllib.mem (Urllib.scheme parsed) ["http"; "https"]) then None
  else
    let normalized :=
      Urllib.scheme parsed ++ "://" ++ Py.lower (Urllib.netloc parsed)
      ++ Urllib.path parsed in
    let normalized :=
      if negb (String.eqb (Urllib.query parsed) "")
      then normalized ++ "?" ++ Urllib.query parsed
      else normalized in
    let normalized :=
      if Py.endswith normalized "/"
         && negb (String.eqb (Urllib.path parsed) "/")
      then Py.drop_last normalized
      else normalized in
    Some normalized.

(** [normalize_url(url, base_url)]: [Ok None] is the return value
    [None]; the function has no handler, so a [ValueError] of the
    parser leaves it. *)
Definition normalize_url (url base_url : string) : result (option string) :=
  if String.eqb url "" || String.eqb (Py.strip url) "" then Ok None
  else
    let url := Py.strip url in
    let url_lower := Py.lower url in
    if Py.any_in Config.EXCLUDED_URL_PATTERNS url_lower then Ok None
    else
      let* url := absolutize url base_url in
      let* parsed := Urllib.urlparse url "" in
      Ok (rebuild parsed).

(** [is_same_domain(url, base_domain)]; the bare [except] turns any
    exception into [False]. *)
Definition is_same_domain (url base_domain : string) : bool :=
  match Urllib.urlparse url "" with
  | Ok parsed =>
      let url_domain := Py.lower (Urllib.netloc parsed) in
      let base_domain := Py.lower base_domain in
      let url_domain := Py.replace "www." "" url_domain in
      let base_domain := Py.replace "www." "" base_domain in
      String.eqb url_domain base_domain
      || Py.endswith url_domain ("." ++ base_domain)
  | ValueError => false
  end.

(** [extract_domain(url)] *)
Definition extract_domain (url : string) : result string :=
  let* parsed := Urllib.urlparse url "" in
  Ok (Py.replace "www." "" (Py.lower (Urllib.netloc parsed))).

(** ** Absolute URLs given by their parts *)

(** A character a host name can have in these statements: no delimiter
    of the network location, no bracket, no tab or line break. *)
Definition host_char (c : ascii) : bool :=
  negb (Urllib.netloc_delim c) && negb (Urllib.unsafe_byte c)
  && negb (Ascii.eqb c "[") && negb (Ascii.eqb c "]").

(** What may follow the host: nothing, or text that starts with [/],
    [?] or [#]. *)
Definition after_host (rest : string) : bool :=
  match rest with
  | EmptyString => true
  | String c _ => Urllib.netloc_delim c
  end.

(** A character of a path in these statements: not [?], [#] or [;], no
    tab or line break. *)
Definition path_char (c : ascii) : bool :=
  negb (Ascii.eqb c "?") && negb (Ascii.eqb c "#") && negb (Ascii.eqb c ";")
  && negb (Urllib.unsafe_byte c).

(** A character of a query: not [#], no tab or line break. *)
Definition query_char (c : ascii) : bool :=
  negb (Ascii.eqb c "#") && negb (Urllib.unsafe_byte c).

(** [?query] and [#fragment], absent when the part is empty. *)
Definition with_mark (mark part : string) : string :=
  if String.eqb part "" then "" else mark ++ part.

(** The text of the URL with these parts. *)
Definition absolute_url (scheme host path query fragment : string) : string :=
  scheme ++ "://" ++ host ++ path ++ with_mark "?" query
  ++ with_mark "#" fragment.

(** ** The other helpers of [utils.py] *)

(** [clean_text(text)] *)
Definition clean_text (text : string) : string :=
  if String.eqb text "" then "" else Py.join " " (Py.split_ws text).

End Utils.

(* ===================================================================== *)
(** * classifier.py                                                      *)
(* ===================================================================== *)

Module Classifier.

Local Open Scope Z_scope.

Record LocationSignal : Type := {
  signal_type : string;
  confidence : string;
  points : Z;
  details : string;
  evidence : string
}.

Record PageClassification : Type := {
  url : string;
  title : string;
  signals : list LocationSignal;
  total_score : Z;
  is_location_page : bool;
  url_priority : string
}.

Record CarrierReport : Type := {
  carrier_name : string;
  domain : string;
  total_pages : nat;
  location_pages : nat;
  modalities_found : gmap string nat;
  top_pages : list PageClassification;
  recommended_approach : string
}.

Definition LOCATION_PAGE_THRESHOLD : Z := 3.

(** ** What the parser and the regular-expression engine return

    [BeautifulSoup(html, 'lxml')] and [re.findall] are library calls.
    The record holds the answers to the queries the classifier makes of
    them; an absent attribute reads as the empty string, as with
    [tag.get(name, '')]. *)

Record Form : Type := {
  form_str : string;      (* str(form) *)
  form_action : string;   (* form.get('action', '') *)
  form_text : string      (* form.get_text() *)
}.

Record Anchor : Type := {
  a_href : string;        (* link.get('href', '') *)
  a_text : string         (* link.get_text() *)
}.

Record Iframe : Type := {
  iframe_src : string;
  iframe_title : string;
  iframe_name : string
}.

Record Soup : Type := {
  (* soup.title.string, when soup.title and its string exist *)
  title_string : option string;
  (* soup.find('html').get('lang', ''), when there is an html element *)
  html_lang : option string;
  (* soup.find_all('form') *)
  forms : list Form;
  (* soup.find_all('a', href=True) *)
  anchors : list Anchor;
  (* soup.find_all('iframe') *)
  iframes : list Iframe;
  (* for each script of type application/ld+json,
     json.dumps(json.loads(script.string or '{}')); None when that raises *)
  ld_json : list (option string);
  (* pattern.findall(text) for each compiled address pattern, text being
     get_text(separator=' ') of the copy without header, footer and nav
     elements and without the elements of such a class *)
  address_matches : list (list string);
  (* re.findall(coord_pattern, html, re.IGNORECASE) *)
  lat_matches : list string;
  (* re.findall(coord_pattern2, html) *)
  latlng_matches : list (string * string);
  (* content of <meta name="crawler-original-url"> *)
  meta_crawler_url : option string;
  (* href of <link rel="canonical"> *)
  link_canonical : option string;
  (* content of <meta property="og:url"> *)
  meta_og_url : option string;
  (* content of <meta name="twitter:url"> *)
  meta_twitter_url : option string
}.

(** ** Pattern tables of [LocationClassifier] *)

Definition INDEX_URL_PATTERNS : list string :=
  ["/locations/?$"; "/locations\.html"; "/Our-Locations"; "/our-locations/?$";
   "/all-locations/?$"; "centersResult"; "/coverage"; "/terminals/?$";
   "/terminals$"; "terminals/?$"; "/service-centers/?$"; "/service-center/?$";
   "service-center-locator"; "/service-locations"; "/facilities/?$";
   "/branches/?$"; "/find-us/?$"; "/terminal-locations/?$"; "/branch-locator";
   "/map\.html"; "servicemap\.pdf"; "/locator/?$"; "/find-location";
   "/store-locator"; "/dealer-locator"].

Definition HIGH_PRIORITY_URL_PATTERNS : list string :=
  ["location"; "terminal"; "service.?center"; "facilit";
   "branch"; "office"; "find.?us"; "locator"; "finder";
   "yard"; "depot"; "where.?we"; "map\.html"; "servicemap"].

Definition LOW_PRIORITY_URL_PATTERNS : list string :=
  ["investor"; "career"; "job"; "blog"; "news"; "press";
   "SEC"; "earning"; "stock"; "annual.?report"; "quarter";
   "privacy"; "terms"; "legal"; "cookie"; "login"; "sign.?in";
   "cart"; "checkout"; "account"].

Definition NON_US_URL_PATTERNS : list string :=
  ["/eu/"; "/europe/"; "/fr/"; "/de/"; "/es/"; "/uk/"; "/gb/";
   "/global/"; "/international/"; "/asia/"; "/apac/"; "/latam/";
   "/fr-"; "/de-"; "/es-"; "/it-"; "/nl-"; "/pt-";
   "\.fr/"; "\.de/"; "\.es/"; "\.co\.uk/"; "\.eu/";
   "europe\."].

Definition US_URL_PATTERNS : list string :=
  ["/us/"; "/en-us/"; "/united-states/"; "/usa/";
   "/en/"; "\.com/"; "\.com$"].

Definition LOCATION_TITLE_KEYWORDS : list string :=
  ["location"; "terminal"; "service center"; "facility"; "branch";
   "office"; "find us"; "contact"; "where we"; "coverage"; "network"].

(** [MAP_LIBRARIES] without its [google_maps] entry, which
    [_detect_interactive_maps] skips; in the order of the dictionary. *)
Definition MAP_LIBRARIES : list (string * list string) :=
  [("mapbox", ["mapbox.com"; "mapboxgl"; "mapbox-gl"]);
   ("leaflet", ["leafletjs.com"; "L.map"; "leaflet.js"]);
   ("arcgis", ["arcgis.com"; "esri.com"; "FeatureServer"; "MapServer"])].

(** ** [_get_url_priority] *)

Definition _get_url_priority (url title : string) : string * Z :=
  let url_lower := Py.lower url in
  let title_lower := Py.lower title in
  if existsb (fun p => Re.search (Re.compile p) url_lower
                       || Re.search (Re.compile p) title_lower)
       LOW_PRIORITY_URL_PATTERNS
  then ("low", -5)
  else
    let is_non_us := Re.any_search NON_US_URL_PATTERNS url_lower in
    let is_us := Re.any_search US_URL_PATTERNS url_lower in
    let us_penalty := if is_non_us && negb is_us then -3 else 0 in
    if Re.any_search INDEX_URL_PATTERNS url_lower
    then ("index", 10 + us_penalty)
    else if Re.any_search HIGH_PRIORITY_URL_PATTERNS url_lower
    then ("high", 2 + us_penalty)
    else if existsb (fun kw => Py.contains kw title_lower)
              LOCATION_TITLE_KEYWORDS
    then ("high", 2 + us_penalty)
    else ("neutral", us_penalty).

(** ** Stage 1: disqualifiers *)

Definition _is_error_page (html : string) (soup : Soup) (title : string)
  : bool :=
  let title_lower := Py.lower title in
  let error_titles :=
    ["404"; "not found"; "page not found"; "error"; "oops";
     "page does not exist"; "page doesn't exist"] in
  if Py.any_in error_titles title_lower then true
  else
    let html_lower := Py.lower html in
    if Py.contains "<h1>404" html_lower
       || Py.contains "<h1>page not found" html_lower
    then true
    else if (Py.len html <? 2000)%nat then true
    else false.

Definition _is_non_english (soup : Soup) : bool :=
  match html_lang soup with
  | Some lang =>
      let lang := Py.lower lang in
      negb (String.eqb lang "") && negb (Py.startswith lang "en")
  | None => false
  end.

Definition _has_location_url (url_lower : string) : bool :=
  let location_keywords :=
    ["location"; "terminal"; "service-center"; "service-location";
     "facility"; "branch"; "find-us"; "depot"; "yard";
     "loadboard"; "load-board"; "/map"; "locator"; "finder";
     "servicemap"; "branch-locator"; "store-locator"] in
  Py.any_in location_keywords url_lower.

Definition _is_excluded_page_type (url_lower title : string) : bool :=
  let title_lower := Py.lower title in
  let exclude_patterns :=
    ["quote"; "get-a-quote"; "instant-quote"; "request-quote";
     "career"; "job"; "apply"; "hiring";
     "login"; "signin"; "register"; "signup";
     "blog"; "news"; "press-release"; "article";
     "investor"; "annual-report"; "earnings";
     "privacy"; "terms"; "cookie"; "legal";
     "cart"; "checkout"; "order"] in
  if Py.any_in exclude_patterns url_lower then true
  else if Py.any_in exclude_patterns title_lower then true
  else false.

(** ** Stage 2: primary detectors *)

(** The set [addresses_found]: the stripped matches longer than 15
    characters. It is kept as a list without repetition; the order in
    which Python iterates over the set is not specified, and only the
    [evidence] text depends on it. *)
Definition addresses_found (soup : Soup) : list string :=
  remove_dups
    (List.filter (fun clean => (15 <? Py.len clean)%nat)
       (List.map Py.strip (List.concat (address_matches soup)))).

Definition _count_real_addresses (html : string) (soup : Soup)
  : nat * option LocationSignal :=
  let found := addresses_found soup in
  let count := length found in
  if (5 <=? count)%nat then
    (count,
     Some {| signal_type := "ADDRESS_LIST"; confidence := "high";
             points := 10;
             details := Py.str_of_nat count
                        ++ " addresses found - location listing page";
             evidence := Py.join "; " (firstn 3 found) |})
  else if (2 <=? count)%nat then
    (count,
     Some {| signal_type := "ADDRESS_PAIR"; confidence := "medium";
             points := 3;
             details := Py.str_of_nat count ++ " addresses found";
             evidence := Py.join "; " (firstn 2 found) |})
  else (count, None).

Definition _count_coordinates (html : string) (soup : Soup)
  : nat * option LocationSignal :=
  let count :=
    (length (remove_dups (lat_matches soup))
     + length (remove_dups (latlng_matches soup)))%nat in
  if (3 <=? count)%nat then
    (count,
     Some {| signal_type := "COORDINATE_DATA"; confidence := "high";
             points := 8;
             details := Py.str_of_nat count ++ " coordinate markers found";
             evidence := "Multiple lat/lng coordinates" |})
  else if (1 <=? count)%nat then
    (count,
     Some {| signal_type := "COORDINATE_DATA"; confidence := "medium";
             points := 2;
             details := Py.str_of_nat count ++ " coordinate(s) found";
             evidence := "lat/lng data" |})
  else (count, None).

(** [len(re.findall(r'latlng\s*\(', s))]: the occurrences of [latlng]
    followed, after any white space, by an opening parenthesis. *)
Fixpoint count_latlng_calls (s : string) : nat :=
  match s with
  | EmptyString => 0%nat
  | String _ s' =>
      ((if Py.startswith s "latlng"
           && Py.startswith (Py.lstrip_by Py.is_space (Py.drop 6 s)) "("
        then 1 else 0) + count_latlng_calls s')%nat
  end.

Definition _detect_google_maps_strict (html : string) (soup : Soup)
  : option LocationSignal :=
  let html_lower := Py.lower html in
  let real_map_patterns :=
    ["google.com/maps/embed"; "/maps/d/embed"; "maps.google.com/maps?";
     "google.com/maps?q="; "google.com/maps/place"] in
  let exclude_patterns :=
    ["googletagmanager"; "recaptcha"; "analytics"; "gtag";
     "fonts.googleapis"; "ajax.googleapis"] in
  let has_real_map := Py.any_in real_map_patterns html_lower in
  let maps_links :=
    List.filter
      (fun a => Re.any_search ["google\.com/maps"; "maps\.google\.com"]
                  (a_href a))
      (anchors soup) in
  let maps_link_count := length maps_links in
  let embed :=
    if has_real_map then
      List.find
        (fun iframe =>
           let src := Py.lower (iframe_src iframe) in
           Py.any_in real_map_patterns src
           && negb (Py.any_in exclude_patterns src))
        (iframes soup)
    else None in
  match embed with
  | Some iframe =>
      let src := Py.lower (iframe_src iframe) in
      let pts := if (maps_link_count <? 3)%nat then 3 else 5 in
      Some {| signal_type := "GOOGLE_MAPS_EMBED";
              confidence := if pts =? 3 then "medium" else "high";
              points := pts;
              details := "Google Maps embed iframe (links="
                         ++ Py.str_of_nat maps_link_count ++ ")";
              evidence := Py.take 80 src |}
  | None =>
      if has_real_map && (3 <=? maps_link_count)%nat then
        Some {| signal_type := "GOOGLE_MAPS_LINK"; confidence := "high";
                points := 5;
                details := Py.str_of_nat maps_link_count
                           ++ " Google Maps links";
                evidence := "Multiple maps.google.com links" |}
      else if has_real_map && (maps_link_count =? 1)%nat then
        Some {| signal_type := "GOOGLE_MAPS_LINK"; confidence := "low";
                points := 1;
                details := "Single Google Maps link (likely HQ only)";
                evidence := "maps.google.com link" |}
      else if Py.contains "maps.googleapis.com/maps/api/js" html_lower then
        let map_init_patterns :=
          ["new google.maps.map"; "google.maps.marker";
           "google.maps.infowindow"; "initmap"; "mapinit"; "loadmap"] in
        if Py.any_in map_init_patterns html_lower then
          let marker_count :=
            (Py.count "google.maps.marker" html_lower
             + Py.count "addmarker" html_lower
             + Py.count "new marker" html_lower)%nat in
          let latlng_count := count_latlng_calls html_lower in
          if (3 <=? marker_count)%nat || (3 <=? latlng_count)%nat then
            Some {| signal_type := "GOOGLE_MAPS_API"; confidence := "high";
                    points := 5;
                    details := "Google Maps API with multiple markers (~"
                               ++ Py.str_of_nat
                                    (Nat.max marker_count latlng_count)
                               ++ ")";
                    evidence := "maps.googleapis.com with multiple markers" |}
          else
            Some {| signal_type := "GOOGLE_MAPS_API"; confidence := "low";
                    points := 2;
                    details := "Google Maps API (possibly single marker)";
                    evidence := "maps.googleapis.com" |}
        else None
      else None
  end.

Definition finder_keywords : list string :=
  ["find location"; "find terminal"; "find facility";
   "locate"; "search location"; "find near"; "nearby";
   "service center locator"; "terminal locator"].

Definition has_finder_language (form : Form) : bool :=
  let form_html := Py.lower (form_str form) in
  let form_text := Py.lower (form_text form) in
  existsb (fun kw => Py.contains kw form_html || Py.contains kw form_text)
    finder_keywords.

Definition has_radius (form : Form) : bool :=
  Py.any_in ["radius"; "distance"; "miles"; "within"]
    (Py.lower (form_str form)).

Definition is_quote_form (form : Form) : bool :=
  let form_html := Py.lower (form_str form) in
  let form_action := Py.lower (form_action form) in
  existsb (fun q => Py.contains q form_html || Py.contains q form_action)
    ["quote"; "lead"; "contact"; "order"; "ship"].

Definition finder_signal : LocationSignal :=
  {| signal_type := "LOCATION_FINDER"; confidence := "high";
     points := 8;
     details := "Location finder/locator form";
     evidence := "Form with location search capability" |}.

Definition search_signal : LocationSignal :=
  {| signal_type := "LOCATION_SEARCH"; confidence := "medium";
     points := 4;
     details := "Search form with radius/distance";
     evidence := "Form with radius search" |}.

(** The loop over the forms returns at the first form that yields a
    signal. *)
Fixpoint finder_form_loop (fs : list Form) : option LocationSignal :=
  match fs with
  | [] => None
  | form :: fs' =>
      if has_finder_language form && negb (is_quote_form form) then
        Some finder_signal
      else if has_radius form && negb (is_quote_form form) then
        Some search_signal
      else finder_form_loop fs'
  end.

(** The forms on which that loop returns. *)
Definition finder_trigger (form : Form) : bool :=
  (has_finder_language form || has_radius form) && negb (is_quote_form form).

Definition _detect_location_finder_form (html : string) (soup : Soup)
  : option LocationSignal :=
  finder_form_loop (forms soup).

(** ** Stage 3: secondary detectors *)

Definition dquote : string := String (ascii_of_nat 34) EmptyString.

Definition _detect_json_ld_strict (html : string) (soup : Soup)
  : option LocationSignal :=
  let location_count :=
    fold_left
      (fun n script =>
         match script with
         | Some dumped =>
             let data_str := Py.lower dumped in
             (n + Py.count (dquote ++ "streetaddress" ++ dquote) data_str
              + Py.count (dquote ++ "postalcode" ++ dquote) data_str)%nat
         | None => n
         end)
      (ld_json soup) 0%nat in
  if (4 <=? location_count)%nat then
    Some {| signal_type := "JSON_LD_LOCATIONS"; confidence := "high";
            points := 5;
            details := "JSON-LD with "
                       ++ Py.str_of_nat (location_count / 2) ++ "+ locations";
            evidence := "Structured data with multiple addresses" |}
  else None.

Definition _detect_interactive_maps (html : string) (soup : Soup)
  : list LocationSignal :=
  let html_lower := Py.lower html in
  List.concat
    (List.map
       (fun '(lib_name, signatures) =>
          match List.find (fun sig => Py.contains (Py.lower sig) html_lower)
                  signatures with
          | Some sig =>
              [{| signal_type := "MAP_" ++ Py.upper lib_name;
                  confidence := "high";
                  points := 3;
                  details := Py.title (Py.replace "_" " " lib_name)
                             ++ " map detected";
                  evidence := sig |}]
          | None => []
          end)
       MAP_LIBRARIES).

Definition _detect_location_iframes (html : string) (soup : Soup)
  : list LocationSignal :=
  let location_keywords :=
    ["map"; "location"; "store"; "dealer"; "terminal";
     "branch"; "office"; "locator"] in
  let location_iframes :=
    List.filter
      (fun iframe =>
         let src := Py.lower (iframe_src iframe) in
         let title := Py.lower (iframe_title iframe) in
         let name := Py.lower (iframe_name iframe) in
         if Py.contains "google.com/maps" src || Py.contains "maps.google" src
         then false
         else existsb
                (fun kw => Py.contains kw src || Py.contains kw title
                           || Py.contains kw name)
                location_keywords)
      (iframes soup) in
  match location_iframes with
  | [] => []
  | _ =>
      [{| signal_type := "LOCATION_IFRAME"; confidence := "medium";
          points := 3;
          details := Py.str_of_nat (length location_iframes)
                     ++ " location-related iframe(s)";
          evidence := "Sources: "
                      ++ Py.join ", "
                           (List.map (fun i => Py.take 60 (iframe_src i))
                              (firstn 2 location_iframes)) |}]
  end.

Definition _detect_pdf_links (html : string) (soup : Soup)
  : list LocationSignal :=
  let high_value_keywords :=
    ["servicemap"; "service-map"; "terminal-map"; "location-map";
     "coverage-map"; "network-map"; "facility-map"; "directory"] in
  let regular_keywords :=
    ["location"; "terminal"; "service"; "facility"; "map"] in
  let pdf_links :=
    List.filter (fun link => Py.contains ".pdf" (Py.lower (a_href link)))
      (anchors soup) in
  let is_high link := Py.any_in high_value_keywords (Py.lower (a_href link)) in
  let high_value_pdfs :=
    List.map (fun link => Py.lower (a_href link))
      (List.filter is_high pdf_links) in
  let regular_pdfs :=
    List.map (fun link => Py.lower (a_href link))
      (List.filter
         (fun link =>
            negb (is_high link)
            && existsb
                 (fun kw => Py.contains kw (Py.lower (a_href link))
                            || Py.contains kw (Py.lower (a_text link)))
                 regular_keywords)
         pdf_links) in
  match high_value_pdfs, regular_pdfs with
  | first :: _, _ =>
      [{| signal_type := "PDF_SERVICEMAP"; confidence := "high";
          points := 8;
          details := "Service/location map PDF: " ++ Py.take 50 first;
          evidence := Py.join "; " (firstn 2 high_value_pdfs) |}]
  | [], _ :: _ =>
      [{| signal_type := "PDF_LOCATIONS"; confidence := "medium";
          points := 2;
          details := Py.str_of_nat (length regular_pdfs)
                     ++ " location-related PDF(s)";
          evidence := Py.join "; " (firstn 2 regular_pdfs) |}]
  | [], [] => []
  end.

(** ** [classify_html] *)

(** [sum(signal.points for signal in signals)], as the loop computes it. *)
Definition sum_points (signals : list LocationSignal) : Z :=
  fold_left (fun total signal => total + points signal) signals 0.

(** The classification returned by a Stage 1 disqualifier. *)
Definition disqualified (url title details evidence : string)
  : PageClassification :=
  {| url := url; title := title;
     signals := [{| signal_type := "DISQUALIFIED"; confidence := "high";
                    points := 0; details := details; evidence := evidence |}];
     total_score := 0; is_location_page := false; url_priority := "" |}.

(** [x or y] on strings *)
Definition str_or (x y : string) : string :=
  if String.eqb x "" then y else x.

(** [signals.append(s)] when a detector returned a signal. *)
Definition append_opt (signals : list LocationSignal)
  (s : option LocationSignal) : list LocationSignal :=
  match s with
  | Some sig => (signals ++ [sig])%list
  | None => signals
  end.

(** STEP 2 and STEP 3 of [classify_html]: the primary detectors in
    their order, then the URL context; the result is the list [signals]
    and the flag [has_primary_signal]. *)
Definition primary_signals (html : string) (soup : Soup)
  (url url_lower : string) : list LocationSignal * bool :=
  let signals : list LocationSignal := [] in
  let has_primary_signal := false in
  let is_index_page := Re.any_search INDEX_URL_PATTERNS url_lower in
  let '(signals, has_primary_signal) :=
    if is_index_page then
      ((signals
        ++ [{| signal_type := "INDEX_PAGE"; confidence := "high";
               points := 15;
               details := "URL is a location index page";
               evidence := Py.take 80 url |}])%list, true)
    else (signals, has_primary_signal) in
  let '(address_count, address_signal) := _count_real_addresses html soup in
  let '(signals, has_primary_signal) :=
    if (5 <=? address_count)%nat then (append_opt signals address_signal, true)
    else if (2 <=? address_count)%nat
    then (append_opt signals address_signal, has_primary_signal)
    else (signals, has_primary_signal) in
  let '(coord_count, coord_signal) := _count_coordinates html soup in
  let '(signals, has_primary_signal) :=
    if (3 <=? coord_count)%nat then (append_opt signals coord_signal, true)
    else if (1 <=? coord_count)%nat
    then (append_opt signals coord_signal, has_primary_signal)
    else (signals, has_primary_signal) in
  let maps_signal := _detect_google_maps_strict html soup in
  let '(signals, has_primary_signal) :=
    match maps_signal with
    | Some sig =>
        if 5 <=? points sig then ((signals ++ [sig])%list, true)
        else ((signals ++ [sig])%list, has_primary_signal)
    | None => (signals, has_primary_signal)
    end in
  let locator_signal := _detect_location_finder_form html soup in
  let '(signals, has_primary_signal) :=
    match locator_signal with
    | Some sig => ((signals ++ [sig])%list, true)
    | None => (signals, has_primary_signal)
    end in
  if negb has_primary_signal && _has_location_url url_lower then
    ((signals
      ++ [{| signal_type := "URL_CONTEXT"; confidence := "medium";
             points := 3;
             details := "URL suggests location content";
             evidence := Py.take 60 url |}])%list, true)
  else (signals, has_primary_signal).

(** STEP 5 of [classify_html]: the secondary detectors in their order. *)
Definition secondary_signals (html : string) (soup : Soup)
  (signals : list LocationSignal) : list LocationSignal :=
  let signals := append_opt signals (_detect_json_ld_strict html soup) in
  let signals := (signals ++ _detect_interactive_maps html soup)%list in
  let signals := (signals ++ _detect_location_iframes html soup)%list in
  (signals ++ _detect_pdf_links html soup)%list.

(** [soup.title.string.strip()] when there is a title, else the empty
    string. *)
Definition page_title (soup : Soup) : string :=
  match title_string soup with
  | Some s => if String.eqb s "" then "" else Py.strip s
  | None => ""
  end.

Definition classify_html (html : string) (soup : Soup)
  (url filename : string) : PageClassification :=
  let title := page_title soup in
  let url_lower := Py.lower (str_or url filename) in
  (* STEP 1: disqualifiers *)
  if _is_error_page html soup title then
    disqualified (str_or url filename) title "Error/404 page" (Py.take 50 title)
  else if _is_non_english soup && negb (_has_location_url url_lower) then
    disqualified (str_or url filename) title "Non-English page"
      "lang attribute or content"
  else if _is_excluded_page_type url_lower title then
    disqualified (str_or url filename) title "Quote/career/excluded page type"
      (Py.take 50 url)
  else
    (* STEP 2 and STEP 3 *)
    let '(signals, has_primary_signal) :=
      primary_signals html soup url url_lower in
    (* STEP 4: no primary signal *)
    if negb has_primary_signal then
      {| url := str_or url filename; title := title;
         signals :=
           match signals with
           | [] => [{| signal_type := "NO_LOCATION_CONTENT";
                       confidence := "high"; points := 0;
                       details := "No primary location signals found";
                       evidence := "" |}]
           | _ => signals
           end;
         total_score := 0; is_location_page := false; url_priority := "" |}
    else
      (* STEP 5: secondary signals, then the score *)
      let signals := secondary_signals html soup signals in
      let total_score := sum_points signals in
      {| url := str_or url filename; title := title;
         signals := signals;
         total_score := Z.max 0 total_score;
         is_location_page := LOCATION_PAGE_THRESHOLD <=? total_score;
         url_priority := "" |}.

(** Stage 1 as one condition: some disqualifier fires. *)
Definition stage1_disqualified (html : string) (soup : Soup)
  (url filename : string) : bool :=
  let title := page_title soup in
  let url_lower := Py.lower (str_or url filename) in
  _is_error_page html soup title
  || (_is_non_english soup && negb (_has_location_url url_lower))
  || _is_excluded_page_type url_lower title.

(** ** [classify_carrier] *)

(** A truthy optional attribute: present and not empty. *)
Definition truthy (o : option string) : bool :=
  match o with
  | Some s => negb (String.eqb s "")
  | None => false
  end.

Definition _extract_url_from_html (html : string) (soup : Soup) : string :=
  if truthy (meta_crawler_url soup) then default "" (meta_crawler_url soup)
  else if truthy (link_canonical soup) then default "" (link_canonical soup)
  else if truthy (meta_og_url soup) then default "" (meta_og_url soup)
  else if truthy (meta_twitter_url soup) then default "" (meta_twitter_url soup)
  else "".

(** One saved page of [pages_dir.glob('*.html')]: the file stem, the text
    read from it and its parse. *)
Record HtmlFile : Type := {
  file_stem : string;
  file_html : string;
  file_soup : Soup
}.

(** [modality_counts[k] += 1] on a [defaultdict(int)] *)
Definition increment (k : string) (m : gmap string nat) : gmap string nat :=
  <[k := S (default 0%nat (m !! k))]> m.

(** The inner loop over the signals of an accepted page. *)
Definition count_signals (signals : list LocationSignal)
  (m : gmap string nat) : gmap string nat :=
  fold_left
    (fun m signal =>
       if 0 <? points signal then increment (signal_type signal) m else m)
    signals m.

(** [l.sort(key=lambda x: x.total_score, reverse=True)]: the sort is
    stable, so among equal scores the earlier element stays first. *)
Fixpoint insert_by_score (c : PageClassification)
  (l : list PageClassification) : list PageClassification :=
  match l with
  | [] => [c]
  | d :: l' =>
      if total_score c <? total_score d then d :: insert_by_score c l'
      else c :: l
  end.

Definition sort_by_score (l : list PageClassification)
  : list PageClassification :=
  fold_right insert_by_score [] l.

(** [modality_counts.get(k)] read as a condition. *)
Definition has_modality (m : gmap string nat) (k : string) : bool :=
  match m !! k with
  | Some n => negb (n =? 0)%nat
  | None => false
  end.

Definition _generate_recommendation (modality_counts : gmap string nat)
  : string :=
  if decide (modality_counts = ∅) then
    "No location data detected - manual review needed"
  else
    let recommendations : list string :=
      ((if has_modality modality_counts "ADDRESS_LIST"
           || has_modality modality_counts "ADDRESS_PAIR"
        then ["Parse addresses from HTML"] else [])
       ++ (if has_modality modality_counts "GOOGLE_MAPS_EMBED"
              || has_modality modality_counts "GOOGLE_MAPS_API"
           then ["Extract from Google Maps embed"] else [])
       ++ (if has_modality modality_counts "GOOGLE_MAPS_LINKS"
           then ["Parse Google Maps URLs"] else [])
       ++ (if existsb (fun kv => Py.contains "MAP_" (fst kv))
                (map_to_list modality_counts)
           then ["Query map API/data source"] else [])
       ++ (if has_modality modality_counts "PDF_LOCATIONS"
           then ["Parse PDF documents"] else [])
       ++ (if has_modality modality_counts "LOCATION_SEARCH"
           then ["Automate location search form"] else [])
       ++ (if has_modality modality_counts "JSON_LD_LOCATION"
           then ["Parse JSON-LD structured data"] else []))%list in
    match recommendations with
    | [] => "Manual review needed"
    | _ => Py.join "; " recommendations
    end.

(** The state of the loop over the files: [report.location_pages],
    [all_classifications] and [modality_counts]. *)
Definition scan_file
  (acc : nat * list PageClassification * gmap string nat)
  (html_file : HtmlFile)
  : nat * list PageClassification * gmap string nat :=
  let '(location_pages, all_classifications, modality_counts) := acc in
  let html := file_html html_file in
  let soup := file_soup html_file in
  let actual_url := _extract_url_from_html html soup in
  let actual_url :=
    if String.eqb actual_url "" then file_stem html_file else actual_url in
  let classification :=
    classify_html html soup actual_url (file_stem html_file) in
  if is_location_page classification then
    (S location_pages,
     (all_classifications ++ [classification])%list,
     count_signals (signals classification) modality_counts)
  else acc.

(** [classify_carrier(carrier_name, pages_dir)]; [dir_name] is
    [pages_dir.name] and [html_files] the listing of the directory. *)
Definition classify_carrier (carrier_name dir_name : string)
  (html_files : list HtmlFile) : CarrierReport :=
  let '(location_pages, all_classifications, modality_counts) :=
    fold_left scan_file html_files (0%nat, [], ∅) in
  {| carrier_name := carrier_name;
     domain := dir_name;
     total_pages := length html_files;
     location_pages := location_pages;
     modalities_found := modality_counts;
     top_pages := firstn 20 (sort_by_score all_classifications);
     recommended_approach := _generate_recommendation modality_counts |}.

(** ** The structured output of [generate_modality_report] *)

(** One entry of the [top_pages] list of the JSON document. *)
Record JsonPage : Type := {
  json_url : string;
  json_title : string;
  json_score : Z;
  json_signals : list LocationSignal
}.

(** The JSON object written for one carrier. *)
Record JsonCarrier : Type := {
  json_carrier_name : string;
  json_domain : string;
  json_total_pages : nat;
  json_location_pages : nat;
  json_modalities_found : gmap string nat;
  json_recommended_approach : string;
  json_top_pages : list JsonPage
}.

Definition json_of_page (p : PageClassification) : JsonPage :=
  {| json_url := url p;
     json_title := title p;
     json_score := total_score p;
     json_signals := List.filter (fun s => 0 <? points s) (signals p) |}.

Definition json_of_report (r : CarrierReport) : JsonCarrier :=
  {| json_carrier_name := carrier_name r;
     json_domain := domain r;
     json_total_pages := total_pages r;
     json_location_pages := location_pages r;
     json_modalities_found := modalities_found r;
     json_recommended_approach := recommended_approach r;
     json_top_pages := List.map json_of_page (firstn 10 (top_pages r)) |}.

(** The [json_data] dictionary that [generate_modality_report] dumps
    next to the text report. *)
Definition generate_modality_report (reports : gmap string CarrierReport)
  : gmap string JsonCarrier :=
  json_of_report <$> reports.

(** Modelled from the spec: the reconstruction of a report from the
    structured output ("serializing a SiteReport to the structured report
    format and reconstructing it"); the repository writes that file and
    has no reader for it. Each field is read back from the key that
    [generate_modality_report] wrote it under; a page reads back as
    accepted, since only accepted pages are written. *)
Definition page_of_json (p : JsonPage) : PageClassification :=
  {| url := json_url p;
     title := json_title p;
     signals := json_signals p;
     total_score := json_score p;
     is_location_page := true;
     url_priority := "" |}.

Definition report_of_json (j : JsonCarrier) : CarrierReport :=
  {| carrier_name := json_carrier_name j;
     domain := json_domain j;
     total_pages := json_total_pages j;
     location_pages := json_location_pages j;
     modalities_found := json_modalities_found j;
     top_pages := List.map page_of_json (json_top_pages j);
     recommended_approach := json_recommended_approach j |}.

(** What identifies a page in a ranking: its URL, title and score. *)
Definition page_key (p : PageClassification) : string * string * Z :=
  (url p, title p, total_score p).

(** Scores in descending order. *)
Definition score_descending (l : list PageClassification) : Prop :=
  StronglySorted (fun a b => total_score b <= total_score a) l.

(** A signal that does not lower the score. *)
Definition nonneg (s : LocationSignal) : Prop := 0 <= points s.

(** ** Names used in the statements about [classify_carrier] *)

(** The classification that the loop of [classify_carrier] computes for
    one file: the URL is the one found in the page, or else the file
    stem. *)
Definition classify_file (html_file : HtmlFile) : PageClassification :=
  let actual_url :=
    _extract_url_from_html (file_html html_file) (file_soup html_file) in
  classify_html (file_html html_file) (file_soup html_file)
    (if String.eqb actual_url "" then file_stem html_file else actual_url)
    (file_stem html_file).

(** The values of [signal_type] that [classify_html] writes. *)
Definition SIGNAL_TYPES : list string :=
  ["DISQUALIFIED"; "NO_LOCATION_CONTENT"; "INDEX_PAGE";
   "ADDRESS_LIST"; "ADDRESS_PAIR"; "COORDINATE_DATA";
   "GOOGLE_MAPS_EMBED"; "GOOGLE_MAPS_LINK"; "GOOGLE_MAPS_API";
   "LOCATION_FINDER"; "LOCATION_SEARCH"; "URL_CONTEXT";
   "JSON_LD_LOCATIONS"; "MAP_MAPBOX"; "MAP_LEAFLET"; "MAP_ARCGIS";
   "LOCATION_IFRAME"; "PDF_SERVICEMAP"; "PDF_LOCATIONS"].

(** The signal types for which [_generate_recommendation] has no
    advice. *)
Definition UNADVISED_TYPES : list string :=
  ["INDEX_PAGE"; "COORDINATE_DATA"; "GOOGLE_MAPS_LINK"; "LOCATION_FINDER";
   "URL_CONTEXT"; "JSON_LD_LOCATIONS"; "LOCATION_IFRAME"; "PDF_SERVICEMAP"].

(** The classifications of the accepted pages among [html_files], in
    the order of the files. *)
Definition accepted_pages (html_files : list HtmlFile)
  : list PageClassification :=
  List.filter is_location_page (List.map classify_file html_files).

(** The signals of type [k] with positive points on [pages]. *)
Definition positive_signals (k : string) (pages : list PageClassification)
  : list LocationSignal :=
  List.filter (fun s => (0 <? points s) && String.eqb (signal_type s) k)
    (List.concat (List.map signals pages)).

(** A signal whose type is one of [SIGNAL_TYPES]. *)
Definition known_type (s : LocationSignal) : Prop :=
  Urllib.mem (signal_type s) SIGNAL_TYPES = true.

End Classifier.

(* ===================================================================== *)
(** * page_crawler.py                                                    *)
(* ===================================================================== *)

Module Crawler.

(** What the browser returns for one page: the response status, the URL
    after redirects, the rendered HTML, the title and the [href]
    attributes of the anchors of the rendered page. *)
Record Response : Type := {
  status : nat;
  final_url : string;
  html : string;
  page_title : string;
  hrefs : list string
}.

(** The three ways [_crawl_page] can go: an exception inside the [try]
    block (a timeout or any other), [page.goto] returning no response,
    or a loaded page. *)
Inductive Navigation : Type :=
  | Raised
  | NoResponse
  | Loaded (r : Response).

Record PageData : Type := {
  pd_url : string;
  pd_final_url : string;
  pd_status_code : nat;
  pd_title : string;
  pd_html_length : nat;
  pd_extracted_links : list string;
  pd_link_count : nat;
  pd_has_location_data : bool
}.

Record PageCrawler : Type := {
  base_url : string;
  carrier_name : string;
  domain : string;
  urls_to_visit : list string;
  visited_urls : gset string;
  failed_urls : gset string;
  pages_data : list PageData
}.

(** The calls the statements speak of: a URL put on [urls_to_visit], and
    a URL handed to [page.goto]. *)
Inductive Event : Type :=
  | Enqueued (url : string)
  | Fetched (url : string).

(** The variables of the [while] loop of [crawl], with the log of the
    events so far. *)
Record LoopState : Type := {
  crawler : PageCrawler;
  page_num : nat;
  trace : list Event
}.

(** [PageCrawler.__init__] *)
Definition init (base_url carrier_name : string) : result PageCrawler :=
  let* domain := Utils.extract_domain base_url in
  Ok {| base_url := Py.rstrip_slash base_url;
        carrier_name := carrier_name;
        domain := domain;
        urls_to_visit := [];
        visited_urls := ∅;
        failed_urls := ∅;
        pages_data := [] |}.

Definition _is_pdf_or_map (url : string) : bool :=
  let url_lower := Py.lower url in
  if Py.contains ".pdf" url_lower then
    Py.any_in ["map"; "service"; "terminal"; "location"; "network";
               "coverage"; "facility"; "directory"] url_lower
  else false.

Definition _is_tool_subdomain (url : string) : bool :=
  Py.any_in ["ext-web."; "tools."; "apps."; "app."; "my."; "portal.";
             "locator."; "finder."; "search."] (Py.lower url).

Definition _is_same_site (self : PageCrawler) (url : string) : bool :=
  match Urllib.urlparse url "", Urllib.urlparse (base_url self) "" with
  | Ok parsed, Ok base_parsed =>
      let url_domain := Py.lower (Urllib.netloc parsed) in
      let base_domain :=
        Py.replace "www." "" (Py.lower (Urllib.netloc base_parsed)) in
      Py.contains base_domain url_domain
      || Py.endswith url_domain ("." ++ base_domain)
  | _, _ => false
  end.

Definition _is_index_page (url : string) : bool :=
  let url_lower := Py.rstrip_slash (Py.lower url) in
  let index_patterns :=
    ["/locations"; "/locations.html"; "/our-locations";
     "/terminals"; "/terminal-locations"; "/all-locations";
     "/service-centers"; "/service-center"; "/service-center-locator";
     "/service-locations"; "/facilities"; "/branches";
     "/find-us"; "/find-location"; "/branch-locator";
     "/load-board/map"; "/loadboard/map"; "/map"; "/map.html";
     "/locator"; "/store-locator"; "/dealer-locator"] in
  if existsb (fun pattern => Py.endswith url_lower pattern) index_patterns
  then true
  else if Py.contains "servicemap" url_lower && Py.contains ".pdf" url_lower
  then true
  else false.

(** [_extract_links_js]: every [href] that normalizes to a URL of the
    same domain; an [href] on which [normalize_url] raises is skipped. *)
Definition _extract_links_js (self : PageCrawler) (hrefs : list string)
  (page_url : string) : gset string :=
  fold_left
    (fun links href =>
       if String.eqb href "" then links
       else
         match Utils.normalize_url href page_url with
         | Ok (Some normalized) =>
             if negb (String.eqb normalized "")
                && Utils.is_same_domain normalized (domain self)
             then links ∪ {[normalized]}
             else links
         | _ => links
         end)
    hrefs ∅.

Section Crawl.

(** The browser: what the [n]-th navigation of the crawl, to [url],
    yields. *)
Variable goto : nat -> string -> Navigation.

(** The order in which a set is iterated over ([for url in initial_urls],
    [list(links)]); Python does not specify it. *)
Variable set_order : gset string -> list string.

(** [_crawl_page]: the URL joins [visited_urls] first, and also
    [failed_urls] when the page does not load. *)
Definition _crawl_page (self : PageCrawler) (n : nat) (url : string)
  : PageCrawler * option PageData :=
  let self :=
    {| base_url := base_url self; carrier_name := carrier_name self;
       domain := domain self; urls_to_visit := urls_to_visit self;
       visited_urls := visited_urls self ∪ {[url]};
       failed_urls := failed_urls self;
       pages_data := pages_data self |} in
  let fail :=
    {| base_url := base_url self; carrier_name := carrier_name self;
       domain := domain self; urls_to_visit := urls_to_visit self;
       visited_urls := visited_urls self;
       failed_urls := failed_urls self ∪ {[url]};
       pages_data := pages_data self |} in
  match goto n url with
  | Raised => (fail, None)
  | NoResponse => (fail, None)
  | Loaded response =>
      if 400 <=? status response then (fail, None)
      else
        let links :=
          _extract_links_js self (hrefs response) (final_url response) in
        (self,
         Some {| pd_url := url;
                 pd_final_url := final_url response;
                 pd_status_code := status response;
                 pd_title := page_title response;
                 pd_html_length := Py.len (html response);
                 pd_extracted_links := set_order links;
                 pd_link_count := size links;
                 pd_has_location_data := false |})
  end.

Definition with_queue (self : PageCrawler) (q : list string) : PageCrawler :=
  {| base_url := base_url self; carrier_name := carrier_name self;
     domain := domain self; urls_to_visit := q;
     visited_urls := visited_urls self;
     failed_urls := failed_urls self;
     pages_data := pages_data self |}.

(** [l.insert(i, x)] *)
Definition list_insert_at {A : Type} (i : nat) (x : A) (l : list A) : list A :=
  (firstn i l ++ x :: skipn i l)%list.

(** One round of the loop over [new_urls]: where the link goes, if it is
    queued at all. *)
Definition enqueue_link (acc : PageCrawler * list Event) (new_url : string)
  : PageCrawler * list Event :=
  let '(self, log) := acc in
  if bool_decide (new_url ∉ visited_urls self)
     && bool_decide (new_url ∉ failed_urls self)
  then
    if negb (existsb (String.eqb new_url) (urls_to_visit self)) then
      if _is_index_page new_url || _is_pdf_or_map new_url then
        (with_queue self (list_insert_at 0 new_url (urls_to_visit self)),
         (log ++ [Enqueued new_url])%list)
      else if _is_tool_subdomain new_url then
        (with_queue self (list_insert_at 1 new_url (urls_to_visit self)),
         (log ++ [Enqueued new_url])%list)
      else if _is_same_site self new_url then
        (with_queue self (urls_to_visit self ++ [new_url])%list,
         (log ++ [Enqueued new_url])%list)
      else acc
    else acc
  else acc.

(** The guard of the [while] loop. *)
Definition running (st : LoopState) : bool :=
  match urls_to_visit (crawler st) with
  | [] => false
  | _ => size (visited_urls (crawler st)) <? Config.MAX_PAGES_PER_SITE
  end.

(** The body of the [while] loop. *)
Definition loop_body (st : LoopState) : LoopState :=
  let self := crawler st in
  match urls_to_visit self with
  | [] => st
  | url :: rest =>
      let self := with_queue self rest in
      if bool_decide (url ∈ visited_urls self)
         || bool_decide (url ∈ failed_urls self)
      then {| crawler := self; page_num := page_num st; trace := trace st |}
      else
        let page_num := S (page_num st) in
        let log := (trace st ++ [Fetched url])%list in
        let '(self, page_data) := _crawl_page self page_num url in
        match page_data with
        | Some data =>
            let self :=
              {| base_url := base_url self;
                 carrier_name := carrier_name self;
                 domain := domain self;
                 urls_to_visit := urls_to_visit self;
                 visited_urls := visited_urls self;
                 failed_urls := failed_urls self;
                 pages_data := (pages_data self ++ [data])%list |} in
            let '(self, log) :=
              fold_left enqueue_link (pd_extracted_links data) (self, log) in
            {| crawler := self; page_num := page_num; trace := log |}
        | None => {| crawler := self; page_num := page_num; trace := log |}
        end
  end.

(** The [while] loop; [None] when the fuel runs out first. *)
Fixpoint crawl_loop (fuel : nat) (st : LoopState) : option LoopState :=
  if running st then
    match fuel with
    | O => None
    | S fuel' => crawl_loop fuel' (loop_body st)
    end
  else Some st.

(** The state after [k] rounds of the loop body. *)
Fixpoint rounds (k : nat) (st : LoopState) : LoopState :=
  match k with
  | O => st
  | S k' => rounds k' (loop_body st)
  end.

(** The seed queue: the homepage, then the index and document seeds,
    then at most 50 of the others. *)
Definition seed_queue (self : PageCrawler) (initial_urls : gset string)
  : list string :=
  let seeds :=
    List.filter
      (fun url =>
         negb (String.eqb url (base_url self))
         && negb (String.eqb url (base_url self ++ "/")))
      (set_order initial_urls) in
  let index_urls :=
    List.filter (fun url => _is_index_page url || _is_pdf_or_map url) seeds in
  let other_urls :=
    List.filter
      (fun url => negb (_is_index_page url || _is_pdf_or_map url)) seeds in
  (base_url self :: index_urls ++ firstn 50 other_urls)%list.

(** The state on entry of the [while] loop. *)
Definition start (self : PageCrawler) (initial_urls : gset string)
  : LoopState :=
  let queue := seed_queue self initial_urls in
  {| crawler := with_queue self queue;
     page_num := 0;
     trace := List.map Enqueued queue |}.

(** [crawl(browser, initial_urls)]: the state in which the loop ends. *)
Definition crawl (fuel : nat) (self : PageCrawler)
  (initial_urls : gset string) : option LoopState :=
  crawl_loop fuel (start self initial_urls).

End Crawl.

(** The URLs fetched, and the URLs enqueued, in the order of the log. *)
Definition fetched (log : list Event) : list string :=
  List.concat
    (List.map (fun e => match e with Fetched u => [u] | _ => [] end) log).

Definition enqueued (log : list Event) : list string :=
  List.concat
    (List.map (fun e => match e with Enqueued u => [u] | _ => [] end) log).

(** Does a navigation count as a failure in [_crawl_page]? *)
Definition load_failed (nav : Navigation) : bool :=
  match nav with
  | Raised => true
  | NoResponse => true
  | Loaded r => 400 <=? status r
  end.

(** The invariant of the [while] loop of [crawl]. *)
Record crawl_inv (goto : nat -> string -> Navigation) (st : LoopState)
  : Prop := {
  inv_queue_nodup : NoDup (urls_to_visit (crawler st));
  inv_queue_fresh :
    forall u, u ∈ urls_to_visit (crawler st) -> u ∉ visited_urls (crawler st);
  inv_failed_visited : failed_urls (crawler st) ⊆ visited_urls (crawler st);
  inv_fetched_nodup : NoDup (fetched (trace st));
  inv_enqueued_nodup : NoDup (enqueued (trace st));
  inv_fetched_visited :
    forall u, u ∈ fetched (trace st) <-> u ∈ visited_urls (crawler st);
  inv_enqueued_seen :
    forall u, u ∈ enqueued (trace st) ->
              u ∈ urls_to_visit (crawler st) \/ u ∈ visited_urls (crawler st);
  inv_queue_enqueued :
    forall u, u ∈ urls_to_visit (crawler st) -> u ∈ enqueued (trace st);
  inv_fetched_enqueued :
    forall u, u ∈ fetched (trace st) -> u ∈ enqueued (trace st);
  inv_page_num : page_num st = length (fetched (trace st));
  inv_size : size (visited_urls (crawler st)) = length (fetched (trace st));
  inv_failed :
    forall u, u ∈ failed_urls (crawler st) <->
              exists n, fetched (trace st) !! n = Some u
                        /\ load_failed (goto (S n) u) = true
}.

(** ** The other methods of [PageCrawler] *)

(** [_extract_links]: the same loop over the parsed anchors, inside one
    [try] block: an [href] on which [normalize_url] raises ends the loop,
    and the links found so far are returned. *)
Fixpoint extract_links_loop (self : PageCrawler) (hrefs : list string)
  (page_url : string) (links : gset string) : gset string :=
  match hrefs with
  | [] => links
  | href :: rest =>
      if String.eqb href "" then extract_links_loop self rest page_url links
      else
        match Utils.normalize_url href page_url with
        | Ok (Some normalized) =>
            if negb (String.eqb normalized "")
               && Utils.is_same_domain normalized (domain self)
            then extract_links_loop self rest page_url (links ∪ {[normalized]})
            else extract_links_loop self rest page_url links
        | Ok None => extract_links_loop self rest page_url links
        | ValueError => links
        end
  end.

Definition _extract_links (self : PageCrawler) (hrefs : list string)
  (page_url : string) : gset string :=
  extract_links_loop self hrefs page_url ∅.

Definition _is_priority_url (url : string) : bool :=
  Py.any_in
    ["location"; "terminal"; "facilit"; "service-center"; "service-location";
     "find-us"; "find-location"; "branch"; "yard"; "depot";
     "loadboard"; "load-board"; "map"; "locator"; "finder";
     "servicemap"; "branch-locator"; "store-locator"; "dealer-locator";
     "centers"; "coverage"; "network"]
    (Py.lower url).

(** The name of [self.output_dir]. *)
Definition safe_domain (self : PageCrawler) : string :=
  Py.replace "/" "_" (Py.replace "." "_" (domain self)).

(** The text [<meta name="crawler-original-url"]. *)
Definition original_url_marker : string :=
  "<meta name=" ++ Classifier.dquote ++ "crawler-original-url"
  ++ Classifier.dquote.

Definition nl : string := String Re.newline EmptyString.

(** The tag that [_save_page_html] injects for [url]. *)
Definition inject_tag (url : string) : string :=
  original_url_marker ++ " content=" ++ Classifier.dquote ++ url
  ++ Classifier.dquote ++ ">" ++ nl.

(** [_save_page_html(url, html)]: the text written to the file of the
    page. In the branch of [<head ] with attributes the inner [find]
    succeeds, and a [>] that is not found reads as index [-1]. *)
Definition _save_page_html (url html : string) : string :=
  if negb (Py.contains original_url_marker html) then
    if Py.contains "<head>" html then
      Py.replace_first "<head>" ("<head>" ++ nl ++ inject_tag url) html
    else if Py.contains "<head " html then
      let head_end :=
        match Py.find "<head " html with
        | Some i =>
            match Py.find_char_from ">" i html with
            | Some j => S j
            | None => 0
            end
        | None => 0
        end in
      Py.take head_end html ++ nl ++ inject_tag url ++ Py.drop head_end html
    else html
  else html.

(** The keys of [page['location_signals']]: [_detect_location_signals]
    returns the empty dictionary for every page. *)
Definition location_signal_keys (page : PageData) : list string := [].

(** The summary of [_generate_summary], without the three fields read
    from the clock ([duration_seconds], [pages_per_second],
    [crawled_at]). *)
Record Summary : Type := {
  summary_carrier_name : string;
  summary_base_url : string;
  summary_domain : string;
  pages_crawled : nat;
  pages_failed : nat;
  pages_with_location_signals : nat;
  signal_summary : gmap string nat;
  pages_with_signals : list (string * string * list string)
}.

Definition _generate_summary (self : PageCrawler) : Summary :=
  let with_signals := List.filter pd_has_location_data (pages_data self) in
  let signal_types :=
    fold_left
      (fun m page =>
         fold_left (fun m signal => <[signal := S (default 0 (m !! signal))]> m)
           (location_signal_keys page) m)
      with_signals (∅ : gmap string nat) in
  {| summary_carrier_name := carrier_name self;
     summary_base_url := base_url self;
     summary_domain := domain self;
     pages_crawled := size (visited_urls self);
     pages_failed := size (failed_urls self);
     pages_with_location_signals := length with_signals;
     signal_summary := signal_types;
     pages_with_signals :=
       List.map
         (fun p => (pd_url p, pd_title p, location_signal_keys p))
         with_signals |}.

(** ** Properties that the rounds of the crawl keep *)

(** The URLs of a crawl come from three places. *)
Definition from_site (self : PageCrawler) (seeds : gset string)
  (st : LoopState) : Prop :=
  base_url (crawler st) = base_url self
  /\ domain (crawler st) = domain self
  /\ forall u,
       u ∈ visited_urls (crawler st) \/ u ∈ urls_to_visit (crawler st) ->
       u = base_url self \/ u ∈ seeds
       \/ Utils.is_same_domain u (domain self) = true.

(** The first page fetched. *)
Definition homepage_first (self : PageCrawler) (st : LoopState) : Prop :=
  (fetched (trace st) = [] /\ head (urls_to_visit (crawler st))
                              = Some (base_url self))
  \/ head (fetched (trace st)) = Some (base_url self).

(** The counts of the crawl. *)
Definition counted (st : LoopState) : Prop :=
  size (visited_urls (crawler st)) <= Config.MAX_PAGES_PER_SITE
  /\ length (pages_data (crawler st)) + size (failed_urls (crawler st))
     = size (visited_urls (crawler st))
  /\ Forall (fun d => pd_has_location_data d = false
                      /\ pd_url d ∈ visited_urls (crawler st)
                      /\ pd_url d ∉ failed_urls (crawler st))
       (pages_data (crawler st)).

End Crawler.

(* ===================================================================== *)
(** * run_full_crawl.py                                                  *)
(* ===================================================================== *)

Module Runner.

Local Open Scope Z_scope.

Record Carrier : Type := {
  name : string;
  website : string
}.

(** The result dictionary of [crawl_single_carrier]. *)
Record Outcome : Type := {
  outcome_name : string;
  outcome_status : string
}.

(** The content of [crawl_checkpoint.json]. *)
Record Checkpoint : Type := {
  completed_count : nat;
  start_idx : nat;
  last_idx : Z;
  results : list Outcome
}.

(** [save_checkpoint(results, start_idx)]: the file written. *)
Definition save_checkpoint (results : list Outcome) (start_idx : nat)
  : Checkpoint :=
  {| completed_count := length results;
     start_idx := start_idx;
     last_idx := Z.of_nat start_idx + Z.of_nat (length results) - 1;
     results := results |}.

(** [load_checkpoint()]; the argument is the checkpoint file, [None] when
    it does not exist. *)
Definition load_checkpoint (file : option Checkpoint) : Z * list Outcome :=
  match file with
  | Some data => (last_idx data + 1, results data)
  | None => (0, [])
  end.

Definition batch_size : nat := 20.

(** [[carriers[i:i + 20] for i in range(0, len(carriers), 20)]] *)
Fixpoint batches_from (fuel : nat) (carriers : list Carrier)
  : list (list Carrier) :=
  match fuel, carriers with
  | S fuel', _ :: _ =>
      firstn batch_size carriers :: batches_from fuel' (skipn batch_size carriers)
  | _, _ => []
  end.

Definition batches (carriers : list Carrier) : list (list Carrier) :=
  batches_from (length carriers) carriers.

Section Run.

(** The outcome of crawling one carrier. *)
Variable crawl_single_carrier : Carrier -> Outcome.

(** The order in which [asyncio.as_completed] yields the results of a
    batch. *)
Variable as_completed : list Outcome -> list Outcome.

(** One round of the loop over the batches. *)
Definition run_batch (start_idx : nat)
  (acc : list Outcome * option Checkpoint) (batch : list Carrier)
  : list Outcome * option Checkpoint :=
  let '(results, _) := acc in
  let batch_results := as_completed (List.map crawl_single_carrier batch) in
  let results := (results ++ batch_results)%list in
  (results, Some (save_checkpoint results start_idx)).

(** [run_full_crawl(workers, start_idx, resume)] up to the point where
    the process stops: [stop_after] is [None] for a run that goes through
    all its batches, and [Some n] for a run that is interrupted once [n]
    batches are done. The result is the start index used, the [results]
    list and the checkpoint file left behind. *)
Definition run_full_crawl (all_carriers : list Carrier)
  (start_idx : nat) (resume : bool) (file : option Checkpoint)
  (stop_after : option nat)
  : nat * list Outcome * option Checkpoint :=
  let '(start_idx, previous_results) :=
    if resume then
      let '(i, previous) := load_checkpoint file in (Z.to_nat i, previous)
    else (start_idx, []) in
  let carriers := skipn start_idx all_carriers in
  let todo :=
    match stop_after with
    | Some n => firstn n (batches carriers)
    | None => batches carriers
    end in
  let '(results, file) :=
    fold_left (run_batch start_idx) todo (previous_results, file) in
  (start_idx, results, file).

End Run.

End Runner.

(* ===================================================================== *)
(** * Sample pages                                                       *)
(* ===================================================================== *)

Module Samples.

Import Classifier.

(** Filler that brings a page over the 2000-character threshold. *)
Definition filler : string := Py.repeat " " 2000.

Definition empty_soup : Soup :=
  {| title_string := None; html_lang := None; forms := []; anchors := [];
     iframes := []; ld_json := []; address_matches := [];
     lat_matches := []; latlng_matches := [];
     meta_crawler_url := None; link_canonical := None;
     meta_og_url := None; meta_twitter_url := None |}.

(** A soup with the given title, forms, anchors and address matches. *)
Definition soup_with (t : string) (fs : list Form) (links : list Anchor)
  (addresses : list (list string)) : Soup :=
  {| title_string := Some t; html_lang := Some "en"; forms := fs;
     anchors := links; iframes := []; ld_json := [];
     address_matches := addresses;
     lat_matches := []; latlng_matches := [];
     meta_crawler_url := None; link_canonical := None;
     meta_og_url := None; meta_twitter_url := None |}.

(** An "About" page with one link to Google Maps and nothing else. *)
Definition maps_link_html : string :=
  "<html lang='en'><head><title>About us</title></head><body>"
  ++ "<a href='https://www.google.com/maps?q=HQ'>Map</a></body></html>"
  ++ filler.

Definition maps_link_soup : Soup :=
  soup_with "About us" []
    [{| a_href := "https://www.google.com/maps?q=HQ"; a_text := "Map" |}] [].

(** A page whose only form has a radius field and no finder wording. *)
Definition radius_form : Form :=
  {| form_str := "<form action='/s'><input name='zip'>"
                 ++ "<select name='radius'></select></form>";
     form_action := "/s";
     form_text := "" |}.

Definition radius_form_html : string :=
  "<html lang='en'><head><title>Home</title></head><body>"
  ++ form_str radius_form ++ "</body></html>" ++ filler.

Definition radius_form_soup : Soup := soup_with "Home" [radius_form] [] [].

(** A page whose only form has finder wording and a radius field. *)
Definition finder_form : Form :=
  {| form_str := "<form action='/s'><label>Find terminal</label>"
                 ++ "<select name='radius'></select></form>";
     form_action := "/s";
     form_text := "Find terminal" |}.

Definition finder_form_html : string :=
  "<html lang='en'><head><title>Home</title></head><body>"
  ++ form_str finder_form ++ "</body></html>" ++ filler.

Definition finder_form_soup : Soup := soup_with "Home" [finder_form] [] [].

(** Pages with five, two and one address in the main content. *)
Definition five_addresses : list string :=
  ["Springfield, IL 62701"; "Columbus, OH 43215"; "Nashville, TN 37201";
   "Louisville, KY 40202"; "Indianapolis, IN 46204"].

Definition addresses_html (l : list string) : string :=
  "<html lang='en'><head><title>Our company</title></head><body><p>"
  ++ Py.join "</p><p>" l ++ "</p></body></html>" ++ filler.

Definition addresses_soup (l : list string) : Soup :=
  soup_with "Our company" [] [] [[]; l].

End Samples.

Module CrawlSamples.
Import Crawler.

(** The crawler that [PageCrawler("https://carrier.example", "Carrier")]
    builds. *)
Definition sample_crawler : PageCrawler :=
  {| base_url := "https://carrier.example";
     carrier_name := "Carrier";
     domain := "carrier.example";
     urls_to_visit := [];
     visited_urls := ∅;
     failed_urls := ∅;
     pages_data := [] |}.

(** A site on which every navigation raises. *)
Definition goto_unreachable (n : nat) (url : string) : Navigation := Raised.

(** A site whose homepage links to a listing and to an "about" page
    under three spellings; every other page answers 404. *)
Definition goto_small_site (n : nat) (url : string) : Navigation :=
  if String.eqb url "https://carrier.example" then
    Loaded {| status := 200;
              final_url := "https://carrier.example/";
              html := "<html></html>";
              page_title := "Carrier";
              hrefs := ["/locations"; "/about"; "/about#team";
                        "https://Carrier.example/about/"] |}
  else
    Loaded {| status := 404; final_url := url; html := "";
              page_title := "Not found"; hrefs := [] |}.

Definition sample_seeds : gset string :=
  {[ "https://carrier.example"; "https://carrier.example/terminals" ]}.

End CrawlSamples.

Module ReportSamples.
Import Classifier Samples.

(** The saved page of a listing URL: accepted through its URL alone. *)
Definition listing_file (stem : string) : HtmlFile :=
  {| file_stem := stem;
     file_html :=
       "<html><head><meta name='crawler-original-url' "
       ++ "content='https://carrier.example/" ++ stem ++ "/locations'>"
       ++ "<title>Locations</title></head><body></body></html>" ++ filler;
     file_soup :=
       {| title_string := Some "Locations"; html_lang := None; forms := [];
          anchors := []; iframes := []; ld_json := [];
          address_matches := []; lat_matches := []; latlng_matches := [];
          meta_crawler_url :=
            Some ("https://carrier.example/" ++ stem ++ "/locations");
          link_canonical := None; meta_og_url := None;
          meta_twitter_url := None |} |}.

(** Eleven such pages. *)
Definition eleven_files : list HtmlFile :=
  List.map listing_file
    ["al"; "ga"; "il"; "in"; "ky"; "mo"; "nc"; "oh"; "pa"; "tn"; "tx"].

End ReportSamples.

Module RunSamples.
Import Runner.

(** Sixty carriers, numbered from 0. *)
Definition carrier_number (i : nat) : Carrier :=
  {| name := "carrier-" ++ Py.str_of_nat i;
     website := "https://carrier-" ++ Py.str_of_nat i ++ ".example" |}.

Definition sixty_carriers : list Carrier := List.map carrier_number (seq 0 60).

(** Every crawl finds a location page. *)
Definition crawl_ok (c : Carrier) : Outcome :=
  {| outcome_name := name c; outcome_status := "OK" |}.

(** The tasks of a batch complete in the order they were created. *)
Definition in_order (l : list Outcome) : list Outcome := l.

(** A first run from index 0 that is interrupted after its first batch. *)
Definition first_run : nat * list Outcome * option Checkpoint :=
  run_full_crawl crawl_ok in_order sixty_carriers 0 false None (Some 1).

(** A resumed run that is interrupted after its first batch. *)
Definition second_run : nat * list Outcome * option Checkpoint :=
  run_full_crawl crawl_ok in_order sixty_carriers 0 true (snd first_run)
    (Some 1).

(** A run started with [--start 20], interrupted after its first batch. *)
Definition started_at_20 : nat * list Outcome * option Checkpoint :=
  run_full_crawl crawl_ok in_order sixty_carriers 20 false None (Some 1).

End RunSamples.

Module PdfSamples.
Import Crawler.

(** The crawler of a carrier whose host name has [.pdf] in it. *)
Definition pdf_host_crawler : PageCrawler :=
  {| base_url := "https://www.pdfcarrier.example";
     carrier_name := "PDF Carrier";
     domain := "pdfcarrier.example";
     urls_to_visit := [];
     visited_urls := ∅;
     failed_urls := ∅;
     pages_data := [] |}.

(** Its homepage has two relative links; every other page answers 404. *)
Definition goto_pdf_host (n : nat) (url : string) : Navigation :=
  if String.eqb url "https://www.pdfcarrier.example" then
    Loaded {| status := 200;
              final_url := "https://www.pdfcarrier.example/";
              html := "<html></html>";
              page_title := "PDF Carrier";
              hrefs := ["/about"; "/service-map"] |}
  else
    Loaded {| status := 404; final_url := url; html := "";
              page_title := "Not found"; hrefs := [] |}.

End PdfSamples.

(* ===================================================================== *)
(** * load_carriers.py                                                   *)
(* ===================================================================== *)

Module Loader.
Import Runner.

(** One row of the spreadsheet: [str(row['Top Fleet Company Name'])] and
    [str(row['Top Fleet Website'])]; an empty cell reads as ["nan"]. *)
Definition Row : Type := (string * string)%type.

(** The body of the loop of [load_carriers]: [None] for a row that is
    skipped. *)
Definition load_row (row : Row) : option Carrier :=
  let name := Py.strip (fst row) in
  let website := Py.strip (snd row) in
  if String.eqb website "" || String.eqb website "nan" then None
  else
    let website :=
      if Py.contains "," website
      then Py.strip (hd EmptyString (Py.split "," website))
      else website in
    let website :=
      if negb (Py.startswith website "http") then "https://" ++ website
      else website in
    let website := Py.rstrip_slash website in
    Some {| name := name; website := website |}.

(** [load_carriers()], given the rows of the file. *)
Definition load_carriers (rows : list Row) : list Carrier :=
  omap load_row rows.

(** [get_carrier_domains()] *)
Definition get_carrier_domains (rows : list Row) : list string :=
  List.map website (load_carriers rows).

End Loader.

(* ===================================================================== *)
(** * url_discovery.py                                                   *)
(* ===================================================================== *)

Module Discovery.

Record URLDiscovery : Type := {
  base_url : string;
  domain : string;
  discovered_urls : gset string;
  sitemap_urls : gset string;
  nav_urls : gset string;
  priority_urls : gset string
}.

(** [URLDiscovery.__init__] *)
Definition init (base_url : string) : result URLDiscovery :=
  let* domain := Utils.extract_domain base_url in
  Ok {| base_url := Py.rstrip_slash base_url;
        domain := domain;
        discovered_urls := ∅;
        sitemap_urls := ∅;
        nav_urls := ∅;
        priority_urls := ∅ |}.

(** What the server and the XML parser give for a sitemap URL:
    [Unusable] for a status other than 200, a body that is no XML, a
    parse error, a timeout or any other exception; else the texts of the
    [sitemap/loc] elements and of the [url/loc] elements, [None] for an
    element without text. *)
Inductive SitemapResponse : Type :=
  | Unusable
  | Document (sitemap_refs url_elements : list (option string)).

(** [_identify_priority_urls(urls)]: the new value of [priority_urls]. *)
Definition _identify_priority_urls (self : URLDiscovery) (urls : gset string)
  : gset string :=
  priority_urls self
  ∪ list_to_set
      (List.filter
         (fun url => Py.any_in Config.LOCATION_URL_KEYWORDS (Py.lower url))
         (elements urls)).

(** The three updates made with the URLs of a sitemap. *)
Definition add_sitemap_urls (self : URLDiscovery) (urls : gset string)
  : URLDiscovery :=
  {| base_url := base_url self;
     domain := domain self;
     discovered_urls := discovered_urls self ∪ urls;
     sitemap_urls := sitemap_urls self ∪ urls;
     nav_urls := nav_urls self;
     priority_urls := _identify_priority_urls self urls |}.

(** [_add_common_location_urls] *)
Definition _add_common_location_urls (self : URLDiscovery) : URLDiscovery :=
  fold_left
    (fun self path =>
       let url := base_url self ++ path in
       {| base_url := base_url self;
          domain := domain self;
          discovered_urls := discovered_urls self ∪ {[url]};
          sitemap_urls := sitemap_urls self;
          nav_urls := nav_urls self;
          priority_urls := priority_urls self ∪ {[url]} |})
    ["/locations"; "/terminals"; "/facilities"; "/service-centers";
     "/contact"; "/about"; "/about-us"; "/contact-us";
     "/find-us"; "/our-locations"; "/terminal-locations";
     "/service-center-locations"; "/network"; "/coverage";
     "/where-we-service"; "/shipping-locations"]
    self.

Section Discover.

(** The answer to [session.get(url)] for a sitemap URL. *)
Variable get_sitemap : string -> SitemapResponse.

(** The body of [robots.txt], when the status is 200 and nothing
    raises. *)
Variable get_robots : string -> option string.

(** [_fetch_sitemap(session, url)]; [depth] bounds the nesting of
    sitemap indexes, as the recursion limit of the interpreter does: the
    call that exceeds it raises inside its own [try] and returns the
    empty set. *)
Fixpoint _fetch_sitemap (depth : nat) (self : URLDiscovery) (url : string)
  : gset string :=
  match depth with
  | O => ∅
  | S depth' =>
      match get_sitemap url with
      | Unusable => ∅
      | Document sitemap_refs url_elements =>
          match sitemap_refs with
          | _ :: _ =>
              fold_left
                (fun urls sitemap_ref =>
                   match sitemap_ref with
                   | Some sub_url =>
                       if String.eqb sub_url "" then urls
                       else urls ∪ _fetch_sitemap depth' self (Py.strip sub_url)
                   | None => urls
                   end)
                (firstn 10 sitemap_refs) ∅
          | [] =>
              fold_left
                (fun urls url_elem =>
                   match url_elem with
                   | Some text =>
                       if String.eqb text "" then urls
                       else
                         let page_url := Py.strip text in
                         if Utils.is_same_domain page_url (domain self)
                         then urls ∪ {[page_url]}
                         else urls
                   | None => urls
                   end)
                url_elements ∅
          end
      end
  end.

(** The loop of [_discover_from_sitemap]: the first candidate that
    yields URLs is used. *)
Fixpoint sitemap_loop (depth : nat) (self : URLDiscovery)
  (candidates : list string) : URLDiscovery :=
  match candidates with
  | [] => self
  | sitemap_url :: rest =>
      let urls := _fetch_sitemap depth self sitemap_url in
      if bool_decide (urls = ∅) then sitemap_loop depth self rest
      else add_sitemap_urls self urls
  end.

Definition _discover_from_sitemap (depth : nat) (self : URLDiscovery)
  : URLDiscovery :=
  sitemap_loop depth self
    [base_url self ++ "/sitemap.xml";
     base_url self ++ "/sitemap_index.xml";
     base_url self ++ "/sitemap/sitemap.xml"].

(** One line of [robots.txt]. *)
Definition robots_line (depth : nat) (self : URLDiscovery) (line : string)
  : URLDiscovery :=
  let line := Py.strip line in
  if Py.startswith (Py.lower line) "sitemap:" then
    let sitemap_url := Py.strip (snd (Py.partition ":" line)) in
    if negb (String.eqb sitemap_url "")
       && bool_decide (sitemap_url ∉ sitemap_urls self)
    then add_sitemap_urls self (_fetch_sitemap depth self sitemap_url)
    else self
  else self.

Definition _discover_from_robots (depth : nat) (self : URLDiscovery)
  : URLDiscovery :=
  match get_robots (base_url self ++ "/robots.txt") with
  | Some content =>
      fold_left (robots_line depth) (Py.split Re.newline content) self
  | None => self
  end.

(** [discover_all(session)]: the object after the call; the value
    returned is its [discovered_urls]. *)
Definition discover_all (depth : nat) (self : URLDiscovery) : URLDiscovery :=
  let self := _discover_from_sitemap depth self in
  let self := _discover_from_robots depth self in
  {| base_url := base_url self;
     domain := domain self;
     discovered_urls := discovered_urls self ∪ {[base_url self]};
     sitemap_urls := sitemap_urls self;
     nav_urls := nav_urls self;
     priority_urls := priority_urls self |}.

End Discover.

(** What the discovery keeps true of its sets. *)
Definition discovered_on_site (self0 self : URLDiscovery) : Prop :=
  base_url self = base_url self0
  /\ domain self = domain self0
  /\ (forall u, u ∈ discovered_urls self ->
                Utils.is_same_domain u (domain self0) = true)
  /\ sitemap_urls self ⊆ discovered_urls self
  /\ priority_urls self ⊆ discovered_urls self
  /\ (forall u, u ∈ priority_urls self ->
                Py.any_in Config.LOCATION_URL_KEYWORDS (Py.lower u) = true).

End Discovery.

(* ===================================================================== *)
(** * run_full_crawl.py: one carrier                                     *)
(* ===================================================================== *)

Module CarrierRun.
Import Runner.

(** The result dictionary of [crawl_single_carrier], in its three
    shapes; [time_seconds] is read from the clock and left out. *)
Inductive CarrierResult : Type :=
  | Skipped (name reason : string)
  | Crawled (name url domain status : string)
      (pages_crawled pages_failed location_pages total_pages : nat)
      (top_url : option string) (top_score : Z)
      (modalities : list string) (extraction_approach : string)
  | Failed (name url domain error : string).

(** The name of the directory of the carrier under [CRAWLED_DIR]. *)
Definition carrier_dir_name (url : string) : string :=
  Py.replace "." "_"
    (hd EmptyString
       (Py.split "/"
          (Py.replace "www." ""
             (Py.replace "http://" "" (Py.replace "https://" "" url))))).

Section OneCarrier.

(** The browser launch, the discovery and the crawl of one site: the
    text of the exception that leaves the [try] block, or the summary of
    the crawl and the listing of the carrier's directory after it. *)
Variable crawl_site :
  string -> string -> string + (Crawler.Summary * list Classifier.HtmlFile).

Definition crawl_single_carrier (carrier : Carrier) : CarrierResult :=
  let name := name carrier in
  let url := website carrier in
  if String.eqb url "" || negb (Py.startswith url "http") then
    Skipped name "No valid URL"
  else
    let domain := carrier_dir_name url in
    match crawl_site url name with
    | inr (summary, html_files) =>
        let report := Classifier.classify_carrier name domain html_files in
        Crawled name url domain
          (if (0 <? Classifier.location_pages report)%nat
           then "OK" else "NO_LOC")
          (Crawler.pages_crawled summary)
          (Crawler.pages_failed summary)
          (Classifier.location_pages report)
          (Classifier.total_pages report)
          (match Classifier.top_pages report with
           | page :: _ => Some (Classifier.url page)
           | [] => None
           end)
          (match Classifier.top_pages report with
           | page :: _ => Classifier.total_score page
           | [] => 0%Z
           end)
          (List.map fst (map_to_list (Classifier.modalities_found report)))
          (Classifier.recommended_approach report)
    | inl e => Failed name url domain (Py.take 200 e)
    end.

End OneCarrier.

End CarrierRun.

Module PipelineSamples.

(** The sitemap of the sample site: one file, with a page of the site
    and a page of another site. *)
Definition get_sitemap (url : string) : Discovery.SitemapResponse :=
  if String.eqb url "https://carrier.example/sitemap.xml" then
    Discovery.Document []
      [Some "https://carrier.example/terminals";
       Some "https://other.example/terminals"]
  else Discovery.Unusable.

(** The sample site has no [robots.txt]. *)
Definition get_robots (url : string) : option string := None.

(** The object that [URLDiscovery("https://carrier.example")] builds. *)
Definition sample_discovery : Discovery.URLDiscovery :=
  {| Discovery.base_url := "https://carrier.example";
     Discovery.domain := "carrier.example";
     Discovery.discovered_urls := ∅;
     Discovery.sitemap_urls := ∅;
     Discovery.nav_urls := ∅;
     Discovery.priority_urls := ∅ |}.

(** A crawl that goes through and leaves the eleven listing pages. *)
Definition crawl_site (url name : string)
  : string + (Crawler.Summary * list Classifier.HtmlFile) :=
  inr (Crawler._generate_summary CrawlSamples.sample_crawler,
       ReportSamples.eleven_files).

End PipelineSamples.

(* ===================================================================== *)
(** * Properties of the classifier                                       *)
(* ===================================================================== *)

Section ClassifierProofs.
Import Classifier.
Local Open Scope Z_scope.


Lemma sum_points_from (l : list LocationSignal) (a : Z) :
  fold_left (fun total signal => total + points signal) l a = a + sum_points l.
Proof.
  unfold sum_points. revert a.
  induction l as [|s l IH]; intros a; simpl.
  - lia.
  - rewrite IH, (IH (0 + points s)). lia.
Qed.

Lemma sum_points_nil : sum_points [] = 0.
Proof. reflexivity. Qed.

Lemma sum_points_cons (s : LocationSignal) (l : list LocationSignal) :
  sum_points (s :: l) = points s + sum_points l.
Proof. unfold sum_points at 1. simpl. rewrite sum_points_from. lia. Qed.

Lemma sum_points_app (l1 l2 : list LocationSignal) :
  sum_points (l1 ++ l2) = sum_points l1 + sum_points l2.
Proof.
  induction l1 as [|s l1 IH]; simpl.
  - rewrite sum_points_nil. lia.
  - rewrite !sum_points_cons, IH. lia.
Qed.

Lemma sum_points_nonneg (l : list LocationSignal) :
  Forall nonneg l -> 0 <= sum_points l.
Proof.
  induction 1 as [|s l Hs Hl IH].
  - rewrite sum_points_nil. lia.
  - rewrite sum_points_cons. unfold nonneg in Hs. lia.
Qed.

Lemma count_real_addresses_spec html soup n o :
  _count_real_addresses html soup = (n, o) ->
  n = length (addresses_found soup) /\
  match o with
  | Some s =>
      ((5 <= n)%nat /\ points s = 10 /\ signal_type s = "ADDRESS_LIST"
       /\ confidence s = "high")
      \/ ((2 <= n < 5)%nat /\ points s = 3 /\ signal_type s = "ADDRESS_PAIR")
  | None => (n < 2)%nat
  end.
Proof.
  unfold _count_real_addresses.
  destruct (5 <=? length (addresses_found soup))%nat eqn:H5;
    [|destruct (2 <=? length (addresses_found soup))%nat eqn:H2];
    intros [= <- <-]; (split; [reflexivity|]); simpl.
  - left. apply Nat.leb_le in H5. auto.
  - right. apply Nat.leb_le in H2. apply Nat.leb_gt in H5. auto.
  - apply Nat.leb_gt in H2. lia.
Qed.

Lemma count_coordinates_spec html soup n o :
  _count_coordinates html soup = (n, o) ->
  match o with
  | Some s =>
      ((3 <= n)%nat /\ points s = 8) \/ ((1 <= n < 3)%nat /\ points s = 2)
  | None => n = 0%nat
  end.
Proof.
  unfold _count_coordinates.
  set (c := (length (remove_dups (lat_matches soup))
             + length (remove_dups (latlng_matches soup)))%nat).
  destruct (3 <=? c)%nat eqn:H3; [|destruct (1 <=? c)%nat eqn:H1];
    intros [= <- <-]; simpl.
  - left. apply Nat.leb_le in H3. auto.
  - right. apply Nat.leb_le in H1. apply Nat.leb_gt in H3. auto.
  - apply Nat.leb_gt in H1. lia.
Qed.

Lemma google_maps_points html soup s :
  _detect_google_maps_strict html soup = Some s ->
  points s = 1 \/ points s = 2 \/ points s = 3 \/ points s = 5.
Proof.
  unfold _detect_google_maps_strict.
  repeat case_match; intros [= <-]; simpl; auto.
Qed.

Lemma finder_form_points html soup s :
  _detect_location_finder_form html soup = Some s ->
  points s = 8 \/ points s = 4.
Proof.
  unfold _detect_location_finder_form.
  induction (forms soup) as [|f fs IH]; simpl; [discriminate|].
  repeat case_match; try (intros [= <-]; simpl; auto); exact IH.
Qed.

Lemma primary_signals_inv html soup url url_lower sigs prim :
  primary_signals html soup url url_lower = (sigs, prim) ->
  Forall nonneg sigs /\ (prim = true -> 3 <= sum_points sigs).
Proof.
  unfold primary_signals.
  pose proof (count_real_addresses_spec html soup) as Ha.
  pose proof (count_coordinates_spec html soup) as Hc.
  pose proof (google_maps_points html soup) as Hm.
  pose proof (finder_form_points html soup) as Hf.
  destruct (_count_real_addresses html soup) as [na oa].
  destruct (_count_coordinates html soup) as [nc oc].
  destruct (_detect_google_maps_strict html soup) as [sm|].
  all: destruct (_detect_location_finder_form html soup) as [sf|].
  all: specialize (Ha _ _ eq_refl) as [_ Ha]; specialize (Hc _ _ eq_refl).
  all: try specialize (Hm _ eq_refl); try specialize (Hf _ eq_refl).
  all: destruct oa as [sa|]; destruct oc as [sc|].
  all: unfold append_opt.
  all: repeat case_match; simplify_eq.
  all: intros; simplify_eq.
  all: split; [ repeat (apply Forall_app; split); repeat constructor; unfold nonneg; simpl;  try lia | ].
  all: intros Hp; try discriminate Hp.
  all: rewrite ?sum_points_app, ?sum_points_cons, ?sum_points_nil; simpl.
  all: repeat match goal with
         | H : (_ <=? _)%nat = true |- _ => apply Nat.leb_le in H
         | H : (_ <=? _)%nat = false |- _ => apply Nat.leb_gt in H
         | H : (_ <=? _) = true |- _ => apply Z.leb_le in H
         | H : (_ <=? _) = false |- _ => apply Z.leb_gt in H
         end.
  all: lia.
Qed.


Lemma json_ld_nonneg html soup s :
  _detect_json_ld_strict html soup = Some s -> nonneg s.
Proof.
  unfold _detect_json_ld_strict. case_match; intros [= <-].
  unfold nonneg; simpl; lia.
Qed.

Lemma interactive_maps_nonneg html soup :
  Forall nonneg (_detect_interactive_maps html soup).
Proof.
  unfold _detect_interactive_maps.
  induction MAP_LIBRARIES as [|[lib sigs] libs IH]; simpl; [constructor|].
  apply Forall_app; split; [|exact IH].
  case_match; repeat constructor. unfold nonneg; simpl; lia.
Qed.

Lemma location_iframes_nonneg html soup :
  Forall nonneg (_detect_location_iframes html soup).
Proof.
  unfold _detect_location_iframes.
  case_match; repeat constructor. unfold nonneg; simpl; lia.
Qed.

Lemma pdf_links_nonneg html soup :
  Forall nonneg (_detect_pdf_links html soup).
Proof.
  unfold _detect_pdf_links.
  repeat case_match; repeat constructor; unfold nonneg; simpl; lia.
Qed.

Lemma secondary_signals_app html soup sigs :
  exists extra,
    secondary_signals html soup sigs = (sigs ++ extra)%list
    /\ Forall nonneg extra.
Proof.
  unfold secondary_signals, append_opt.
  pose proof (json_ld_nonneg html soup) as Hj.
  destruct (_detect_json_ld_strict html soup) as [sj|].
  - exists (sj :: _detect_interactive_maps html soup
              ++ _detect_location_iframes html soup
              ++ _detect_pdf_links html soup)%list.
    split.
    + rewrite <- !app_assoc. reflexivity.
    + constructor; [apply Hj; reflexivity|].
      rewrite !Forall_app.
      split; [apply interactive_maps_nonneg|].
      split; [apply location_iframes_nonneg|apply pdf_links_nonneg].
  - exists (_detect_interactive_maps html soup
              ++ _detect_location_iframes html soup
              ++ _detect_pdf_links html soup)%list.
    split.
    + rewrite <- !app_assoc. reflexivity.
    + rewrite !Forall_app.
      split; [apply interactive_maps_nonneg|].
      split; [apply location_iframes_nonneg|apply pdf_links_nonneg].
Qed.

(** The three shapes of a classification. *)
Lemma classify_html_cases html soup url filename :
  let c := classify_html html soup url filename in
  let p := primary_signals html soup url (Py.lower (str_or url filename)) in
  (stage1_disqualified html soup url filename = true
   /\ total_score c = 0 /\ is_location_page c = false
   /\ sum_points (signals c) = 0 /\ Forall nonneg (signals c))
  \/ (stage1_disqualified html soup url filename = false
      /\ snd p = false
      /\ total_score c = 0 /\ is_location_page c = false
      /\ signals c =
           match fst p with
           | [] => [{| signal_type := "NO_LOCATION_CONTENT";
                       confidence := "high"; points := 0;
                       details := "No primary location signals found";
                       evidence := "" |}]
           | _ => fst p
           end)
  \/ (stage1_disqualified html soup url filename = false
      /\ snd p = true
      /\ signals c = secondary_signals html soup (fst p)
      /\ total_score c = sum_points (signals c)
      /\ is_location_page c = true).
Proof.
  intros c p. subst c p.
  unfold classify_html, stage1_disqualified.
  destruct (_is_error_page html soup (page_title soup)).
  { left. simpl. repeat split; try reflexivity.
    repeat constructor. unfold nonneg; simpl; lia. }
  destruct (_is_non_english soup
            && negb (_has_location_url (Py.lower (str_or url filename)))).
  { left. simpl. repeat split; try reflexivity.
    repeat constructor. unfold nonneg; simpl; lia. }
  destruct (_is_excluded_page_type (Py.lower (str_or url filename))
              (page_title soup)).
  { left. simpl. repeat split; try reflexivity.
    repeat constructor. unfold nonneg; simpl; lia. }
  right. simpl.
  pose proof (primary_signals_inv html soup url
                (Py.lower (str_or url filename))) as Hinv.
  destruct (primary_signals html soup url (Py.lower (str_or url filename)))
    as [sigs prim].
  specialize (Hinv _ _ eq_refl) as [Hnn Hsum].
  destruct prim; simpl.
  - right. repeat split; try reflexivity.
    + destruct (secondary_signals_app html soup sigs) as (extra & -> & Hex).
      rewrite sum_points_app.
      pose proof (sum_points_nonneg _ Hex). specialize (Hsum eq_refl). lia.
    + destruct (secondary_signals_app html soup sigs) as (extra & -> & Hex).
      rewrite sum_points_app.
      pose proof (sum_points_nonneg _ Hex). specialize (Hsum eq_refl).
      unfold LOCATION_PAGE_THRESHOLD. apply Z.leb_le. lia.
  - left. repeat split; reflexivity.
Qed.

Lemma classify_html_nonneg html soup url filename :
  Forall nonneg (signals (classify_html html soup url filename)).
Proof.
  pose proof (primary_signals_inv html soup url
                (Py.lower (str_or url filename))) as Hinv.
  destruct (classify_html_cases html soup url filename)
    as [(_ & _ & _ & _ & H) | [(_ & _ & _ & _ & H) | (_ & _ & H & _)]].
  - exact H.
  - rewrite H.
    destruct (primary_signals html soup url (Py.lower (str_or url filename)))
      as [sigs prim].
    specialize (Hinv _ _ eq_refl) as [Hnn _]. simpl.
    destruct sigs; [|exact Hnn].
    repeat constructor. unfold nonneg; simpl; lia.
  - rewrite H.
    destruct (primary_signals html soup url (Py.lower (str_or url filename)))
      as [sigs prim].
    specialize (Hinv _ _ eq_refl) as [Hnn _]. simpl.
    destruct (secondary_signals_app html soup sigs) as (extra & -> & Hex).
    apply Forall_app; split; assumption.
Qed.

(** Claim C9, as amended: every signal of a classification has
    non-negative points, so the sum of the points is non-negative and the
    clamp [max(0, sum)] leaves it unchanged; the stored [total_score] is
    that sum when the page is accepted and 0 when it is not; and no
    penalty of [_get_url_priority], which can be negative, enters it. *)
Theorem classify_html_scores html soup url filename :
  let c := classify_html html soup url filename in
  Forall (fun s => 0 <= points s) (signals c)
  /\ 0 <= sum_points (signals c)
  /\ Z.max 0 (sum_points (signals c)) = sum_points (signals c)
  /\ total_score c = (if is_location_page c then sum_points (signals c) else 0)
  /\ (exists u t, snd (_get_url_priority u t) < 0).
Proof.
  intros c.
  pose proof (classify_html_nonneg html soup url filename) as Hnn.
  pose proof (sum_points_nonneg _ Hnn) as Hs.
  split; [exact Hnn|]. split; [exact Hs|]. split; [fold c in Hs; lia|].
  split.
  - destruct (classify_html_cases html soup url filename)
      as [(_ & Ht & Hl & _) | [(_ & _ & Ht & Hl & _) | (_ & _ & _ & Ht & Hl)]];
      fold c in Ht, Hl; rewrite Hl; exact Ht.
  - exists "https://foo.com/account", "". vm_compute. reflexivity.
Qed.
End ClassifierProofs.

Section ClassifierClaims.
Import Classifier.
Local Open Scope Z_scope.

(** The loop over the forms stops at the first form that is not a quote
    form and has finder wording or a radius field. *)
Lemma finder_form_loop_find (fs : list Form) :
  finder_form_loop fs =
  match List.find finder_trigger fs with
  | Some f => Some (if has_finder_language f then finder_signal
                    else search_signal)
  | None => None
  end.
Proof.
  induction fs as [|f fs IH]; simpl; [reflexivity|].
  unfold finder_trigger at 1.
  destruct (has_finder_language f) eqn:Hl, (has_radius f) eqn:Hr,
    (is_quote_form f) eqn:Hq; simpl; rewrite ?Hl; try reflexivity; exact IH.
Qed.

Lemma primary_signals_locator html soup url url_lower sig :
  _detect_location_finder_form html soup = Some sig ->
  In sig (fst (primary_signals html soup url url_lower))
  /\ snd (primary_signals html soup url url_lower) = true.
Proof.
  intros Hf. unfold primary_signals. rewrite Hf.
  repeat case_match; simplify_eq; simpl; split; try reflexivity;
    rewrite ?in_app_iff; simpl; auto.
Qed.

Lemma primary_signals_addresses html soup url url_lower :
  (5 <= length (addresses_found soup))%nat ->
  exists s,
    In s (fst (primary_signals html soup url url_lower))
    /\ snd (primary_signals html soup url url_lower) = true
    /\ signal_type s = "ADDRESS_LIST" /\ confidence s = "high"
    /\ points s = 10.
Proof.
  intros H5. unfold primary_signals.
  pose proof (count_real_addresses_spec html soup) as Ha.
  destruct (_count_real_addresses html soup) as [na oa].
  specialize (Ha _ _ eq_refl) as [-> Ha].
  apply Nat.leb_le in H5. rewrite H5.
  destruct oa as [sa|]; [|apply Nat.leb_le in H5; lia].
  destruct Ha as [(_ & Hp & Ht & Hc) | (Hlt & _)];
    [|apply Nat.leb_le in H5; lia].
  exists sa. unfold append_opt.
  repeat case_match; simplify_eq; simpl; repeat split; auto;
    rewrite ?in_app_iff; simpl; auto 10.
Qed.

Lemma primary_signals_only html soup url url_lower (extra : option LocationSignal) :
  Re.any_search INDEX_URL_PATTERNS url_lower = false ->
  (length (addresses_found soup) < 2)%nat ->
  fst (_count_coordinates html soup) = 0%nat ->
  _detect_google_maps_strict html soup = extra ->
  (forall s, extra = Some s -> points s < 5) ->
  _detect_location_finder_form html soup = None ->
  _has_location_url url_lower = false ->
  primary_signals html soup url url_lower
  = (match extra with Some s => [s] | None => [] end, false).
Proof.
  intros Hi Ha Hc Hm Hlt Hf Hu. unfold primary_signals.
  rewrite Hi, Hm, Hf, Hu.
  pose proof (count_real_addresses_spec html soup) as Ha'.
  pose proof (count_coordinates_spec html soup) as Hc'.
  destruct (_count_real_addresses html soup) as [na oa].
  destruct (_count_coordinates html soup) as [nc oc].
  specialize (Ha' _ _ eq_refl) as [-> Ha']. specialize (Hc' _ _ eq_refl).
  simpl in Hc. subst nc.
  assert ((5 <=? length (addresses_found soup))%nat = false) as ->
    by (apply Nat.leb_gt; lia).
  assert ((2 <=? length (addresses_found soup))%nat = false) as ->
    by (apply Nat.leb_gt; lia).
  simpl.
  destruct extra as [s|]; simpl; [|reflexivity].
  specialize (Hlt s eq_refl).
  assert ((5 <=? points s) = false) as -> by (apply Z.leb_gt; lia).
  reflexivity.
Qed.

Lemma in_secondary_signals html soup sigs s :
  In s sigs -> In s (secondary_signals html soup sigs).
Proof.
  intros H. destruct (secondary_signals_app html soup sigs) as (extra & -> & _).
  apply in_app_iff. auto.
Qed.

Lemma single_maps_link_points html soup s :
  _detect_google_maps_strict html soup = Some s ->
  signal_type s = "GOOGLE_MAPS_LINK" -> confidence s = "low" ->
  points s = 1.
Proof.
  unfold _detect_google_maps_strict.
  repeat case_match; intros [= <-]; simpl; intros; try discriminate;
    reflexivity.
Qed.








(** Claim C4, as amended: when the only evidence on a page is the
    single-link Google Maps signal, that signal is the one signal of the
    classification and weighs 1 point, the page is not accepted, and its
    stored [total_score] is 0; in general an accepted page has signals
    that sum to at least 3. *)
Theorem single_maps_link_rejected html soup url filename s :
  stage1_disqualified html soup url filename = false ->
  Re.any_search INDEX_URL_PATTERNS (Py.lower (str_or url filename)) = false ->
  _has_location_url (Py.lower (str_or url filename)) = false ->
  (length (addresses_found soup) < 2)%nat ->
  fst (_count_coordinates html soup) = 0%nat ->
  _detect_location_finder_form html soup = None ->
  _detect_google_maps_strict html soup = Some s ->
  signal_type s = "GOOGLE_MAPS_LINK" -> confidence s = "low" ->
  let c := classify_html html soup url filename in
  signals c = [s] /\ points s = 1 /\ sum_points (signals c) = 1
  /\ total_score c = 0 /\ is_location_page c = false
  /\ (forall html' soup' url' filename',
        is_location_page (classify_html html' soup' url' filename') = true ->
        3 <= sum_points (signals (classify_html html' soup' url' filename'))).
Proof.
  intros Hd Hi Hu Ha Hc Hf Hm Ht Hco c. subst c.
  pose proof (single_maps_link_points html soup s Hm Ht Hco) as Hpt.
  pose proof (primary_signals_only html soup url
                (Py.lower (str_or url filename)) (Some s) Hi Ha Hc Hm) as Hp.
  clear Hp.
  assert (primary_signals html soup url (Py.lower (str_or url filename))
          = ([s], false)) as Hp.
  { apply (primary_signals_only html soup url
             (Py.lower (str_or url filename)) (Some s)); try assumption.
    intros s' [= <-]; lia. }
  destruct (classify_html_cases html soup url filename)
    as [(Hd' & _) | [(_ & _ & Hts & Hl & Hs) | (_ & Hp' & _)]].
  - congruence.
  - rewrite Hp in Hs. simpl in Hs. rewrite Hs.
    split; [reflexivity|]. split; [exact Hpt|].
    split; [rewrite sum_points_cons, sum_points_nil; lia|].
    split; [exact Hts|]. split; [exact Hl|].
    intros html' soup' url' filename' Hacc.
    destruct (classify_html_cases html' soup' url' filename')
      as [(_ & _ & Hl' & _) | [(_ & _ & _ & Hl' & _) | (_ & Hp'' & Hs' & _)]];
      [congruence | congruence |].
    rewrite Hs'.
    pose proof (primary_signals_inv html' soup' url'
                  (Py.lower (str_or url' filename'))) as Hinv.
    destruct (primary_signals html' soup' url'
                (Py.lower (str_or url' filename'))) as [sigs prim].
    specialize (Hinv _ _ eq_refl) as [_ Hsum]. simpl in *.
    destruct (secondary_signals_app html' soup' sigs) as (extra & -> & Hex).
    rewrite sum_points_app. pose proof (sum_points_nonneg _ Hex).
    specialize (Hsum Hp''). lia.
  - rewrite Hp in Hp'. discriminate.
Qed.


Lemma single_maps_link_rejected_witness :
  total_score
    (classify_html Samples.maps_link_html Samples.maps_link_soup
       "https://carrier.example/about" "0a1b2c3d4e5f") = 0
  /\ is_location_page
       (classify_html Samples.maps_link_html Samples.maps_link_soup
          "https://carrier.example/about" "0a1b2c3d4e5f") = false.
Proof.
  destruct (single_maps_link_rejected Samples.maps_link_html
              Samples.maps_link_soup "https://carrier.example/about"
              "0a1b2c3d4e5f"
              {| signal_type := "GOOGLE_MAPS_LINK"; confidence := "low";
                 points := 1;
                 details := "Single Google Maps link (likely HQ only)";
                 evidence := "maps.google.com link" |})
    as (_ & _ & _ & Ht & Hl & _);
    [vm_compute; first [reflexivity | lia] .. |].
  split; assumption.
Defined.

(** Claim C4 as stated fails: on a page whose only evidence is one link
    to Google Maps the stored [total_score] is 0, not the 1 point of the
    signal. *)
Lemma single_maps_link_score_is_zero :
  let c := classify_html Samples.maps_link_html Samples.maps_link_soup
             "https://carrier.example/about" "0a1b2c3d4e5f" in
  List.map (fun s => (signal_type s, points s)) (signals c)
  = [("GOOGLE_MAPS_LINK", 1)]
  /\ total_score c = 0
  /\ total_score c <> 1.
Proof. vm_compute. repeat split; try reflexivity. discriminate. Qed.

(** Claim C9 as stated fails: a page with two addresses and no primary
    signal keeps its 3-point ADDRESS_PAIR signal while the stored
    [total_score] is 0. *)
Lemma rejected_page_score_differs_from_sum :
  let c := classify_html
             (Samples.addresses_html
                ["Springfield, IL 62701"; "Columbus, OH 43215"])
             (Samples.addresses_soup
                ["Springfield, IL 62701"; "Columbus, OH 43215"])
             "https://carrier.example/company" "0a1b2c3d4e5f" in
  List.map (fun s => (signal_type s, points s)) (signals c)
  = [("ADDRESS_PAIR", 3)]
  /\ sum_points (signals c) = 3
  /\ total_score c = 0
  /\ total_score c <> sum_points (signals c).
Proof. vm_compute. repeat split; try reflexivity. discriminate. Qed.
End ClassifierClaims.

(* ===================================================================== *)
(** * Properties of the crawl loop                                       *)
(* ===================================================================== *)

Section CrawlerProofs.
Import Crawler.

Lemma fetched_app l1 l2 : fetched (l1 ++ l2) = (fetched l1 ++ fetched l2)%list.
Proof. unfold fetched. rewrite map_app, concat_app. reflexivity. Qed.

Lemma enqueued_app l1 l2 :
  enqueued (l1 ++ l2) = (enqueued l1 ++ enqueued l2)%list.
Proof. unfold enqueued. rewrite map_app, concat_app. reflexivity. Qed.

Lemma fetched_snoc_Fetched l u :
  fetched (l ++ [Fetched u]) = (fetched l ++ [u])%list.
Proof. rewrite fetched_app. reflexivity. Qed.

Lemma fetched_snoc_Enqueued l u : fetched (l ++ [Enqueued u]) = fetched l.
Proof. rewrite fetched_app. apply app_nil_r. Qed.

Lemma enqueued_snoc_Fetched l u : enqueued (l ++ [Fetched u]) = enqueued l.
Proof. rewrite enqueued_app. apply app_nil_r. Qed.

Lemma enqueued_snoc_Enqueued l u :
  enqueued (l ++ [Enqueued u]) = (enqueued l ++ [u])%list.
Proof. rewrite enqueued_app. reflexivity. Qed.

Lemma enqueued_map_Enqueued l : enqueued (List.map Enqueued l) = l.
Proof.
  unfold enqueued. induction l as [|x l IH]; simpl; [reflexivity|].
  f_equal. exact IH.
Qed.

Lemma fetched_map_Enqueued l : fetched (List.map Enqueued l) = [].
Proof.
  unfold fetched. induction l as [|x l IH]; simpl; [reflexivity|]. exact IH.
Qed.

Lemma existsb_eqb_elem_of (x : string) (l : list string) :
  existsb (String.eqb x) l = true <-> x ∈ l.
Proof.
  rewrite existsb_exists, list_elem_of_In. split.
  - intros (y & Hin & Heq). apply String.eqb_eq in Heq. subst. exact Hin.
  - intros Hin. exists x. split; [exact Hin|apply String.eqb_refl].
Qed.

Lemma list_insert_at_perm {A} (i : nat) (x : A) (l : list A) :
  list_insert_at i x l ≡ₚ x :: l.
Proof.
  unfold list_insert_at.
  rewrite <- Permutation_middle. constructor.
  rewrite firstn_skipn. reflexivity.
Qed.

(** What one round of the link loop may change. *)
Lemma enqueue_link_shape self log new_url :
  enqueue_link (self, log) new_url = (self, log)
  \/ ((new_url ∉ visited_urls self) /\ (new_url ∉ urls_to_visit self)
      /\ exists q,
           q ≡ₚ new_url :: urls_to_visit self
           /\ enqueue_link (self, log) new_url
              = (with_queue self q, (log ++ [Enqueued new_url])%list)).
Proof.
  unfold enqueue_link.
  case_bool_decide as Hv; simpl; [|auto].
  case_bool_decide as Hf; simpl; [|auto].
  destruct (existsb (String.eqb new_url) (urls_to_visit self)) eqn:Hq;
    simpl; [auto|].
  assert (new_url ∉ urls_to_visit self) as Hnq.
  { intros Hin. apply existsb_eqb_elem_of in Hin. congruence. }
  destruct (_is_index_page new_url || _is_pdf_or_map new_url).
  { right. repeat split; try assumption. eexists. split; [|reflexivity].
    apply list_insert_at_perm. }
  destruct (_is_tool_subdomain new_url).
  { right. repeat split; try assumption. eexists. split; [|reflexivity].
    apply list_insert_at_perm. }
  destruct (_is_same_site self new_url); [|auto].
  right. repeat split; try assumption. eexists. split; [|reflexivity].
  symmetry. apply Permutation_cons_append.
Qed.


Section WithOracles.

Variable goto : nat -> string -> Navigation.
Variable set_order : gset string -> list string.
Hypothesis set_order_perm : forall s, set_order s ≡ₚ elements s.

Lemma enqueue_link_inv self log n new_url :
  crawl_inv goto {| crawler := self; page_num := n; trace := log |} ->
  crawl_inv goto
    {| crawler := fst (enqueue_link (self, log) new_url);
       page_num := n;
       trace := snd (enqueue_link (self, log) new_url) |}.
Proof.
  intros Hinv.
  destruct (enqueue_link_shape self log new_url)
    as [-> | (Hv & Hq & q & Hperm & ->)]; simpl; [exact Hinv|].
  destruct Hinv as [Hqn Hqf Hfv Hfn Hen Hfe Hes Hqe Hfq Hpn Hsz Hfl]; simpl in *.
  assert (new_url ∉ enqueued log) as Hne.
  { intros Hin. destruct (Hes _ Hin); contradiction. }
  constructor; simpl;
    rewrite ?fetched_snoc_Fetched, ?fetched_snoc_Enqueued,
      ?enqueued_snoc_Fetched, ?enqueued_snoc_Enqueued.
  - rewrite Hperm. apply NoDup_cons. split; assumption.
  - intros u Hu. rewrite Hperm in Hu.
    apply elem_of_cons in Hu as [-> | Hu]; [assumption | auto].
  - assumption.
  - assumption.
  - apply NoDup_app. split; [assumption|]. split.
    + intros u Hu Hu'. apply list_elem_of_singleton in Hu'. subst.
      contradiction.
    + apply NoDup_singleton.
  - assumption.
  - intros u Hu. rewrite Hperm.
    apply elem_of_app in Hu as [Hu | Hu].
    + destruct (Hes _ Hu); [left; apply elem_of_cons; auto | auto].
    + apply list_elem_of_singleton in Hu. subst. left. apply elem_of_cons. auto.
  - intros u Hu. rewrite Hperm in Hu. apply elem_of_app.
    apply elem_of_cons in Hu as [-> | Hu];
      [right; apply list_elem_of_singleton; reflexivity | left; auto].
  - intros u Hu. apply elem_of_app. left. auto.
  - assumption.
  - assumption.
  - assumption.
Qed.

Lemma enqueue_links_inv links self log n :
  crawl_inv goto {| crawler := self; page_num := n; trace := log |} ->
  crawl_inv goto
    {| crawler := fst (fold_left enqueue_link links (self, log));
       page_num := n;
       trace := snd (fold_left enqueue_link links (self, log)) |}.
Proof.
  revert self log.
  induction links as [|u links IH]; intros self log Hinv; cbn [fold_left];
    [exact Hinv|].
  pose proof (enqueue_link_inv self log n u Hinv) as Hstep.
  destruct (enqueue_link (self, log) u) as [self' log']. simpl in Hstep.
  apply IH. exact Hstep.
Qed.

(** The link loop leaves the two sets alone. *)
Lemma enqueue_links_sets links self log :
  visited_urls (fst (fold_left enqueue_link links (self, log)))
  = visited_urls self
  /\ failed_urls (fst (fold_left enqueue_link links (self, log)))
     = failed_urls self.
Proof.
  revert self log.
  induction links as [|u links IH]; intros self log; cbn [fold_left]; [auto|].
  destruct (enqueue_link_shape self log u)
    as [-> | (_ & _ & q & _ & ->)]; [apply IH|].
  destruct (IH (with_queue self q) (log ++ [Enqueued u])%list) as [-> ->].
  auto.
Qed.

(** [_crawl_page] adds the URL to [visited_urls], and to [failed_urls]
    exactly when the navigation fails. *)
Lemma crawl_page_sets self n url :
  let r := _crawl_page goto set_order self n url in
  urls_to_visit (fst r) = urls_to_visit self
  /\ visited_urls (fst r) = visited_urls self ∪ {[url]}
  /\ failed_urls (fst r)
     = (if load_failed (goto n url) then failed_urls self ∪ {[url]}
        else failed_urls self)
  /\ (snd r = None <-> load_failed (goto n url) = true).
Proof.
  unfold _crawl_page, load_failed.
  destruct (goto n url) as [| |resp];
    [| |destruct (400 <=? status resp)]; cbn -[Nat.leb];
    repeat split; auto; intros; discriminate.
Qed.

Lemma loop_body_inv st :
  crawl_inv goto st -> running st = true ->
  crawl_inv goto (loop_body goto set_order st)
  /\ size (visited_urls (crawler (loop_body goto set_order st)))
     = S (size (visited_urls (crawler st))).
Proof.
  intros Hinv Hrun.
  destruct Hinv as [Hqn Hqf Hfv Hfn Hen Hfe Hes Hqe Hfq Hpn Hsz Hfl].
  unfold running in Hrun. unfold loop_body.
  destruct st as [self pn log]; simpl in *.
  destruct (urls_to_visit self) as [|url rest] eqn:Hq; [discriminate|].
  assert (url ∉ visited_urls self) as Hnv.
  { apply Hqf. apply elem_of_cons. auto. }
  assert (url ∉ failed_urls self) as Hnf by set_solver.
  assert (url ∉ rest) as Hnr.
  { apply NoDup_cons in Hqn as [Hnr _]. exact Hnr. }
  rewrite bool_decide_eq_false_2 by (simpl; exact Hnv).
  rewrite bool_decide_eq_false_2 by (simpl; exact Hnf).
  simpl.
  pose proof (crawl_page_sets (with_queue self rest) (S pn) url)
    as (Hcq & Hcv & Hcf & Hcn).
  destruct (_crawl_page goto set_order (with_queue self rest) (S pn) url)
    as [self1 data] eqn:Hcp.
  simpl in Hcq, Hcv, Hcf, Hcn.
  assert (crawl_inv goto
            {| crawler := self1; page_num := S pn;
               trace := (log ++ [Fetched url])%list |}) as Hinv1.
  { constructor; simpl;
      rewrite ?fetched_snoc_Fetched, ?fetched_snoc_Enqueued,
      ?enqueued_snoc_Fetched, ?enqueued_snoc_Enqueued.
    - rewrite Hcq. apply NoDup_cons in Hqn as [_ Hn]. exact Hn.
    - rewrite Hcq, Hcv. intros u Hu.
      assert (u ∉ visited_urls self)
        by (apply Hqf; apply elem_of_cons; auto).
      assert (u <> url) by (intros ->; contradiction).
      set_solver.
    - rewrite Hcv, Hcf. destruct (load_failed (goto (S pn) url)); set_solver.
    - apply NoDup_app. split; [assumption|]. split.
      + intros u Hu Hu'. apply list_elem_of_singleton in Hu'. subst.
        apply Hfe in Hu. contradiction.
      + apply NoDup_singleton.
    - assumption.
    - intros u. rewrite Hcv, elem_of_app, list_elem_of_singleton, Hfe.
      set_solver.
    - rewrite Hcq, Hcv. intros u Hu.
      destruct (Hes _ Hu) as [Hin | Hin].
      + apply elem_of_cons in Hin as [-> | Hin]; [right; set_solver | auto].
      + right. set_solver.
    - rewrite Hcq. intros u Hu. apply Hqe. apply elem_of_cons. auto.
    - intros u Hu. apply elem_of_app in Hu as [Hu | Hu]; [auto|].
      apply list_elem_of_singleton in Hu. subst u.
      apply Hqe. apply elem_of_cons. auto.
    - rewrite length_app. simpl. lia.
    - rewrite Hcv, length_app. simpl.
      rewrite size_union by set_solver. rewrite size_singleton. lia.
    - intros u. rewrite Hcf. split.
      + intros Hu.
        destruct (load_failed (goto (S pn) url)) eqn:Hlf.
        * apply elem_of_union in Hu as [Hu | Hu].
          -- apply Hfl in Hu as (k & Hk & Hkf). exists k.
             split; [|exact Hkf]. apply lookup_app_l_Some. exact Hk.
          -- apply elem_of_singleton in Hu. subst u.
             exists (length (fetched log)). split.
             ++ rewrite lookup_app_r by lia.
                rewrite Nat.sub_diag. reflexivity.
             ++ rewrite <- Hpn. exact Hlf.
        * apply Hfl in Hu as (k & Hk & Hkf). exists k.
          split; [|exact Hkf]. apply lookup_app_l_Some. exact Hk.
      + intros (k & Hk & Hkf).
        apply lookup_app_Some in Hk as [Hk | [Hge Hk]].
        * assert (u ∈ failed_urls self) by (apply Hfl; eauto).
          destruct (load_failed (goto (S pn) url)); set_solver.
        * apply list_lookup_singleton_Some in Hk as [Hk0 <-].
          assert (k = length (fetched log)) as -> by lia.
          rewrite <- Hpn in Hkf. rewrite Hkf. set_solver. }
  destruct data as [data|].
  - set (self2 :=
           {| base_url := base_url self1; carrier_name := carrier_name self1;
              domain := domain self1; urls_to_visit := urls_to_visit self1;
              visited_urls := visited_urls self1;
              failed_urls := failed_urls self1;
              pages_data := (pages_data self1 ++ [data])%list |}).
    assert (crawl_inv goto
              {| crawler := self2; page_num := S pn;
                 trace := (log ++ [Fetched url])%list |}) as Hinv2.
    { destruct Hinv1. constructor; simpl in *; assumption. }
    pose proof (enqueue_links_inv (pd_extracted_links data) self2
                  (log ++ [Fetched url])%list (S pn) Hinv2) as Hinv3.
    pose proof (enqueue_links_sets (pd_extracted_links data) self2
                  (log ++ [Fetched url])%list) as [Hv3 _].
    destruct (fold_left enqueue_link (pd_extracted_links data)
                (self2, (log ++ [Fetched url])%list)) as [self3 log3].
    simpl in *. split; [exact Hinv3|].
    rewrite Hv3, Hcv. rewrite size_union by set_solver.
    rewrite size_singleton. lia.
  - simpl. split; [exact Hinv1|].
    rewrite Hcv. rewrite size_union by set_solver.
    rewrite size_singleton. lia.
Qed.


Lemma init_fresh base name self :
  init base name = Ok self ->
  visited_urls self = ∅ /\ failed_urls self = ∅
  /\ base_url self = Py.rstrip_slash base.
Proof.
  unfold init. destruct (Utils.extract_domain base); simpl; [|discriminate].
  intros [= <-]. auto.
Qed.

Lemma seed_queue_nodup self seeds : NoDup (seed_queue set_order self seeds).
Proof.
  unfold seed_queue.
  set (l := List.filter _ (set_order seeds)).
  assert (NoDup l) as Hl.
  { unfold l. apply NoDup_ListNoDup, List.NoDup_filter, NoDup_ListNoDup.
    rewrite set_order_perm. apply NoDup_elements. }
  assert (base_url self ∉ l) as Hb.
  { unfold l. intros Hin. apply list_elem_of_In, filter_In in Hin as [_ Hin].
    rewrite String.eqb_refl in Hin. discriminate. }
  set (p := fun url => _is_index_page url || _is_pdf_or_map url).
  apply NoDup_cons. split.
  - intros Hin. apply elem_of_app in Hin as [Hin | Hin].
    + apply list_elem_of_In, filter_In in Hin as [Hin _].
      apply Hb, list_elem_of_In, Hin.
    + apply subseteq_take, list_elem_of_In, filter_In in Hin as [Hin _].
      apply Hb, list_elem_of_In, Hin.
  - apply NoDup_app.
    split; [apply NoDup_ListNoDup, List.NoDup_filter, NoDup_ListNoDup, Hl|].
    split.
    + intros u Hu Hu'.
      apply list_elem_of_In, filter_In in Hu as [_ Hu].
      apply subseteq_take, list_elem_of_In, filter_In in Hu' as [_ Hu'].
      fold (p u) in Hu, Hu'. rewrite Hu in Hu'. discriminate.
    + assert (NoDup (List.filter (fun url => negb (p url)) l)) as Ho
        by (apply NoDup_ListNoDup, List.NoDup_filter, NoDup_ListNoDup, Hl).
      eapply sublist_NoDup; [exact Ho|apply sublist_take].
Qed.

Lemma start_inv self seeds :
  visited_urls self = ∅ -> failed_urls self = ∅ ->
  crawl_inv goto (start set_order self seeds).
Proof.
  intros Hv Hf. unfold start.
  pose proof (seed_queue_nodup self seeds) as Hq.
  revert Hq. generalize (seed_queue set_order self seeds). intros q Hq.
  constructor; simpl;
    rewrite ?enqueued_map_Enqueued, ?fetched_map_Enqueued, ?Hv, ?Hf.
  - exact Hq.
  - intros u _. set_solver.
  - set_solver.
  - apply NoDup_nil_2.
  - exact Hq.
  - intros u. split; [intros Hu; inversion Hu | set_solver].
  - auto.
  - auto.
  - intros u Hu. inversion Hu.
  - reflexivity.
  - rewrite size_empty. reflexivity.
  - intros u. split; [set_solver|].
    intros (n & Hn & _). rewrite lookup_nil in Hn. discriminate.
Qed.

Lemma running_true st :
  running st = true <->
  urls_to_visit (crawler st) <> []
  /\ size (visited_urls (crawler st)) < Config.MAX_PAGES_PER_SITE.
Proof.
  unfold running. destruct (urls_to_visit (crawler st)).
  - split; [discriminate | intros [H _]; congruence].
  - rewrite Nat.ltb_lt. split; [intros H; split; [discriminate|exact H]|].
    intros [_ H]. exact H.
Qed.

Lemma running_false st :
  running st = false <->
  urls_to_visit (crawler st) = []
  \/ Config.MAX_PAGES_PER_SITE <= size (visited_urls (crawler st)).
Proof.
  unfold running. destruct (urls_to_visit (crawler st)).
  - split; auto.
  - rewrite Nat.ltb_ge. split; [auto|]. intros [H | H]; [discriminate|exact H].
Qed.

(** The loop ends, after a number of rounds that the page budget
    bounds, in the first state in which its guard is false. *)
Lemma crawl_loop_rounds fuel st :
  crawl_inv goto st ->
  Config.MAX_PAGES_PER_SITE - size (visited_urls (crawler st)) <= fuel ->
  exists k,
    k <= Config.MAX_PAGES_PER_SITE - size (visited_urls (crawler st))
    /\ crawl_loop goto set_order fuel st
       = Some (rounds goto set_order k st)
    /\ (forall j, j < k -> running (rounds goto set_order j st) = true)
    /\ running (rounds goto set_order k st) = false
    /\ crawl_inv goto (rounds goto set_order k st).
Proof.
  revert st. induction fuel as [|fuel IH]; intros st Hinv Hfuel.
  - destruct (running st) eqn:Hrun.
    + apply running_true in Hrun as [_ Hlt]. lia.
    + exists 0. cbn [crawl_loop rounds]. rewrite Hrun.
      split; [lia|]. split; [reflexivity|]. split; [intros j Hj; lia|].
      split; [reflexivity|assumption].
  - destruct (running st) eqn:Hrun.
    + destruct (loop_body_inv st Hinv Hrun) as [Hinv' Hsz].
      pose proof (proj1 (running_true st) Hrun) as [_ Hlt].
      destruct (IH (loop_body goto set_order st) Hinv') as
        (k & Hk & Hloop & Hbefore & Hafter & Hinvk); [lia|].
      exists (S k). cbn [crawl_loop rounds]. rewrite Hrun.
      split; [lia|]. split; [exact Hloop|]. split; [|split; assumption].
      intros [|j] Hj; cbn [rounds]; [exact Hrun | apply Hbefore; lia].
    + exists 0. cbn [crawl_loop rounds]. rewrite Hrun.
      split; [lia|]. split; [reflexivity|]. split; [intros j Hj; lia|].
      split; [reflexivity|assumption].
Qed.

End WithOracles.
End CrawlerProofs.

Section CrawlerClaims.
Import Crawler CrawlSamples.



(** Claim C5, as amended: the loop takes a round exactly while the
    frontier is not empty and fewer than the page budget of URLs are in
    [visited_urls], and so stops in the first state where the frontier is
    empty or that number has reached the budget; every URL handed to the
    browser ends in [visited_urls]; it is also in [failed_urls] exactly
    when its navigation failed, so [failed_urls] is a subset of
    [visited_urls]. *)
Theorem crawl_stops_and_marks
  (goto : nat -> string -> Navigation) (set_order : gset string -> list string)
  (base name : string) (self : PageCrawler) (seeds : gset string) :
  (forall s, set_order s ≡ₚ elements s) ->
  init base name = Ok self ->
  exists k st,
    k <= Config.MAX_PAGES_PER_SITE
    /\ crawl goto set_order Config.MAX_PAGES_PER_SITE self seeds = Some st
    /\ st = rounds goto set_order k (start set_order self seeds)
    /\ (forall j, j < k ->
          let sj := rounds goto set_order j (start set_order self seeds) in
          urls_to_visit (crawler sj) <> []
          /\ size (visited_urls (crawler sj)) < Config.MAX_PAGES_PER_SITE)
    /\ (urls_to_visit (crawler st) = []
        \/ Config.MAX_PAGES_PER_SITE <= size (visited_urls (crawler st)))
    /\ (forall u, u ∈ fetched (trace st) <-> u ∈ visited_urls (crawler st))
    /\ failed_urls (crawler st) ⊆ visited_urls (crawler st)
    /\ (forall u, u ∈ failed_urls (crawler st) <->
                  exists n, fetched (trace st) !! n = Some u
                            /\ load_failed (goto (S n) u) = true).
Proof.
  intros Hperm Hinit.
  destruct (init_fresh base name self Hinit) as (Hv & Hf & _).
  pose proof (start_inv goto set_order Hperm self seeds Hv Hf) as Hinv.
  destruct (crawl_loop_rounds goto set_order Hperm
              Config.MAX_PAGES_PER_SITE (start set_order self seeds) Hinv)
    as (k & Hk & Hloop & Hbefore & Hafter & Hend); [lia|].
  exists k, (rounds goto set_order k (start set_order self seeds)).
  destruct Hend as [Hqn Hqf Hfv Hfn Hen Hfe Hes Hqe Hfq Hpn Hsz Hfl].
  split; [lia|]. split; [exact Hloop|]. split; [reflexivity|].
  split; [intros j Hj; apply running_true, Hbefore, Hj|].
  split; [apply running_false, Hafter|].
  split; [exact Hfe|]. split; [exact Hfv|]. exact Hfl.
Qed.

Lemma crawl_stops_and_marks_witness :
  exists k st,
    k <= 200
    /\ crawl goto_small_site elements 200 sample_crawler sample_seeds
       = Some st
    /\ failed_urls (crawler st) ⊆ visited_urls (crawler st).
Proof.
  destruct (crawl_stops_and_marks goto_small_site elements
              "https://carrier.example" "Carrier" sample_crawler sample_seeds)
    as (k & st & Hk & Hst & _ & _ & _ & _ & Hsub & _).
  - intros s. reflexivity.
  - reflexivity.
  - exists k, st. split; [exact Hk|]. split; [exact Hst|exact Hsub].
Defined.

(** Claim C5 as stated fails: when the homepage does not load, its URL is
    in [visited_urls] and in [failed_urls] at the end of the crawl. *)
Lemma failed_url_is_also_visited :
  exists st,
    crawl goto_unreachable elements 200 sample_crawler ∅ = Some st
    /\ "https://carrier.example" ∈ visited_urls (crawler st)
    /\ "https://carrier.example" ∈ failed_urls (crawler st)
    /\ visited_urls (crawler st) ∩ failed_urls (crawler st) <> ∅.
Proof.
  eexists. split; [vm_compute; reflexivity|].
  split; [|split].
  - refine (bool_decide_unpack _ _). vm_compute. exact I.
  - refine (bool_decide_unpack _ _). vm_compute. exact I.
  - intros Hempty.
    assert ("https://carrier.example" ∈ (∅ : gset string)) as Hbad.
    { rewrite <- Hempty. apply elem_of_intersection.
      split; refine (bool_decide_unpack _ _); vm_compute; exact I. }
    set_solver.
Qed.
End CrawlerClaims.

(* ===================================================================== *)
(** * Properties of the carrier report                                   *)
(* ===================================================================== *)

Section ReportClaims.
Import Classifier ReportSamples.
Local Open Scope Z_scope.

Lemma insert_by_score_sorted c l :
  score_descending l -> score_descending (insert_by_score c l).
Proof.
  unfold score_descending.
  induction 1 as [|d l Hl IH Hd]; simpl.
  - repeat constructor.
  - destruct (total_score c <? total_score d) eqn:Hlt.
    + apply Z.ltb_lt in Hlt. constructor; [exact IH|].
      clear IH Hl. induction l as [|e l IHl]; simpl.
      * repeat constructor. lia.
      * apply Forall_cons in Hd as [He Hd'].
        destruct (total_score c <? total_score e);
          repeat constructor; auto; lia.
    + apply Z.ltb_ge in Hlt. constructor.
      * constructor; assumption.
      * constructor; [lia|].
        eapply Forall_impl; [exact Hd|]. simpl. intros e He. lia.
Qed.

Lemma sort_by_score_sorted l : score_descending (sort_by_score l).
Proof.
  unfold sort_by_score. induction l as [|c l IH]; simpl.
  - constructor.
  - apply insert_by_score_sorted, IH.
Qed.

Lemma insert_by_score_perm c l : insert_by_score c l ≡ₚ c :: l.
Proof.
  induction l as [|d l IH]; simpl; [reflexivity|].
  destruct (total_score c <? total_score d); [|reflexivity].
  rewrite IH. apply Permutation_swap.
Qed.

Lemma sort_by_score_perm l : sort_by_score l ≡ₚ l.
Proof.
  unfold sort_by_score. induction l as [|c l IH]; simpl; [reflexivity|].
  rewrite insert_by_score_perm, IH. reflexivity.
Qed.

Lemma score_descending_take n l :
  score_descending l -> score_descending (firstn n l).
Proof.
  unfold score_descending. intros H. revert n.
  induction H as [|d l Hl IH Hd]; intros [|n]; simpl; try constructor.
  - apply IH.
  - eapply Forall_forall. intros e He.
    apply subseteq_take in He. eapply Forall_forall in Hd; eauto.
Qed.

Lemma page_key_of_json l :
  List.map page_key (List.map page_of_json (List.map json_of_page l))
  = List.map page_key l.
Proof.
  induction l as [|p l IH]; simpl; [reflexivity|]. rewrite IH. reflexivity.
Qed.

Lemma score_descending_scores l :
  score_descending l
  <-> StronglySorted (fun a b => b <= a) (List.map total_score l).
Proof.
  unfold score_descending. induction l as [|c l IH]; simpl.
  - split; constructor.
  - split; intros H; apply StronglySorted_inv in H as [Hl Hc];
      (constructor; [apply IH, Hl|]).
    + apply List.Forall_forall. intros x Hx.
      apply in_map_iff in Hx as (y & <- & Hy).
      eapply List.Forall_forall in Hc; [exact Hc|exact Hy].
    + apply List.Forall_forall. intros y Hy.
      eapply List.Forall_forall in Hc; [exact Hc|].
      apply in_map. exact Hy.
Qed.

Lemma map_page_key_score l :
  List.map snd (List.map page_key l) = List.map total_score l.
Proof. rewrite map_map. reflexivity. Qed.

(** Claim C8, as amended: the [top_pages] of a report of
    [classify_carrier] are in descending order of [total_score]; the
    structured output holds the first ten of them, in the same order and
    with the same URL, title and score, and the same modality counts; so
    a report read back from it has the same modality counts, and the same
    ranking whenever the report has at most ten top pages. *)
Theorem report_json_keeps_top_ten name dir (files : list HtmlFile) :
  let r := classify_carrier name dir files in
  let r' := report_of_json (json_of_report r) in
  score_descending (top_pages r)
  /\ List.map page_key (top_pages r')
     = List.map page_key (firstn 10 (top_pages r))
  /\ score_descending (top_pages r')
  /\ modalities_found r' = modalities_found r
  /\ ((length (top_pages r) <= 10)%nat ->
      List.map page_key (top_pages r') = List.map page_key (top_pages r)).
Proof.
  intros r r'. subst r'.
  assert (score_descending (top_pages r)) as Hsorted.
  { subst r. unfold classify_carrier.
    destruct (fold_left scan_file files (0%nat, [], ∅)) as [[n all] m].
    simpl. apply score_descending_take, sort_by_score_sorted. }
  assert (List.map page_key (top_pages (report_of_json (json_of_report r)))
          = List.map page_key (firstn 10 (top_pages r))) as Hkeys.
  { simpl. apply page_key_of_json. }
  split; [exact Hsorted|]. split; [exact Hkeys|]. split; [|split].
  - apply score_descending_scores. rewrite <- !map_page_key_score, Hkeys.
    rewrite map_page_key_score. apply score_descending_scores.
    apply score_descending_take, Hsorted.
  - reflexivity.
  - intros Hlen. rewrite Hkeys. rewrite firstn_all2 by lia. reflexivity.
Qed.

(** Claim C8 as stated fails: a carrier with eleven accepted pages has
    eleven top pages, and the structured output keeps ten of them. *)
Lemma json_drops_the_eleventh_page :
  let r := classify_carrier "Carrier" "carrier_example" eleven_files in
  let r' := report_of_json (json_of_report r) in
  length (top_pages r) = 11%nat
  /\ length (top_pages r') = 10%nat
  /\ List.map page_key (top_pages r') <> List.map page_key (top_pages r).
Proof.
  vm_compute. split; [reflexivity|]. split; [reflexivity|]. discriminate.
Qed.
End ReportClaims.

(* ===================================================================== *)
(** * Properties of the run coordinator                                  *)
(* ===================================================================== *)

Section RunnerClaims.
Import Runner RunSamples.
Local Open Scope Z_scope.

Section Batches.

Variable crawl_single_carrier : Carrier -> Outcome.
Variable as_completed : list Outcome -> list Outcome.

(** The outcomes of a sequence of batches, in the order they are added
    to [results]. *)
Lemma run_batches_results start_idx todo results file :
  fst (fold_left (run_batch crawl_single_carrier as_completed start_idx)
         todo (results, file))
  = (results
     ++ List.concat
          (List.map (fun b => as_completed (List.map crawl_single_carrier b))
             todo))%list.
Proof.
  revert results file.
  induction todo as [|b todo IH]; intros results file; simpl.
  - rewrite app_nil_r. reflexivity.
  - rewrite IH, <- app_assoc. reflexivity.
Qed.

(** After at least one batch the checkpoint is the one saved with the
    whole [results] list and the start index of the run. *)
Lemma run_batches_checkpoint start_idx todo results file :
  todo <> [] ->
  snd (fold_left (run_batch crawl_single_carrier as_completed start_idx)
         todo (results, file))
  = Some (save_checkpoint
            (fst (fold_left
                    (run_batch crawl_single_carrier as_completed start_idx)
                    todo (results, file)))
            start_idx).
Proof.
  destruct todo as [|b todo] using rev_ind; [congruence|]. intros _.
  rewrite fold_left_app. simpl.
  destruct (fold_left _ todo (results, file)) as [rs f]. reflexivity.
Qed.

(** The index at which a resume starts, given the checkpoint that a run
    from [start_idx] saved with [results]: the start index plus the
    length of the whole list, the outcomes taken over from an earlier
    checkpoint included. *)
Lemma resume_index (results : list Outcome) (start_idx : nat) :
  load_checkpoint (Some (save_checkpoint results start_idx))
  = (Z.of_nat start_idx + Z.of_nat (length results), results).
Proof.
  unfold load_checkpoint, save_checkpoint. simpl. f_equal. lia.
Qed.

End Batches.

(** Claim C6 fails on a resumed run: after a first run has done carriers
    0..19 and a resumed run has done carriers 20..39, the checkpoint
    holds the 40 outcomes of carriers 0..39, and the next resume starts
    at index 60 instead of 40. A run started at index 20 and not resumed
    behaves as the claim says. *)
Theorem resumed_run_checkpoint_skips_carriers :
  (* the first run: carriers 0..19, next start 20 *)
  fst (load_checkpoint (snd first_run)) = 20
  /\ List.map outcome_name (snd (load_checkpoint (snd first_run)))
     = List.map name (firstn 20 sixty_carriers)
  (* the resumed run starts at 20 and does carriers 20..39 *)
  /\ fst (fst second_run) = 20%nat
  /\ List.map outcome_name (snd (fst second_run))
     = List.map name (firstn 40 sixty_carriers)
  (* its checkpoint sends the next resume to index 60 *)
  /\ fst (load_checkpoint (snd second_run)) = 60
  /\ fst (load_checkpoint (snd second_run)) <> 39 + 1
  /\ snd (load_checkpoint (snd second_run)) = snd (fst second_run)
  (* a run started at 20 without resume: next start 40 *)
  /\ fst (load_checkpoint (snd started_at_20)) = 39 + 1.
Proof.
  vm_compute. repeat split; try reflexivity. discriminate.
Qed.
End RunnerClaims.

(** * Properties of URL normalization *)

Section StringFacts.

Lemma append_cons (c : ascii) (a b : string) :
  String c a ++ b = String c (a ++ b).
Proof. reflexivity. Qed.

Lemma append_nil_l (b : string) : "" ++ b = b.
Proof. reflexivity. Qed.

Lemma append_nil_r (s : string) : s ++ "" = s.
Proof.
  induction s as [|c s IH]; [reflexivity|]. rewrite append_cons, IH.
  reflexivity.
Qed.

Lemma append_assoc (a b c : string) : (a ++ b) ++ c = a ++ (b ++ c).
Proof.
  induction a as [|x a IH]; [reflexivity|]. rewrite !append_cons, IH.
  reflexivity.
Qed.

Lemma lower_app (a b : string) : Py.lower (a ++ b) = Py.lower a ++ Py.lower b.
Proof.
  induction a as [|c a IH]; [reflexivity|].
  rewrite append_cons. simpl. rewrite IH. reflexivity.
Qed.

Lemma is_space_lower_char (c : ascii) :
  Py.is_space (Py.lower_char c) = Py.is_space c.
Proof. destruct c as [[] [] [] [] [] [] [] []]; reflexivity. Qed.

Lemma startswith_app_l (a b p : string) :
  Py.startswith a p = true -> Py.startswith (a ++ b) p = true.
Proof.
  revert a. induction p as [|c p IH]; intros a H; [reflexivity|].
  destruct a as [|d a]; simpl in H; [discriminate|].
  apply andb_true_iff in H as [Hc Hp].
  rewrite append_cons. simpl. rewrite Hc. simpl. apply IH, Hp.
Qed.

Lemma contains_cons (p : string) (c : ascii) (s : string) :
  Py.contains p (String c s)
  = Py.startswith (String c s) p || Py.contains p s.
Proof. reflexivity. Qed.

Lemma contains_nil (p : string) : Py.contains p "" = true -> p = "".
Proof. destruct p; [reflexivity|discriminate]. Qed.

Lemma contains_app_l (p a b : string) :
  Py.contains p a = true -> Py.contains p (a ++ b) = true.
Proof.
  induction a as [|c a IH]; intros H.
  - apply contains_nil in H. subst p. destruct b; reflexivity.
  - cbn [Py.contains] in H. apply orb_true_iff in H as [H | H].
    + apply (startswith_app_l _ b) in H. rewrite append_cons in *.
      cbn [Py.contains]. rewrite H. reflexivity.
    + rewrite append_cons. cbn [Py.contains]. rewrite (IH H).
      apply orb_true_r.
Qed.

Lemma contains_app_r (p a b : string) :
  Py.contains p b = true -> Py.contains p (a ++ b) = true.
Proof.
  intros H. induction a as [|c a IH]; [exact H|].
  rewrite append_cons. cbn [Py.contains]. rewrite IH. apply orb_true_r.
Qed.

Lemma any_in_app_l (ps : list string) (a b : string) :
  Py.any_in ps (a ++ b) = false -> Py.any_in ps a = false.
Proof.
  unfold Py.any_in. induction ps as [|p ps IH]; simpl; [reflexivity|].
  intros H. apply orb_false_iff in H as [Hp Hps].
  rewrite (IH Hps), orb_false_r.
  destruct (Py.contains p a) eqn:Ha; [|reflexivity].
  rewrite (contains_app_l _ _ b Ha) in Hp. discriminate.
Qed.

(** A needle without white space that occurs in a text occurs in the
    stripped text. *)
Lemma startswith_rstrip (f : ascii -> bool) (s p : string) :
  p <> "" -> Py.all_chars (fun c => negb (f c)) p = true ->
  Py.startswith s p = true -> Py.startswith (Py.rstrip_by f s) p = true.
Proof.
  revert s. induction p as [|c p IH]; intros s Hne Hall Hs; [congruence|].
  destruct s as [|d s]; simpl in Hs; [discriminate|].
  apply andb_true_iff in Hs as [Hcd Hs].
  simpl in Hall. apply andb_true_iff in Hall as [Hc Hall].
  apply Ascii.eqb_eq in Hcd. subst d.
  simpl. destruct p as [|e p].
  - destruct (Py.rstrip_by f s); simpl.
    + apply negb_true_iff in Hc. rewrite Hc. simpl.
      rewrite Ascii.eqb_refl. reflexivity.
    + rewrite Ascii.eqb_refl. reflexivity.
  - assert (Py.startswith (Py.rstrip_by f s) (String e p) = true) as H
      by (apply IH; [discriminate | exact Hall | exact Hs]).
    destruct (Py.rstrip_by f s) as [|x r]; [simpl in H; discriminate|].
    simpl. rewrite Ascii.eqb_refl. exact H.
Qed.

Lemma contains_rstrip (f : ascii -> bool) (s p : string) :
  p <> "" -> Py.all_chars (fun c => negb (f c)) p = true ->
  Py.contains p s = true -> Py.contains p (Py.rstrip_by f s) = true.
Proof.
  intros Hne Hall. induction s as [|d s IH]; intros H.
  - apply contains_nil in H. congruence.
  - rewrite contains_cons in H. apply orb_true_iff in H as [H | H].
    + apply (startswith_rstrip f) in H; [|assumption..].
      destruct (Py.rstrip_by f (String d s)) as [|x r].
      * destruct p; [congruence|discriminate].
      * rewrite contains_cons, H. reflexivity.
    + specialize (IH H). simpl.
      destruct (Py.rstrip_by f s) as [|x r] eqn:Hr.
      * apply contains_nil in IH. congruence.
      * rewrite contains_cons, IH. apply orb_true_r.
Qed.

Lemma contains_lstrip (f : ascii -> bool) (s p : string) :
  p <> "" -> Py.all_chars (fun c => negb (f c)) p = true ->
  Py.contains p s = true -> Py.contains p (Py.lstrip_by f s) = true.
Proof.
  intros Hne Hall. induction s as [|d s IH]; intros H; [exact H|].
  simpl. destruct (f d) eqn:Hd; [|exact H].
  apply IH. rewrite contains_cons in H. apply orb_true_iff in H as [H | H];
    [|exact H].
  destruct p as [|c p]; [congruence|]. simpl in H, Hall.
  apply andb_true_iff in H as [Hcd _]. apply Ascii.eqb_eq in Hcd. subst d.
  apply andb_true_iff in Hall as [Hc _]. rewrite Hd in Hc. discriminate.
Qed.

Lemma lower_lstrip (s : string) :
  Py.lower (Py.lstrip_by Py.is_space s)
  = Py.lstrip_by Py.is_space (Py.lower s).
Proof.
  induction s as [|c s IH]; simpl; [reflexivity|].
  rewrite is_space_lower_char. destruct (Py.is_space c); [exact IH|reflexivity].
Qed.

Lemma lower_rstrip (s : string) :
  Py.lower (Py.rstrip_by Py.is_space s)
  = Py.rstrip_by Py.is_space (Py.lower s).
Proof.
  induction s as [|c s IH]; simpl; [reflexivity|].
  rewrite <- IH, is_space_lower_char.
  destruct (Py.rstrip_by Py.is_space s); simpl;
    [destruct (Py.is_space c)|]; reflexivity.
Qed.

Lemma contains_lower_strip (p s : string) :
  p <> "" -> Py.all_chars (fun c => negb (Py.is_space c)) p = true ->
  Py.contains p (Py.lower s) = true ->
  Py.contains p (Py.lower (Py.strip s)) = true.
Proof.
  intros Hne Hall H. unfold Py.strip.
  rewrite lower_rstrip, lower_lstrip.
  apply contains_rstrip, contains_lstrip; assumption.
Qed.

End StringFacts.

Section PdfLinks.

(** A raw link that has [.pdf] in it, in any letter case, is rejected. *)
Lemma normalize_url_pdf (raw base : string) :
  Py.contains ".pdf" (Py.lower raw) = true ->
  Utils.normalize_url raw base = Ok None.
Proof.
  intros H. unfold Utils.normalize_url.
  destruct (String.eqb raw "" || String.eqb (Py.strip raw) ""); [reflexivity|].
  assert (Py.any_in Config.EXCLUDED_URL_PATTERNS (Py.lower (Py.strip raw))
          = true) as ->; [|reflexivity].
  apply existsb_exists. exists ".pdf". split.
  - unfold Config.EXCLUDED_URL_PATTERNS. simpl. tauto.
  - apply contains_lower_strip; [discriminate | reflexivity | exact H].
Qed.

End PdfLinks.

Section UrlFragments.
Import Urllib.

Notation hash := "#"%char.

Lemma lstrip_by_app_stop (f : ascii -> bool) (a : string) (c : ascii)
  (b : string) :
  f c = false ->
  Py.lstrip_by f (a ++ String c b) = Py.lstrip_by f a ++ String c b.
Proof.
  intros Hc. induction a as [|d a IH].
  - simpl. rewrite append_nil_l. simpl. rewrite Hc. reflexivity.
  - rewrite append_cons. simpl. destruct (f d); [exact IH|].
    rewrite append_cons. reflexivity.
Qed.

Lemma remove_chars_app (f : ascii -> bool) (a b : string) :
  Py.remove_chars f (a ++ b) = Py.remove_chars f a ++ Py.remove_chars f b.
Proof.
  induction a as [|d a IH]; [reflexivity|].
  rewrite append_cons. simpl. destruct (f d); [exact IH|].
  rewrite append_cons, IH. reflexivity.
Qed.

Lemma clean_url_fragment (x f : string) :
  clean_url (x ++ String hash f)
  = clean_url x ++ String hash (Py.remove_chars unsafe_byte f).
Proof.
  unfold clean_url. rewrite lstrip_by_app_stop by reflexivity.
  rewrite remove_chars_app. reflexivity.
Qed.

(** *** The scheme *)

Lemma find_char_app_l (c : ascii) (a x : string) (i : nat) :
  Py.find_char c a = Some i -> Py.find_char c (a ++ x) = Some i.
Proof.
  revert i. induction a as [|d a IH]; intros i H; [discriminate|].
  rewrite append_cons. simpl in *. destruct (Ascii.eqb c d); [exact H|].
  destruct (Py.find_char c a) as [j|]; [|discriminate].
  rewrite (IH j eq_refl). exact H.
Qed.

Lemma take_drop_app_found (c : ascii) (a x : string) (i : nat) :
  Py.find_char c a = Some i ->
  Py.take i (a ++ x) = Py.take i a
  /\ Py.drop (S i) (a ++ x) = Py.drop (S i) a ++ x.
Proof.
  revert i. induction a as [|d a IH]; intros i H; [discriminate|].
  rewrite append_cons. simpl in H. destruct (Ascii.eqb c d).
  - injection H as <-. split; reflexivity.
  - destruct (Py.find_char c a) as [j|]; [|discriminate].
    injection H as <-. destruct (IH j eq_refl) as [Ht Hd].
    split; simpl; [rewrite Ht; reflexivity | exact Hd].
Qed.

Lemma find_char_app_not_first (c : ascii) (a b : string) :
  Py.find_char c a = None -> Ascii.eqb c hash = false ->
  Py.find_char c (a ++ String hash b) <> Some 0.
Proof.
  intros Ha Hc. destruct a as [|d a].
  - rewrite append_nil_l. simpl. rewrite Hc.
    destruct (Py.find_char c b); discriminate.
  - rewrite append_cons. simpl in *. destruct (Ascii.eqb c d); [discriminate|].
    destruct (Py.find_char c (a ++ String hash b)); discriminate.
Qed.

Lemma find_char_app_stop (g : ascii -> bool) (c : ascii) (a b : string) :
  Py.find_char c a = None -> Ascii.eqb c hash = false -> g hash = false ->
  match Py.find_char c (a ++ String hash b) with
  | Some j => Py.all_chars g (Py.take j (a ++ String hash b)) = false
  | None => True
  end.
Proof.
  intros Ha Hc Hg. induction a as [|d a IH].
  - rewrite append_nil_l. simpl. rewrite Hc.
    destruct (Py.find_char c b); [|exact I]. simpl. rewrite Hg. reflexivity.
  - rewrite append_cons. simpl in *. destruct (Ascii.eqb c d); [discriminate|].
    destruct (Py.find_char c a); [discriminate|]. specialize (IH eq_refl).
    destruct (Py.find_char c (a ++ String hash b)) as [j|]; [|exact I].
    simpl. rewrite IH. apply andb_false_r.
Qed.

Lemma split_scheme_fragment (a b d : string) :
  split_scheme (a ++ String hash b) d
  = (fst (split_scheme a d), snd (split_scheme a d) ++ String hash b).
Proof.
  unfold split_scheme.
  destruct (Py.find_char ":" a) as [i|] eqn:Hf.
  - rewrite (find_char_app_l _ _ (String hash b) _ Hf).
    destruct i as [|i]; [reflexivity|].
    destruct (take_drop_app_found _ _ (String hash b) _ Hf) as [Ht Hd].
    rewrite Ht, Hd.
    destruct a as [|c a]; [discriminate|]. rewrite append_cons.
    destruct (Py.is_alpha c && _); reflexivity.
  - pose proof (find_char_app_stop scheme_char ":" a b Hf eq_refl eq_refl)
      as Hs.
    destruct (Py.find_char ":" (a ++ String hash b)) as [[|j]|];
      try reflexivity.
    rewrite Hs, andb_false_r. reflexivity.
Qed.

(** *** The network location *)

Lemma startswith_app_stop (p a : string) (c : ascii) (b : string) :
  Py.all_chars (fun x => negb (Ascii.eqb x c)) p = true ->
  Py.startswith (a ++ String c b) p = Py.startswith a p.
Proof.
  revert a. induction p as [|x p IH]; intros a Hp; [reflexivity|].
  simpl in Hp. apply andb_true_iff in Hp as [Hx Hp].
  destruct a as [|d a].
  - rewrite append_nil_l. simpl. apply negb_true_iff in Hx. rewrite Hx.
    reflexivity.
  - rewrite append_cons. simpl. rewrite (IH a Hp). reflexivity.
Qed.

Lemma span_until_app_stop (f : ascii -> bool) (a : string) (c : ascii)
  (b : string) :
  f c = true ->
  span_until f (a ++ String c b)
  = (fst (span_until f a), snd (span_until f a) ++ String c b).
Proof.
  intros Hc. induction a as [|d a IH].
  - rewrite append_nil_l. simpl. rewrite Hc. reflexivity.
  - rewrite append_cons. simpl. destruct (f d); [reflexivity|].
    rewrite IH. destruct (span_until f a). reflexivity.
Qed.

Lemma split_authority_fragment (a b : string) :
  split_authority (a ++ String hash b)
  = (fst (split_authority a), snd (split_authority a) ++ String hash b).
Proof.
  unfold split_authority.
  rewrite (startswith_app_stop "//" a hash b eq_refl).
  destruct (Py.startswith a "//") eqn:Hs; [|reflexivity].
  unfold splitnetloc.
  destruct a as [|c1 [|c2 a]]; try discriminate.
  - simpl in Hs. rewrite andb_false_r in Hs. discriminate.
  - rewrite !append_cons. simpl Py.drop.
    apply span_until_app_stop. reflexivity.
Qed.

(** *** Fragment and query *)

Lemma contains_char_here (c : ascii) (b : string) :
  Py.contains (String c "") (String c b) = true.
Proof. rewrite contains_cons. simpl. rewrite Ascii.eqb_refl. reflexivity. Qed.

Lemma partition_fst_app (c : ascii) (a b : string) :
  fst (Py.partition c (a ++ String c b))
  = if Py.contains (String c "") a then fst (Py.partition c a) else a.
Proof.
  induction a as [|d a IH].
  - rewrite append_nil_l. simpl. rewrite Ascii.eqb_refl. reflexivity.
  - rewrite append_cons, contains_cons. simpl.
    destruct (Ascii.eqb c d); simpl; [reflexivity|].
    destruct (Py.partition c (a ++ String c b)) as [x y].
    destruct (Py.partition c a) as [x' y']. simpl in *.
    destruct (Py.contains (String c "") a); rewrite IH; reflexivity.
Qed.

Lemma split_tail_fragment (a b : string) :
  fst (split_tail (a ++ String hash b)) = fst (split_tail a).
Proof.
  unfold split_tail.
  rewrite (contains_app_r _ a _ (contains_char_here hash b)).
  pose proof (partition_fst_app hash a b) as Hp.
  destruct (Py.partition hash (a ++ String hash b)) as [u fr]. simpl in Hp.
  subst u.
  destruct (Py.contains "#" a).
  - destruct (Py.partition hash a) as [u fr']. simpl.
    destruct (if Py.contains "?" u then _ else _). reflexivity.
  - destruct (if Py.contains "?" a then _ else _). reflexivity.
Qed.

(** *** The whole parse *)

Lemma urlsplit_fragment (x f d : string) :
  same_components (urlsplit x d) (urlsplit (x ++ String hash f) d).
Proof.
  unfold urlsplit. rewrite clean_url_fragment, split_scheme_fragment.
  destruct (split_scheme (clean_url x) (clean_scheme d)) as [sch rest].
  simpl fst; simpl snd.
  rewrite split_authority_fragment.
  destruct (split_authority rest) as [net rest']. simpl fst; simpl snd.
  destruct (Py.contains "[" net || Py.contains "]" net); [exact I|].
  pose proof (split_tail_fragment rest' (Py.remove_chars unsafe_byte f)) as Ht.
  destruct (split_tail (rest' ++ _)) as [[p q] fr].
  destruct (split_tail rest') as [[p' q'] fr']. simpl in Ht.
  injection Ht as -> ->. simpl. auto.
Qed.

Lemma urlparse_fragment (x f : string) : parse_equiv x (x ++ String hash f).
Proof.
  intros d. unfold urlparse.
  pose proof (urlsplit_fragment x f d) as Hs.
  destruct (urlsplit x d) as [r|], (urlsplit (x ++ String hash f) d) as [r'|];
    cbn [bind]; cbn [same_components] in Hs; try contradiction; [|exact I].
  destruct Hs as (Hs & Hn & Hp & Hpa & Hq). rewrite Hs, Hp.
  destruct (mem (scheme r') uses_params && Py.contains ";" (path r')).
  - destruct (splitparams (path r')). simpl. repeat split; congruence.
  - simpl. repeat split; congruence.
Qed.

Lemma same_components_refl r : same_components r r.
Proof. destruct r; simpl; auto. Qed.

Lemma same_components_sym r1 r2 :
  same_components r1 r2 -> same_components r2 r1.
Proof.
  destruct r1, r2; simpl; auto. intros (? & ? & ? & ? & ?). auto.
Qed.

Lemma same_components_trans r1 r2 r3 :
  same_components r1 r2 -> same_components r2 r3 -> same_components r1 r3.
Proof.
  destruct r1, r2, r3; simpl; auto; try contradiction.
  intros (? & ? & ? & ? & ?) (? & ? & ? & ? & ?).
  repeat split; congruence.
Qed.

Lemma parse_equiv_refl a : parse_equiv a a.
Proof. intros d. apply same_components_refl. Qed.

Lemma parse_equiv_sym a b : parse_equiv a b -> parse_equiv b a.
Proof. intros H d. apply same_components_sym, H. Qed.

Lemma parse_equiv_trans a b c :
  parse_equiv a b -> parse_equiv b c -> parse_equiv a c.
Proof. intros H1 H2 d. eapply same_components_trans; [apply H1|apply H2]. Qed.


Lemma urlunparse_fragment s n p pa q fr :
  urlunparse s n p pa q fr
  = urlunparse s n p pa q ""
    ++ (if String.eqb fr "" then "" else String hash fr).
Proof.
  unfold urlunparse, urlunsplit. simpl (negb ("" =? "")%string).
  cbv iota. destruct (String.eqb fr ""); simpl negb; cbv iota.
  - rewrite append_nil_r. reflexivity.
  - reflexivity.
Qed.

Lemma parse_equiv_unparse s n p pa q f1 f2 :
  parse_equiv (urlunparse s n p pa q f1) (urlunparse s n p pa q f2).
Proof.
  assert (forall fr, parse_equiv (urlunparse s n p pa q "")
                       (urlunparse s n p pa q fr)) as H.
  { intros fr. rewrite (urlunparse_fragment s n p pa q fr).
    destruct (String.eqb fr "").
    - rewrite append_nil_r. apply parse_equiv_refl.
    - apply urlparse_fragment. }
  eapply parse_equiv_trans; [apply parse_equiv_sym, H | apply H].
Qed.

Lemma eqb_app_hash_nil (u f : string) :
  String.eqb (u ++ String hash f) "" = false.
Proof. destruct u; reflexivity. Qed.

Lemma urljoin_fragment (base u f : string) :
  u <> "" ->
  join_equiv (urljoin base u) (urljoin base (u ++ String hash f)).
Proof.
  intros Hu. unfold urljoin.
  destruct (String.eqb base ""); [apply urlparse_fragment|].
  rewrite eqb_app_hash_nil.
  destruct (String.eqb u "") eqn:E; [apply String.eqb_eq in E; congruence|].
  destruct (urlparse base "") as [b|]; cbn [bind]; [|exact I].
  pose proof (urlparse_fragment u f (scheme b)) as H.
  destruct (urlparse u (scheme b)) as [r|],
    (urlparse (u ++ String hash f) (scheme b)) as [r'|];
    cbn [bind]; cbn [same_components] in H; try contradiction; [|exact I].
  destruct H as (Hs & Hn & Hp & Hpa & Hq). rewrite Hs, Hn, Hp, Hpa, Hq.
  destruct (negb (scheme r' =? scheme b)%string
            || negb (mem (scheme r') uses_relative));
    [apply urlparse_fragment|].
  destruct (mem (scheme r') uses_netloc && negb (netloc r' =? "")%string);
    [apply parse_equiv_unparse|].
  destruct ((path r' =? "")%string && (params r' =? "")%string);
    apply parse_equiv_unparse.
Qed.

End UrlFragments.

Section NormalizeFacts.
Import Urllib Utils.

Notation hash := "#"%char.

Lemma rebuild_same p1 p2 :
  same_components (Ok p1) (Ok p2) -> rebuild p1 = rebuild p2.
Proof.
  simpl. intros (Hs & Hn & Hp & _ & Hq). unfold rebuild.
  rewrite Hs, Hn, Hp, Hq. reflexivity.
Qed.

Lemma absolutize_fragment (u f base : string) :
  u <> "" ->
  join_equiv (absolutize u base) (absolutize (u ++ String hash f) base).
Proof.
  intros Hu. unfold absolutize.
  rewrite (startswith_app_stop "//" u hash f eq_refl).
  rewrite (startswith_app_stop "/" u hash f eq_refl).
  rewrite (startswith_app_stop "http" u hash f eq_refl).
  destruct (Py.startswith u "//").
  { simpl. rewrite <- append_assoc. apply urlparse_fragment. }
  destruct (Py.startswith u "/"); [apply urljoin_fragment, Hu|].
  destruct (negb (Py.startswith u "http")); [apply urljoin_fragment, Hu|].
  apply urlparse_fragment.
Qed.

Lemma eqb_nonempty (u : string) : u <> "" -> String.eqb u "" = false.
Proof. intros H. apply String.eqb_neq. exact H. Qed.

(** A fragment appended to a link does not change what the link
    normalizes to, as long as the fragment brings no denylist word. *)
Lemma normalize_url_fragment (u f base : string) :
  u <> "" ->
  Py.strip u = u ->
  Py.strip (u ++ String hash f) = u ++ String hash f ->
  Py.any_in Config.EXCLUDED_URL_PATTERNS (Py.lower (u ++ String hash f))
  = false ->
  normalize_url (u ++ String hash f) base = normalize_url u base.
Proof.
  intros Hu Hsu Hsf Hex. unfold normalize_url.
  rewrite Hsu, Hsf, Hex, eqb_app_hash_nil, (eqb_nonempty u Hu).
  rewrite lower_app in Hex. rewrite (any_in_app_l _ _ _ Hex).
  cbn [orb].
  pose proof (absolutize_fragment u f base Hu) as Ha.
  destruct (absolutize u base) as [a|],
    (absolutize (u ++ String hash f) base) as [b|];
    cbn [join_equiv] in Ha; try contradiction; cbn [bind]; [|reflexivity].
  specialize (Ha ""%string).
  destruct (urlparse a "") as [r|], (urlparse b "") as [r'|];
    try contradiction; cbn [bind]; [|reflexivity].
  rewrite (rebuild_same _ _ Ha). reflexivity.
Qed.

End NormalizeFacts.

Section AbsoluteUrls.
Import Urllib Utils.

Lemma all_chars_impl (f g : ascii -> bool) (s : string) :
  (forall c, f c = true -> g c = true) ->
  Py.all_chars f s = true -> Py.all_chars g s = true.
Proof.
  intros Hfg. induction s as [|c s IH]; simpl; [reflexivity|].
  intros H. apply andb_true_iff in H as [Hc Hs].
  rewrite (Hfg c Hc), (IH Hs). reflexivity.
Qed.

Lemma all_chars_app (f : ascii -> bool) (a b : string) :
  Py.all_chars f (a ++ b) = Py.all_chars f a && Py.all_chars f b.
Proof.
  induction a as [|c a IH]; [reflexivity|].
  rewrite append_cons. simpl. rewrite IH, andb_assoc. reflexivity.
Qed.

Lemma remove_chars_id (f : ascii -> bool) (s : string) :
  Py.all_chars (fun c => negb (f c)) s = true -> Py.remove_chars f s = s.
Proof.
  induction s as [|c s IH]; simpl; [reflexivity|].
  intros H. apply andb_true_iff in H as [Hc Hs].
  apply negb_true_iff in Hc. rewrite Hc, (IH Hs). reflexivity.
Qed.

Lemma contains_char_false (x : ascii) (s : string) :
  Py.all_chars (fun c => negb (Ascii.eqb c x)) s = true ->
  Py.contains (String x "") s = false.
Proof.
  induction s as [|c s IH]; simpl; [reflexivity|].
  intros H. apply andb_true_iff in H as [Hc Hs]. rewrite (IH Hs).
  apply negb_true_iff in Hc. rewrite Ascii.eqb_sym, Hc. reflexivity.
Qed.

Lemma span_until_host (f : ascii -> bool) (h rest : string) :
  Py.all_chars (fun c => negb (f c)) h = true ->
  match rest with EmptyString => true | String c _ => f c end = true ->
  span_until f (h ++ rest) = (h, rest).
Proof.
  intros Hh Hr. induction h as [|c h IH].
  - rewrite append_nil_l. destruct rest as [|d rest]; [reflexivity|].
    simpl. rewrite Hr. reflexivity.
  - simpl in Hh. apply andb_true_iff in Hh as [Hc Hh].
    rewrite append_cons. simpl. apply negb_true_iff in Hc. rewrite Hc.
    rewrite (IH Hh). reflexivity.
Qed.

Lemma after_host_clean (rest : string) :
  after_host rest = true ->
  after_host (Py.remove_chars unsafe_byte rest) = true.
Proof.
  destruct rest as [|c rest]; [reflexivity|]. simpl. intros Hc.
  destruct (unsafe_byte c) eqn:Hu; [|exact Hc].
  destruct c as [[] [] [] [] [] [] [] []]; discriminate.
Qed.

(** The split of an absolute http or https URL. *)
Lemma urlsplit_absolute (sch h rest d : string) :
  sch = "http" \/ sch = "https" ->
  Py.all_chars host_char h = true ->
  after_host rest = true ->
  urlsplit (sch ++ "://" ++ h ++ rest) d
  = let '(p, q, fr) := split_tail (Py.remove_chars unsafe_byte rest) in
    Ok {| scheme := sch; netloc := h; path := p; params := "";
          query := q; fragment := fr |}.
Proof.
  intros Hs Hh Hr.
  assert (Py.remove_chars unsafe_byte h = h) as Hclean.
  { apply remove_chars_id. revert Hh. apply all_chars_impl.
    intros c Hc. unfold host_char in Hc.
    repeat (apply andb_true_iff in Hc as [Hc ?]). assumption. }
  assert (span_until netloc_delim (h ++ Py.remove_chars unsafe_byte rest)
          = (h, Py.remove_chars unsafe_byte rest)) as Hspan.
  { apply span_until_host.
    - revert Hh. apply all_chars_impl. intros c Hc. unfold host_char in Hc.
      repeat (apply andb_true_iff in Hc as [Hc ?]). assumption.
    - apply after_host_clean in Hr. exact Hr. }
  assert (Py.contains "[" h || Py.contains "]" h = false) as Hbr.
  { apply orb_false_iff. split; apply contains_char_false;
      revert Hh; apply all_chars_impl; intros c Hc; unfold host_char in Hc;
      repeat (apply andb_true_iff in Hc as [Hc ?]); assumption. }
  assert (forall y, split_authority ("//" ++ y) = span_until netloc_delim y)
    as Hauth by (intros; reflexivity).
  unfold urlsplit.
  destruct Hs; subst sch.
  - assert (clean_url ("http" ++ "://" ++ h ++ rest)
            = "http://" ++ Py.remove_chars unsafe_byte (h ++ rest)) as ->
      by reflexivity.
    assert (forall y, split_scheme ("http://" ++ y) (clean_scheme d)
                      = ("http", "//" ++ y)) as -> by (intros; reflexivity).
    rewrite Hauth, remove_chars_app, Hclean, Hspan, Hbr. reflexivity.
  - assert (clean_url ("https" ++ "://" ++ h ++ rest)
            = "https://" ++ Py.remove_chars unsafe_byte (h ++ rest)) as ->
      by reflexivity.
    assert (forall y, split_scheme ("https://" ++ y) (clean_scheme d)
                      = ("https", "//" ++ y)) as -> by (intros; reflexivity).
    rewrite Hauth, remove_chars_app, Hclean, Hspan, Hbr. reflexivity.
Qed.


Lemma urlparse_absolute (sch h rest d : string) :
  sch = "http" \/ sch = "https" ->
  Py.all_chars host_char h = true ->
  after_host rest = true ->
  exists p pa q fr,
    urlparse (sch ++ "://" ++ h ++ rest) d
    = Ok {| scheme := sch; netloc := h; path := p; params := pa;
            query := q; fragment := fr |}
    /\ forall h', Py.all_chars host_char h' = true ->
         urlparse (sch ++ "://" ++ h' ++ rest) d
         = Ok {| scheme := sch; netloc := h'; path := p; params := pa;
                 query := q; fragment := fr |}.
Proof.
  intros Hs Hh Hr. unfold urlparse.
  destruct (split_tail (Py.remove_chars unsafe_byte rest)) as [[p q] fr]
    eqn:Ht.
  destruct (mem sch uses_params && Py.contains ";" p) eqn:Hc.
  - destruct (splitparams p) as [p' pa] eqn:Hsp.
    exists p', pa, q, fr. split; [|intros h' Hh'];
      rewrite urlsplit_absolute by assumption; rewrite Ht; cbn [bind];
      cbn [scheme path]; rewrite Hc, Hsp; reflexivity.
  - exists p, "", q, fr. split; [|intros h' Hh'];
      rewrite urlsplit_absolute by assumption; rewrite Ht; cbn [bind];
      cbn [scheme path]; rewrite Hc; reflexivity.
Qed.

Lemma absolutize_absolute (sch x base : string) :
  sch = "http" \/ sch = "https" ->
  absolutize (sch ++ "://" ++ x) base = Ok (sch ++ "://" ++ x).
Proof. intros [-> | ->]; reflexivity. Qed.

Lemma absolute_nonempty (sch x : string) :
  sch = "http" \/ sch = "https" ->
  String.eqb (sch ++ "://" ++ x) "" = false.
Proof. intros [-> | ->]; reflexivity. Qed.

(** An absolute link that is not on the denylist normalizes to what
    [rebuild] makes of its parse. *)
Lemma normalize_url_absolute (sch x base : string) :
  sch = "http" \/ sch = "https" ->
  Py.strip (sch ++ "://" ++ x) = sch ++ "://" ++ x ->
  Py.any_in Config.EXCLUDED_URL_PATTERNS (Py.lower (sch ++ "://" ++ x))
  = false ->
  normalize_url (sch ++ "://" ++ x) base
  = (let* parsed := urlparse (sch ++ "://" ++ x) "" in Ok (rebuild parsed)).
Proof.
  intros Hs Hst Hex. unfold normalize_url.
  rewrite Hst, Hex, (absolute_nonempty sch x Hs).
  rewrite (absolutize_absolute sch x base Hs). reflexivity.
Qed.

(** Two absolute links that differ in the letter case of the host
    normalize alike. *)
Lemma normalize_url_host_case (sch h1 h2 rest base : string) :
  sch = "http" \/ sch = "https" ->
  Py.all_chars host_char h1 = true ->
  Py.all_chars host_char h2 = true ->
  Py.lower h1 = Py.lower h2 ->
  after_host rest = true ->
  Py.strip (sch ++ "://" ++ h1 ++ rest) = sch ++ "://" ++ h1 ++ rest ->
  Py.strip (sch ++ "://" ++ h2 ++ rest) = sch ++ "://" ++ h2 ++ rest ->
  normalize_url (sch ++ "://" ++ h1 ++ rest) base
  = normalize_url (sch ++ "://" ++ h2 ++ rest) base.
Proof.
  intros Hs Hh1 Hh2 Hl Hr Hs1 Hs2.
  assert (Py.lower (sch ++ "://" ++ h1 ++ rest)
          = Py.lower (sch ++ "://" ++ h2 ++ rest)) as Hlow
    by (rewrite !lower_app, Hl; reflexivity).
  unfold normalize_url at 1 2.
  rewrite Hs1, Hs2, Hlow, !(absolute_nonempty sch _ Hs).
  cbn [orb].
  destruct (Py.any_in Config.EXCLUDED_URL_PATTERNS
              (Py.lower (sch ++ "://" ++ h2 ++ rest))); [reflexivity|].
  rewrite !(absolutize_absolute sch _ base Hs). cbn [bind].
  destruct (urlparse_absolute sch h1 rest "" Hs Hh1 Hr)
    as (p & pa & q & fr & H1 & H2).
  rewrite H1, (H2 h2 Hh2). cbn [bind]. unfold rebuild. cbn [scheme netloc path query].
  rewrite Hl. reflexivity.
Qed.

End AbsoluteUrls.

Section UrlParts.
Import Urllib Utils.

Notation hash := "#"%char.

Lemma startswith_char (s : string) (c : ascii) :
  Py.startswith s (String c "") = true -> exists s', s = String c s'.
Proof.
  destruct s as [|d s]; [discriminate|].
  change (Py.startswith (String d s) (String c ""))
    with (Ascii.eqb c d && true).
  rewrite andb_true_r. intros H. apply Ascii.eqb_eq in H. subst d.
  exists s. reflexivity.
Qed.

Lemma partition_app_exact (c : ascii) (a b : string) :
  Py.all_chars (fun x => negb (Ascii.eqb x c)) a = true ->
  Py.partition c (a ++ String c b) = (a, b).
Proof.
  induction a as [|d a IH]; intros H.
  - rewrite append_nil_l. simpl. rewrite Ascii.eqb_refl. reflexivity.
  - simpl in H. apply andb_true_iff in H as [Hd Ha].
    rewrite append_cons. simpl. apply negb_true_iff in Hd.
    rewrite Ascii.eqb_sym, Hd, (IH Ha). reflexivity.
Qed.

Lemma path_char_facts (p : string) :
  Py.all_chars path_char p = true ->
  Py.all_chars (fun x => negb (Ascii.eqb x "?")) p = true
  /\ Py.all_chars (fun x => negb (Ascii.eqb x hash)) p = true
  /\ Py.all_chars (fun x => negb (Ascii.eqb x ";")) p = true
  /\ Py.all_chars (fun x => negb (unsafe_byte x)) p = true.
Proof.
  intros H. repeat split; revert H; apply all_chars_impl; intros c Hc;
    unfold path_char in Hc; repeat (apply andb_true_iff in Hc as [Hc ?]);
    assumption.
Qed.

Lemma query_char_facts (q : string) :
  Py.all_chars query_char q = true ->
  Py.all_chars (fun x => negb (Ascii.eqb x hash)) q = true
  /\ Py.all_chars (fun x => negb (unsafe_byte x)) q = true.
Proof.
  intros H. repeat split; revert H; apply all_chars_impl; intros c Hc;
    unfold query_char in Hc; repeat (apply andb_true_iff in Hc as [Hc ?]);
    assumption.
Qed.

Lemma with_mark_cases (mark part : string) :
  (part = "" /\ with_mark mark part = "")
  \/ (part <> "" /\ with_mark mark part = mark ++ part).
Proof.
  unfold with_mark. destruct (String.eqb part "") eqn:E.
  - apply String.eqb_eq in E. auto.
  - apply String.eqb_neq in E. auto.
Qed.

Lemma split_tail_path_query (p q : string) :
  Py.all_chars path_char p = true ->
  Py.all_chars query_char q = true ->
  split_tail (p ++ with_mark "?" q) = (p, q, "").
Proof.
  intros Hp Hq.
  destruct (path_char_facts p Hp) as (Hp1 & Hp2 & _ & _).
  destruct (query_char_facts q Hq) as (Hq1 & _).
  unfold split_tail.
  destruct (with_mark_cases "?" q) as [[-> ->] | [Hne ->]].
  - rewrite append_nil_r.
    rewrite (contains_char_false hash p Hp2).
    rewrite (contains_char_false "?" p Hp1). reflexivity.
  - assert (Py.contains "#" (p ++ "?" ++ q) = false) as ->.
    { apply contains_char_false. rewrite all_chars_app, Hp2.
      change ("?" ++ q) with (String "?" q). simpl. exact Hq1. }
    change ("?" ++ q) with (String "?" q).
    rewrite (contains_app_r "?" p _ (contains_char_here "?" q)).
    rewrite (partition_app_exact "?" p q Hp1). reflexivity.
Qed.

Lemma split_tail_parts (p q x : string) :
  Py.all_chars path_char p = true ->
  Py.all_chars query_char q = true ->
  after_host x = true -> Py.startswith x "/" = false ->
  Py.startswith x "?" = false ->
  fst (split_tail (p ++ with_mark "?" q ++ x)) = (p, q).
Proof.
  intros Hp Hq Hx Hx1 Hx2.
  destruct x as [|c x].
  - rewrite append_nil_r, split_tail_path_query by assumption. reflexivity.
  - assert (c = hash) as ->.
    { clear -Hx Hx1 Hx2.
      destruct c as [[] [] [] [] [] [] [] []];
        vm_compute in Hx, Hx1, Hx2; first [reflexivity | discriminate]. }
    rewrite <- append_assoc, split_tail_fragment.
    rewrite split_tail_path_query by assumption. reflexivity.
Qed.

Lemma remove_chars_with_mark_hash (fr : string) :
  let x := Py.remove_chars unsafe_byte (with_mark "#" fr) in
  after_host x = true /\ Py.startswith x "/" = false
  /\ Py.startswith x "?" = false.
Proof.
  destruct (with_mark_cases "#" fr) as [[-> ->] | [Hne ->]]; simpl; auto.
Qed.

(** The parse of an absolute URL given by its parts. *)
Lemma urlparse_parts (sch h p q fr : string) :
  sch = "http" \/ sch = "https" ->
  Py.all_chars host_char h = true ->
  (p = "" \/ Py.startswith p "/" = true) ->
  Py.all_chars path_char p = true ->
  Py.all_chars query_char q = true ->
  exists fr',
    urlparse (absolute_url sch h p q fr) ""
    = Ok {| scheme := sch; netloc := h; path := p; params := "";
            query := q; fragment := fr' |}.
Proof.
  intros Hs Hh Hps Hp Hq. unfold absolute_url, urlparse.
  destruct (path_char_facts p Hp) as (_ & _ & Hp3 & Hp4).
  destruct (query_char_facts q Hq) as (_ & Hq2).
  rewrite urlsplit_absolute; [|assumption..|].
  - rewrite !remove_chars_app, (remove_chars_id _ p Hp4).
    assert (Py.remove_chars unsafe_byte (with_mark "?" q) = with_mark "?" q)
      as ->.
    { destruct (with_mark_cases "?" q) as [[-> ->] | [Hne ->]];
        [reflexivity|].
      change ("?" ++ q) with (String "?" q). simpl.
      rewrite (remove_chars_id _ q Hq2). reflexivity. }
    destruct (remove_chars_with_mark_hash fr) as (Hx & Hx1 & Hx2).
    pose proof (split_tail_parts p q _ Hp Hq Hx Hx1 Hx2) as Ht.
    destruct (split_tail _) as [[p' q'] fr']. simpl in Ht.
    injection Ht as -> ->. cbn [bind scheme path].
    rewrite (contains_char_false ";" p Hp3), andb_false_r.
    exists fr'. reflexivity.
  - destruct Hps as [-> | Hps].
    + rewrite append_nil_l.
      destruct (with_mark_cases "?" q) as [[-> ->] | [Hne ->]].
      * rewrite append_nil_l.
        destruct (with_mark_cases "#" fr) as [[-> ->] | [Hne ->]];
          reflexivity.
      * reflexivity.
    + apply startswith_char in Hps as [p' ->]. reflexivity.
Qed.

End UrlParts.

Section RebuildShape.
Import Urllib Utils.

Lemma app_nonempty_r (a b : string) : b <> "" -> a ++ b <> "".
Proof. destruct a; [rewrite append_nil_l; auto | discriminate]. Qed.

Lemma endswith_cons (c : ascii) (s p : string) :
  Py.endswith (String c s) p = String.eqb (String c s) p || Py.endswith s p.
Proof. reflexivity. Qed.

Lemma endswith_refl (b : string) : Py.endswith b b = true.
Proof.
  destruct b; [reflexivity|]. rewrite endswith_cons, String.eqb_refl.
  reflexivity.
Qed.

Lemma endswith_app_r (a b : string) : Py.endswith (a ++ b) b = true.
Proof.
  induction a as [|c a IH]; [apply endswith_refl|].
  rewrite append_cons, endswith_cons, IH. apply orb_true_r.
Qed.

Lemma startswith_app_self (a b : string) : Py.startswith (a ++ b) a = true.
Proof.
  induction a as [|c a IH]; [reflexivity|].
  rewrite append_cons. simpl. rewrite Ascii.eqb_refl, IH. reflexivity.
Qed.

Lemma eqb_cons_single (d c : ascii) (x : string) :
  x <> "" -> String.eqb (String d x) (String c "") = false.
Proof.
  intros Hx. apply String.eqb_neq. intros [= _ E]. congruence.
Qed.

Lemma endswith_char_app (a b : string) (c : ascii) :
  b <> "" ->
  Py.endswith (a ++ b) (String c "") = Py.endswith b (String c "").
Proof.
  intros Hb. induction a as [|d a IH]; [reflexivity|].
  rewrite append_cons, endswith_cons, IH.
  rewrite (eqb_cons_single d c (a ++ b) (app_nonempty_r a b Hb)).
  reflexivity.
Qed.

Lemma drop_last_app (a b : string) :
  b <> "" -> Py.drop_last (a ++ b) = a ++ Py.drop_last b.
Proof.
  intros Hb. induction a as [|d a IH]; [reflexivity|].
  rewrite !append_cons. simpl.
  pose proof (app_nonempty_r a b Hb) as Hab.
  destruct (a ++ b) eqn:E; [congruence|]. rewrite <- IH. reflexivity.
Qed.

Lemma endswith_char_false (c : ascii) (s : string) :
  Py.all_chars (fun x => negb (Ascii.eqb x c)) s = true ->
  Py.endswith s (String c "") = false.
Proof.
  induction s as [|d s IH]; [reflexivity|]. simpl Py.all_chars.
  intros H. apply andb_true_iff in H as [Hd Hs].
  rewrite endswith_cons, (IH Hs), orb_false_r.
  apply String.eqb_neq. intros [= -> _].
  rewrite Ascii.eqb_refl in Hd. discriminate.
Qed.

Lemma host_char_lower_not_slash (c : ascii) :
  host_char c = true -> negb (Ascii.eqb (Py.lower_char c) "/") = true.
Proof.
  destruct c as [[] [] [] [] [] [] [] []]; vm_compute; intros H;
    first [reflexivity | discriminate].
Qed.

Lemma lower_host_no_slash (h : string) :
  Py.all_chars host_char h = true ->
  Py.endswith (Py.lower h) "/" = false.
Proof.
  intros Hh. apply endswith_char_false.
  induction h as [|c h IH]; [reflexivity|]. simpl in *.
  apply andb_true_iff in Hh as [Hc Hh].
  rewrite (host_char_lower_not_slash c Hc), (IH Hh). reflexivity.
Qed.

Lemma lower_nonempty (h : string) : h <> "" -> Py.lower h <> "".
Proof. destruct h; [congruence|discriminate]. Qed.

Lemma mem_http (sch : string) :
  sch = "http" \/ sch = "https" -> mem sch ["http"; "https"] = true.
Proof. intros [-> | ->]; reflexivity. Qed.

(** What [rebuild] returns for a parse without query: one final slash
    of the path is dropped, unless the path is the root. *)
Lemma rebuild_no_query (sch h p fr : string) :
  sch = "http" \/ sch = "https" ->
  Py.all_chars host_char h = true -> h <> "" ->
  rebuild {| scheme := sch; netloc := h; path := p; params := "";
             query := ""; fragment := fr |}
  = Some (sch ++ "://" ++ Py.lower h
          ++ (if String.eqb p "/" then "/"
              else if Py.endswith p "/" then Py.drop_last p else p)).
Proof.
  intros Hs Hh Hne. unfold rebuild. cbn [scheme netloc path query].
  rewrite (mem_http sch Hs). cbn [negb]. simpl (negb ("" =? "")%string).
  cbv iota.
  destruct (String.eqb p "/") eqn:Hroot.
  - apply String.eqb_eq in Hroot. subst p. rewrite andb_false_r. reflexivity.
  - rewrite andb_true_r.
    destruct p as [|c p].
    + change (Py.endswith "" "/") with false. cbv iota.
      rewrite !append_nil_r.
      rewrite !endswith_char_app
        by (try apply app_nonempty_r; apply lower_nonempty, Hne).
      rewrite (lower_host_no_slash h Hh). reflexivity.
    + rewrite !endswith_char_app
        by (repeat apply app_nonempty_r; discriminate).
      destruct (Py.endswith (String c p) "/"); [|reflexivity].
      rewrite !drop_last_app
        by (repeat apply app_nonempty_r; discriminate).
      reflexivity.
Qed.

(** What [rebuild] returns for a parse with a query that does not end
    with a slash: the host in lower case in front, the query at the
    end. *)
Lemma rebuild_query (sch h p q fr : string) :
  sch = "http" \/ sch = "https" ->
  q <> "" -> Py.endswith q "/" = false ->
  exists out,
    rebuild {| scheme := sch; netloc := h; path := p; params := "";
               query := q; fragment := fr |} = Some out
    /\ Py.startswith out (sch ++ "://" ++ Py.lower h) = true
    /\ Py.endswith out ("?" ++ q) = true.
Proof.
  intros Hs Hq Hend. unfold rebuild. cbn [scheme netloc path query].
  rewrite (mem_http sch Hs). cbn [negb].
  rewrite (eqb_nonempty q Hq). cbn [negb].
  assert (Py.endswith ((sch ++ "://" ++ Py.lower h ++ p) ++ "?" ++ q) "/"
          = false) as ->.
  { rewrite !endswith_char_app
      by (try apply app_nonempty_r; try discriminate; exact Hq).
    exact Hend. }
  cbn [andb]. eexists. split; [reflexivity|]. split.
  - match goal with
    | |- Py.startswith ?o ?a = true =>
        replace o with (a ++ (p ++ "?" ++ q))
          by (rewrite !append_assoc; reflexivity)
    end.
    apply startswith_app_self.
  - apply endswith_app_r.
Qed.

End RebuildShape.

Section NormalizeClaims.
Import Urllib Utils.




End NormalizeClaims.

Section PdfClaims.
Import Utils Crawler PdfSamples.

Lemma extract_links_skips_pdf (self : PageCrawler) (hrefs : list string)
  (page_url : string) (acc : gset string) :
  fold_left
    (fun links href =>
       if String.eqb href "" then links
       else
         match normalize_url href page_url with
         | Ok (Some normalized) =>
             if negb (String.eqb normalized "")
                && is_same_domain normalized (domain self)
             then links ∪ {[normalized]}
             else links
         | _ => links
         end)
    (List.filter (fun h => negb (Py.contains ".pdf" (Py.lower h))) hrefs)
    acc
  = fold_left
      (fun links href =>
         if String.eqb href "" then links
         else
           match normalize_url href page_url with
           | Ok (Some normalized) =>
               if negb (String.eqb normalized "")
                  && is_same_domain normalized (domain self)
               then links ∪ {[normalized]}
               else links
           | _ => links
           end)
      hrefs acc.
Proof.
  revert acc. induction hrefs as [|h hrefs IH]; intros acc; [reflexivity|].
  cbn [List.filter fold_left].
  destruct (Py.contains ".pdf" (Py.lower h)) eqn:Hpdf; cbn [negb].
  - rewrite (normalize_url_pdf h page_url Hpdf).
    destruct (String.eqb h ""); apply IH.
  - cbn [fold_left]. apply IH.
Qed.

(** Claim C10, as amended: a raw link with [.pdf] in it, in any letter
    case, normalizes to [None], so the links extracted from a rendered
    page are those of its other anchors; a seed URL is queued as it is,
    so a seed for which [_is_pdf_or_map] holds is on the frontier from
    the start. *)
Theorem pdf_links_are_dropped
  (raw base : string) (self : PageCrawler) (hrefs : list string)
  (page_url : string) (set_order : gset string -> list string)
  (seeds : gset string) (u : string) :
  (Py.contains ".pdf" (Py.lower raw) = true ->
   normalize_url raw base = Ok None)
  /\ _extract_links_js self hrefs page_url
     = _extract_links_js self
         (List.filter (fun h => negb (Py.contains ".pdf" (Py.lower h))) hrefs)
         page_url
  /\ ((forall s, set_order s ≡ₚ elements s) ->
      u ∈ seeds -> u <> base_url self -> u <> base_url self ++ "/" ->
      _is_pdf_or_map u = true ->
      u ∈ urls_to_visit (crawler (start set_order self seeds))
      /\ u ∈ enqueued (trace (start set_order self seeds))).
Proof.
  split; [apply normalize_url_pdf|]. split.
  - unfold _extract_links_js. symmetry. apply extract_links_skips_pdf.
  - intros Hperm Hin Hb Hb' Hpdf.
    assert (u ∈ seed_queue set_order self seeds) as Hq.
    { unfold seed_queue. apply elem_of_cons. right. apply elem_of_app. left.
      apply list_elem_of_In, filter_In. split.
      - apply filter_In. split.
        + apply list_elem_of_In. rewrite Hperm. apply elem_of_elements, Hin.
        + apply andb_true_iff. split; apply negb_true_iff, String.eqb_neq;
            assumption.
      - rewrite Hpdf. apply orb_true_r. }
    unfold start. cbn [crawler trace urls_to_visit with_queue].
    rewrite enqueued_map_Enqueued. auto.
Qed.

Lemma pdf_links_are_dropped_witness :
  normalize_url "/docs/Service-Map.PDF" "https://carrier.example" = Ok None
  /\ "https://carrier.example/docs/service-map.pdf"
     ∈ urls_to_visit
         (crawler
            (start elements CrawlSamples.sample_crawler
               {["https://carrier.example/docs/service-map.pdf"]})).
Proof.
  pose proof (pdf_links_are_dropped "/docs/Service-Map.PDF"
                "https://carrier.example" CrawlSamples.sample_crawler []
                "https://carrier.example" elements
                {["https://carrier.example/docs/service-map.pdf"]}
                "https://carrier.example/docs/service-map.pdf")
    as (Hnone & _ & Hseed).
  split.
  - apply Hnone. reflexivity.
  - apply Hseed.
    + intros s. reflexivity.
    + apply elem_of_singleton. reflexivity.
    + discriminate.
    + discriminate.
    + reflexivity.
Defined.

(** Claim C10 as stated fails: on a site whose host name has [.pdf] in
    it, a relative link without [.pdf] normalizes to a URL for which
    [_is_pdf_or_map] holds, and the crawl, started without seeds, puts it
    at the front of the frontier. *)
Lemma relative_link_reaches_pdf_branch :
  Py.contains ".pdf" (Py.lower "/service-map") = false
  /\ normalize_url "/service-map" "https://www.pdfcarrier.example/"
     = Ok (Some "https://www.pdfcarrier.example/service-map")
  /\ _is_pdf_or_map "https://www.pdfcarrier.example/service-map" = true
  /\ init "https://www.pdfcarrier.example" "PDF Carrier"
     = Ok pdf_host_crawler
  /\ urls_to_visit
       (crawler (rounds goto_pdf_host elements 1
                   (start elements pdf_host_crawler ∅)))
     = ["https://www.pdfcarrier.example/service-map";
        "https://www.pdfcarrier.example/about"].
Proof. vm_compute. repeat split; reflexivity. Qed.

End PdfClaims.

(* ===================================================================== *)
(** * Further properties of the run coordinator                          *)
(* ===================================================================== *)

Section RunnerFacts.
Import Runner.

Lemma batches_from_concat (fuel : nat) (carriers : list Carrier) :
  length carriers <= fuel ->
  List.concat (batches_from fuel carriers) = carriers.
Proof.
  revert carriers. induction fuel as [|fuel IH]; intros carriers Hlen.
  - destruct carriers; [reflexivity|simpl in Hlen; lia].
  - destruct carriers as [|c carriers]; [reflexivity|].
    cbn [batches_from List.concat]. rewrite IH.
    + apply firstn_skipn.
    + rewrite length_skipn. cbn [length] in *. unfold batch_size. lia.
Qed.

Lemma batches_from_sizes (fuel : nat) (carriers : list Carrier) (i : nat)
  (b : list Carrier) :
  length carriers <= fuel ->
  batches_from fuel carriers !! i = Some b ->
  0 < length b <= batch_size
  /\ (S i < length (batches_from fuel carriers) -> length b = batch_size).
Proof.
  revert carriers i b.
  induction fuel as [|fuel IH]; intros carriers i b Hlen Hb.
  - destruct carriers; simpl in Hb; rewrite lookup_nil in Hb; discriminate.
  - destruct carriers as [|c carriers];
      [simpl in Hb; rewrite lookup_nil in Hb; discriminate|].
    cbn [batches_from] in *.
    assert (length (skipn batch_size (c :: carriers)) <= fuel) as Hrest.
    { rewrite length_skipn. cbn [length] in *. unfold batch_size. lia. }
    destruct i as [|i].
    + change (Some (firstn batch_size (c :: carriers)) = Some b) in Hb.
      assert (firstn batch_size (c :: carriers) = b) as <- by congruence.
      clear Hb. split.
      * rewrite length_firstn. cbn [length]. unfold batch_size. lia.
      * intros Hmore. rewrite length_firstn.
        destruct (batches_from fuel (skipn batch_size (c :: carriers)))
          as [|b' bs] eqn:Hbs; [simpl in Hmore; lia|].
        destruct fuel as [|fuel']; [discriminate|].
        destruct (skipn batch_size (c :: carriers)) eqn:Hsk; [discriminate|].
        assert (length (skipn batch_size (c :: carriers)) > 0) as Hpos
          by (rewrite Hsk; simpl; lia).
        rewrite length_skipn in Hpos. cbn [length] in *.
        unfold batch_size in *. lia.
    + change (batches_from fuel (skipn batch_size (c :: carriers)) !! i
              = Some b) in Hb.
      destruct (IH _ _ _ Hrest Hb) as [Hsz Hfull].
      split; [exact Hsz|]. intros Hmore. apply Hfull.
      cbn [length] in Hmore. lia.
Qed.

Lemma batches_partition_facts (carriers : list Carrier) :
  List.concat (batches carriers) = carriers
  /\ forall i b,
       batches carriers !! i = Some b ->
       0 < length b <= batch_size
       /\ (S i < length (batches carriers) -> length b = batch_size).
Proof.
  split.
  - apply batches_from_concat. lia.
  - intros i b Hb. apply (batches_from_sizes (length carriers)); [lia|exact Hb].
Qed.

Lemma batches_nil_iff (carriers : list Carrier) :
  batches carriers = [] <-> carriers = [].
Proof.
  unfold batches. destruct carriers; simpl; split; congruence.
Qed.


Lemma batches_from_firstn (fuel n : nat) (carriers : list Carrier) :
  length carriers <= fuel ->
  List.concat (firstn n (batches_from fuel carriers))
  = firstn (n * batch_size) carriers.
Proof.
  revert n carriers.
  induction fuel as [|fuel IH]; intros n carriers Hlen.
  - destruct carriers; [|cbn [length] in Hlen; lia].
    cbn [batches_from]. rewrite firstn_nil, firstn_nil. reflexivity.
  - destruct carriers as [|c carriers].
    { cbn [batches_from]. rewrite firstn_nil, firstn_nil. reflexivity. }
    cbn [batches_from]. destruct n as [|n]; [reflexivity|].
    cbn [firstn List.concat]. rewrite IH.
    + replace (S n * batch_size) with (batch_size + n * batch_size) by lia.
      rewrite <- (firstn_skipn batch_size (c :: carriers)) at 3.
      rewrite firstn_app.
      rewrite (firstn_all2 (firstn batch_size (c :: carriers)))
        by (rewrite length_firstn; lia).
      f_equal. rewrite length_firstn.
      destruct (Nat.le_gt_cases batch_size (length (c :: carriers)))
        as [Hge | Hlt].
      * replace (batch_size + n * batch_size
                 - Nat.min batch_size (length (c :: carriers)))
          with (n * batch_size) by lia.
        reflexivity.
      * rewrite (skipn_all2 (c :: carriers)) by lia.
        rewrite !firstn_nil. reflexivity.
    + rewrite length_skipn. cbn [length] in *. unfold batch_size. lia.
Qed.

Lemma concat_completed (crawl : Carrier -> Outcome)
  (as_completed : list Outcome -> list Outcome) (todo : list (list Carrier)) :
  (forall l, as_completed l ≡ₚ l) ->
  List.concat (List.map (fun b => as_completed (List.map crawl b)) todo)
  ≡ₚ List.map crawl (List.concat todo).
Proof.
  intros Hperm. induction todo as [|b todo IH]; [reflexivity|].
  cbn [List.map List.concat]. rewrite map_app, Hperm, IH. reflexivity.
Qed.

(** The batches [todo] run on top of the outcomes [previous]. *)
Lemma run_batches_spec (crawl : Carrier -> Outcome)
  (as_completed : list Outcome -> list Outcome) (start_idx : nat)
  (todo : list (list Carrier)) (previous : list Outcome)
  (file : option Checkpoint) :
  (forall l, as_completed l ≡ₚ l) ->
  todo <> [] ->
  let r :=
    fold_left (run_batch crawl as_completed start_idx) todo (previous, file) in
  exists new,
    fst r = (previous ++ new)%list
    /\ new ≡ₚ List.map crawl (List.concat todo)
    /\ load_checkpoint (snd r)
       = (Z.of_nat (start_idx + length previous + length (List.concat todo)),
          fst r).
Proof.
  intros Hperm Hne r.
  exists (List.concat
            (List.map (fun b => as_completed (List.map crawl b)) todo)).
  assert (fst r
          = (previous
             ++ List.concat
                  (List.map (fun b => as_completed (List.map crawl b)) todo))%list)
    as Hres by apply run_batches_results.
  split; [exact Hres|]. split; [apply concat_completed, Hperm|].
  unfold r at 1. rewrite run_batches_checkpoint by exact Hne.
  fold r. rewrite resume_index. f_equal.
  rewrite Hres, length_app, concat_completed by exact Hperm.
  rewrite length_map. lia.
Qed.

Lemma firstn_batches_nonempty (n : nat) (carriers : list Carrier) :
  0 < n -> carriers <> [] -> firstn n (batches carriers) <> [].
Proof.
  intros Hn Hne. unfold batches.
  destruct carriers as [|c cs]; [congruence|].
  cbn [length batches_from]. destruct n; [lia|]. discriminate.
Qed.

Lemma skipn_nonempty {A} (i : nat) (l : list A) :
  i < length l -> skipn i l <> [].
Proof.
  intros Hi Hnil. apply (f_equal (@length _)) in Hnil.
  rewrite length_skipn in Hnil. cbn [length] in Hnil. lia.
Qed.

End RunnerFacts.

Section RunnerExtras.
Import Runner.

(** The batches of [run_full_crawl] cut the list of carriers into
    consecutive slices: put end to end they give the list back, none is
    empty, none has more than 20 carriers, and each one but the last has
    exactly 20. *)
Theorem batches_partition_carriers (carriers : list Carrier) :
  List.concat (batches carriers) = carriers
  /\ forall i b,
       batches carriers !! i = Some b ->
       0 < length b <= batch_size
       /\ (S i < length (batches carriers) -> length b = batch_size).
Proof.
  split.
  - apply batches_from_concat. lia.
  - intros i b Hb. apply (batches_from_sizes (length carriers)); [lia|exact Hb].
Qed.


(** A run of [run_full_crawl] that is not a resume, started at index
    [start_idx] and either complete or interrupted after [n] batches,
    leaves the outcomes of the carriers it has done, one each, and a
    checkpoint from which a resume starts at the carrier after the last
    one done, with that list of outcomes. *)
Theorem fresh_run_checkpoint_is_exact
  (crawl_single_carrier : Carrier -> Outcome)
  (as_completed : list Outcome -> list Outcome)
  (all_carriers : list Carrier) (start_idx : nat)
  (file : option Checkpoint) (n : nat) :
  (forall l, as_completed l ≡ₚ l) ->
  start_idx < length all_carriers ->
  0 < n ->
  (let r := run_full_crawl crawl_single_carrier as_completed all_carriers
              start_idx false file (Some n) in
   let done := firstn (n * batch_size) (skipn start_idx all_carriers) in
   snd (fst r) ≡ₚ List.map crawl_single_carrier done
   /\ load_checkpoint (snd r)
      = (Z.of_nat (start_idx + length done), snd (fst r)))
  /\ (let r := run_full_crawl crawl_single_carrier as_completed all_carriers
                 start_idx false file None in
      snd (fst r)
      ≡ₚ List.map crawl_single_carrier (skipn start_idx all_carriers)
      /\ load_checkpoint (snd r)
         = (Z.of_nat (length all_carriers), snd (fst r))).
Proof.
  intros Hperm Hstart Hn.
  pose proof (skipn_nonempty start_idx all_carriers Hstart) as Hne.
  unfold run_full_crawl. split.
  - destruct (run_batches_spec crawl_single_carrier as_completed start_idx
                (firstn n (batches (skipn start_idx all_carriers))) [] file
                Hperm (firstn_batches_nonempty n _ Hn Hne))
      as (new & Hres & Hnew & Hcp).
    unfold batches in Hres, Hnew, Hcp.
    rewrite batches_from_firstn in Hnew, Hcp by lia.
    unfold batches.
    destruct (fold_left _ _ _) as [results file'].
    cbn [fst snd app length] in *. subst results.
    split; [exact Hnew|]. rewrite Hcp. do 2 f_equal. lia.
  - assert (batches (skipn start_idx all_carriers) <> []) as Hb.
    { intros Hnil. apply batches_nil_iff in Hnil. congruence. }
    destruct (run_batches_spec crawl_single_carrier as_completed start_idx
                (batches (skipn start_idx all_carriers)) [] file Hperm Hb)
      as (new & Hres & Hnew & Hcp).
    rewrite (proj1 (batches_partition_facts _)) in Hnew, Hcp.
    destruct (fold_left _ _ _) as [results file'].
    cbn [fst snd app length] in *. subst results.
    split; [exact Hnew|]. rewrite Hcp. do 2 f_equal.
    rewrite length_skipn. lia.
Qed.

Lemma fresh_run_checkpoint_is_exact_witness :
  load_checkpoint
    (snd (run_full_crawl RunSamples.crawl_ok RunSamples.in_order
            RunSamples.sixty_carriers 20 false None (Some 1)))
  = (40%Z,
     snd (fst (run_full_crawl RunSamples.crawl_ok RunSamples.in_order
                 RunSamples.sixty_carriers 20 false None (Some 1)))).
Proof.
  destruct (fresh_run_checkpoint_is_exact RunSamples.crawl_ok
              RunSamples.in_order RunSamples.sixty_carriers 20 None 1)
    as [[_ H] _].
  - intros l. reflexivity.
  - vm_compute. lia.
  - lia.
  - exact H.
Defined.

(** A resumed run starts at the index read from the checkpoint, whatever
    start index it is given, and adds the outcomes of the carriers it
    does after the outcomes read from the checkpoint, which it keeps in
    their order; the checkpoint it leaves holds that whole list, and its
    index is the start index plus the length of the whole list. *)
Theorem resumed_run_keeps_previous_outcomes
  (crawl_single_carrier : Carrier -> Outcome)
  (as_completed : list Outcome -> list Outcome)
  (all_carriers : list Carrier) (start_idx : nat)
  (cp : Checkpoint) (n : nat) :
  (forall l, as_completed l ≡ₚ l) ->
  Z.to_nat (last_idx cp + 1) < length all_carriers ->
  0 < n ->
  let start := Z.to_nat (last_idx cp + 1) in
  let r := run_full_crawl crawl_single_carrier as_completed all_carriers
             start_idx true (Some cp) (Some n) in
  let done := firstn (n * batch_size) (skipn start all_carriers) in
  fst (fst r) = start
  /\ exists new,
       snd (fst r) = (results cp ++ new)%list
       /\ new ≡ₚ List.map crawl_single_carrier done
       /\ load_checkpoint (snd r)
          = (Z.of_nat (start + length (results cp) + length done),
             snd (fst r)).
Proof.
  intros Hperm Hstart Hn start r done.
  pose proof (skipn_nonempty start all_carriers Hstart) as Hne.
  unfold r, run_full_crawl, load_checkpoint.
  fold start.
  destruct (run_batches_spec crawl_single_carrier as_completed start
              (firstn n (batches (skipn start all_carriers))) (results cp)
              (Some cp) Hperm (firstn_batches_nonempty n _ Hn Hne))
    as (new & Hres & Hnew & Hcp).
  unfold batches in Hres, Hnew, Hcp.
  rewrite batches_from_firstn in Hnew, Hcp by lia.
  unfold batches.
  destruct (fold_left _ _ _) as [results' file'].
  cbn [fst snd] in *. split; [reflexivity|].
  exists new. split; [exact Hres|]. split; [exact Hnew|exact Hcp].
Qed.

Lemma resumed_run_keeps_previous_outcomes_witness :
  exists new,
    snd (fst RunSamples.second_run)
    = (snd (load_checkpoint (snd RunSamples.first_run)) ++ new)%list.
Proof.
  destruct (resumed_run_keeps_previous_outcomes RunSamples.crawl_ok
              RunSamples.in_order RunSamples.sixty_carriers 0
              (save_checkpoint
                 (List.map RunSamples.crawl_ok
                    (firstn 20 RunSamples.sixty_carriers)) 0) 1)
    as (_ & new & Hnew & _).
  - intros l. reflexivity.
  - vm_compute. lia.
  - lia.
  - exists new. exact Hnew.
Defined.

End RunnerExtras.
(* ===================================================================== *)
(** * Further properties of the classifier                               *)
(* ===================================================================== *)

Section ClassifierFacts.
Import Classifier.
Local Open Scope Z_scope.

(** The flag [has_primary_signal] after STEP 3. *)
Lemma primary_flag html soup url url_lower :
  snd (primary_signals html soup url url_lower)
  = (Re.any_search INDEX_URL_PATTERNS url_lower
     || (5 <=? fst (_count_real_addresses html soup))%nat
     || (3 <=? fst (_count_coordinates html soup))%nat
     || match _detect_google_maps_strict html soup with
        | Some s => 5 <=? points s
        | None => false
        end
     || match _detect_location_finder_form html soup with
        | Some _ => true
        | None => false
        end
     || _has_location_url url_lower).
Proof.
  unfold primary_signals.
  destruct (_count_real_addresses html soup) as [na oa].
  destruct (_count_coordinates html soup) as [nc oc].
  cbn [fst].
  destruct (Re.any_search INDEX_URL_PATTERNS url_lower);
    destruct (5 <=? na)%nat; destruct (2 <=? na)%nat;
    destruct (3 <=? nc)%nat; destruct (1 <=? nc)%nat;
    destruct (_detect_google_maps_strict html soup) as [sm|];
    try destruct (5 <=? points sm);
    destruct (_detect_location_finder_form html soup) as [sf|];
    destruct (_has_location_url url_lower); reflexivity.
Qed.


(** The loop of [classify_carrier] over the files. *)
Lemma scan_files_spec (files : list HtmlFile) (n : nat)
  (all : list PageClassification) (m : gmap string nat) :
  fold_left scan_file files (n, all, m)
  = ((n + length (accepted_pages files))%nat,
     (all ++ accepted_pages files)%list,
     fold_left (fun m c => count_signals (signals c) m)
       (accepted_pages files) m).
Proof.
  revert n all m. unfold accepted_pages.
  induction files as [|f files IH]; intros n all m.
  - cbn. rewrite app_nil_r, Nat.add_0_r. reflexivity.
  - cbn [fold_left List.map List.filter].
    unfold scan_file at 2. fold (classify_file f).
    destruct (is_location_page (classify_file f)).
    + rewrite IH. cbn [length fold_left]. rewrite <- app_assoc.
      cbn [app]. do 2 f_equal. lia.
    + apply IH.
Qed.

Lemma count_signals_lookup (sigs : list LocationSignal) (m : gmap string nat)
  (k : string) :
  count_signals sigs m !! k
  = (let c :=
       length
         (List.filter
            (fun s => (0 <? points s) && String.eqb (signal_type s) k) sigs) in
     if (c =? 0)%nat then m !! k
     else Some (default 0%nat (m !! k) + c)%nat).
Proof.
  unfold count_signals. revert m.
  induction sigs as [|s sigs IH]; intros m; [reflexivity|].
  cbn [fold_left List.filter]. rewrite IH. clear IH.
  destruct (0 <? points s); cbn [andb]; [|reflexivity].
  unfold increment. rewrite lookup_insert.
  destruct (String.eqb (signal_type s) k) eqn:Hk.
  - apply String.eqb_eq in Hk. subst k.
    rewrite decide_True by reflexivity. cbn [length default].
    set (c := length _). cbn zeta.
    destruct (c =? 0)%nat eqn:Hc.
    + apply Nat.eqb_eq in Hc. rewrite Hc. cbn. f_equal. lia.
    + cbn. f_equal. lia.
  - apply String.eqb_neq in Hk.
    rewrite decide_False by exact Hk. reflexivity.
Qed.

Lemma count_pages_lookup (pages : list PageClassification)
  (m : gmap string nat) (k : string) :
  fold_left (fun m c => count_signals (signals c) m) pages m !! k
  = (let c := length (positive_signals k pages) in
     if (c =? 0)%nat then m !! k
     else Some (default 0%nat (m !! k) + c)%nat).
Proof.
  unfold positive_signals. revert m.
  induction pages as [|p pages IH]; intros m; [reflexivity|].
  cbn [fold_left List.map List.concat]. rewrite IH. clear IH.
  rewrite count_signals_lookup.
  rewrite List.filter_app, length_app.
  set (a := length (List.filter _ (signals p))).
  set (b := length (List.filter _ (List.concat _))).
  cbn zeta.
  clearbody a b.
  destruct (Nat.eqb_spec b 0) as [-> | Hb];
    destruct (Nat.eqb_spec a 0) as [-> | Ha]; cbn [Nat.add Nat.eqb].
  - reflexivity.
  - rewrite Nat.add_0_r. destruct (Nat.eqb_spec a 0); [contradiction|reflexivity].
  - destruct (Nat.eqb_spec b 0); [contradiction|reflexivity].
  - destruct (Nat.eqb_spec (a + b) 0); [exfalso; lia|].
    cbn [default]. unfold id. f_equal. lia.
Qed.

(** The report of [classify_carrier], field by field. *)
Lemma classify_carrier_fields (name dir : string) (files : list HtmlFile) :
  let r := classify_carrier name dir files in
  total_pages r = length files
  /\ location_pages r = length (accepted_pages files)
  /\ top_pages r = firstn 20 (sort_by_score (accepted_pages files))
  /\ (forall k,
        modalities_found r !! k
        = (let c := length (positive_signals k (accepted_pages files)) in
           if (c =? 0)%nat then None else Some c)).
Proof.
  unfold classify_carrier. rewrite scan_files_spec. cbn.
  repeat split. intros k. rewrite count_pages_lookup.
  rewrite lookup_empty. reflexivity.
Qed.

Lemma accepted_pages_accepted (files : list HtmlFile) (p : PageClassification) :
  In p (accepted_pages files) ->
  is_location_page p = true /\ exists f, In f files /\ p = classify_file f.
Proof.
  unfold accepted_pages. intros Hin. apply filter_In in Hin as [Hin Hacc].
  split; [exact Hacc|]. apply in_map_iff in Hin as (f & <- & Hf). eauto.
Qed.

Lemma classify_file_accepted (f : HtmlFile) :
  is_location_page (classify_file f) = true ->
  LOCATION_PAGE_THRESHOLD <= total_score (classify_file f)
  /\ total_score (classify_file f) = sum_points (signals (classify_file f))
  /\ Forall nonneg (signals (classify_file f)).
Proof.
  unfold classify_file. intros Hacc.
  set (u := if String.eqb _ "" then _ else _) in *.
  pose proof (classify_html_nonneg (file_html f) (file_soup f) u (file_stem f))
    as Hnn.
  destruct (classify_html_cases (file_html f) (file_soup f) u (file_stem f))
    as [(_ & _ & Hl & _) | [(_ & _ & _ & Hl & _) | (_ & Hp & Hs & Ht & _)]];
    [congruence | congruence |].
  split; [|split; [exact Ht | exact Hnn]].
  rewrite Ht, Hs.
  pose proof (primary_signals_inv (file_html f) (file_soup f) u
                (Py.lower (str_or u (file_stem f)))) as Hinv.
  destruct (primary_signals (file_html f) (file_soup f) u
              (Py.lower (str_or u (file_stem f)))) as [sigs prim].
  specialize (Hinv _ _ eq_refl) as [_ Hsum]. cbn [fst snd] in *.
  destruct (secondary_signals_app (file_html f) (file_soup f) sigs)
    as (extra & -> & Hex).
  rewrite sum_points_app. pose proof (sum_points_nonneg _ Hex).
  specialize (Hsum Hp). unfold LOCATION_PAGE_THRESHOLD. lia.
Qed.

(** A list of signals with a positive sum has a signal with positive
    points. *)
Lemma positive_sum_has_signal (sigs : list LocationSignal) :
  0 < sum_points sigs -> exists s, In s sigs /\ 0 < points s.
Proof.
  induction sigs as [|s sigs IH].
  - rewrite sum_points_nil. lia.
  - rewrite sum_points_cons. intros Hsum.
    destruct (Z.ltb_spec 0 (points s)) as [Hpos | Hle].
    + exists s. split; [left; reflexivity|exact Hpos].
    + destruct IH as (s' & Hin & Hpos); [lia|].
      exists s'. split; [right; exact Hin|exact Hpos].
Qed.


(** ** The signal types written by the detectors *)

Lemma mem_In (s : string) (l : list string) :
  Urllib.mem s l = true -> In s l.
Proof.
  unfold Urllib.mem. rewrite existsb_exists.
  intros (x & Hin & Heq). apply String.eqb_eq in Heq. subst. exact Hin.
Qed.

Lemma In_mem (s : string) (l : list string) :
  In s l -> Urllib.mem s l = true.
Proof.
  intros Hin. unfold Urllib.mem. apply existsb_exists.
  exists s. split; [exact Hin|apply String.eqb_refl].
Qed.

Lemma count_real_addresses_type html soup s :
  snd (_count_real_addresses html soup) = Some s -> known_type s.
Proof.
  unfold _count_real_addresses. repeat case_match; cbn [snd];
    intros [= <-]; reflexivity.
Qed.

Lemma count_coordinates_type html soup s :
  snd (_count_coordinates html soup) = Some s -> known_type s.
Proof.
  unfold _count_coordinates. repeat case_match; cbn [snd];
    intros [= <-]; reflexivity.
Qed.

Lemma google_maps_type html soup s :
  _detect_google_maps_strict html soup = Some s -> known_type s.
Proof.
  unfold _detect_google_maps_strict.
  repeat case_match; intros [= <-]; reflexivity.
Qed.

Lemma finder_form_type html soup s :
  _detect_location_finder_form html soup = Some s -> known_type s.
Proof.
  unfold _detect_location_finder_form.
  induction (forms soup) as [|f fs IH]; cbn [finder_form_loop];
    [discriminate|].
  repeat case_match; try (intros [= <-]; reflexivity); exact IH.
Qed.

Lemma primary_signals_types html soup url url_lower :
  Forall known_type (fst (primary_signals html soup url url_lower)).
Proof.
  unfold primary_signals.
  pose proof (count_real_addresses_type html soup) as Ha.
  pose proof (count_coordinates_type html soup) as Hc.
  pose proof (google_maps_type html soup) as Hm.
  pose proof (finder_form_type html soup) as Hf.
  destruct (_count_real_addresses html soup) as [na oa].
  destruct (_count_coordinates html soup) as [nc oc].
  cbn [snd] in Ha, Hc.
  destruct (_detect_google_maps_strict html soup) as [sm|];
    [specialize (Hm _ eq_refl)|clear Hm].
  all: destruct (_detect_location_finder_form html soup) as [sf|];
    [specialize (Hf _ eq_refl)|clear Hf].
  all: destruct oa as [sa|]; [specialize (Ha _ eq_refl)|clear Ha].
  all: destruct oc as [sc|]; [specialize (Hc _ eq_refl)|clear Hc].
  all: unfold append_opt.
  all: repeat case_match; simplify_eq; cbn [fst].
  all: rewrite ?Forall_app; repeat split; repeat constructor; assumption.
Qed.

Lemma json_ld_type html soup s :
  _detect_json_ld_strict html soup = Some s -> known_type s.
Proof.
  unfold _detect_json_ld_strict. case_match; intros [= <-]. reflexivity.
Qed.

Lemma interactive_maps_types html soup :
  Forall known_type (_detect_interactive_maps html soup).
Proof.
  unfold _detect_interactive_maps, MAP_LIBRARIES.
  cbn [List.map List.concat].
  repeat case_match; repeat constructor.
Qed.

Lemma location_iframes_types html soup :
  Forall known_type (_detect_location_iframes html soup).
Proof.
  unfold _detect_location_iframes. case_match; repeat constructor.
Qed.

Lemma pdf_links_types html soup :
  Forall known_type (_detect_pdf_links html soup).
Proof.
  unfold _detect_pdf_links. repeat case_match; repeat constructor.
Qed.

Lemma secondary_signals_types html soup sigs :
  Forall known_type sigs ->
  Forall known_type (secondary_signals html soup sigs).
Proof.
  intros Hs. unfold secondary_signals, append_opt.
  pose proof (json_ld_type html soup) as Hj.
  rewrite !Forall_app.
  split; [split; [split|]|].
  - destruct (_detect_json_ld_strict html soup) as [sj|]; [|exact Hs].
    apply Forall_app. split; [exact Hs|].
    constructor; [apply Hj; reflexivity|constructor].
  - apply interactive_maps_types.
  - apply location_iframes_types.
  - apply pdf_links_types.
Qed.

Lemma classify_html_types html soup url filename :
  Forall known_type (signals (classify_html html soup url filename)).
Proof.
  unfold classify_html.
  pose proof (primary_signals_types html soup url
                (Py.lower (str_or url filename))) as Hp.
  repeat case_match; cbn [signals disqualified]; subst;
    try (repeat constructor; fail).
  - cbn [fst] in Hp. exact Hp.
  - cbn [fst] in Hp. apply secondary_signals_types, Hp.
Qed.


Lemma accepted_page_facts (files : list HtmlFile) (p : PageClassification) :
  In p (accepted_pages files) ->
  is_location_page p = true
  /\ LOCATION_PAGE_THRESHOLD <= total_score p
  /\ (exists s, In s (signals p) /\ 0 < points s)
  /\ Forall known_type (signals p)
  /\ exists f, In f files /\ p = classify_file f.
Proof.
  intros Hin. apply accepted_pages_accepted in Hin as (Hacc & f & Hf & ->).
  destruct (classify_file_accepted f Hacc) as (Hthr & Hsum & _).
  split; [exact Hacc|]. split; [exact Hthr|]. split; [|split].
  - apply positive_sum_has_signal. rewrite <- Hsum.
    unfold LOCATION_PAGE_THRESHOLD in Hthr. lia.
  - unfold classify_file. apply classify_html_types.
  - eauto.
Qed.

Lemma In_positive_signals (k : string) (pages : list PageClassification)
  (s : LocationSignal) :
  In s (positive_signals k pages)
  <-> (exists p, In p pages /\ In s (signals p))
      /\ 0 < points s /\ signal_type s = k.
Proof.
  unfold positive_signals. rewrite filter_In, in_concat.
  rewrite andb_true_iff, Z.ltb_lt, String.eqb_eq. split.
  - intros [(l & Hl & Hs) [Hp Hk]]. apply in_map_iff in Hl as (p & <- & Hp').
    eauto.
  - intros [(p & Hp & Hs) [Hpos Hk]]. split; [|auto].
    exists (signals p). split; [apply in_map; exact Hp|exact Hs].
Qed.

Lemma length_zero_iff_no_element {A} (l : list A) :
  length l = 0%nat <-> forall x, ~ In x l.
Proof.
  destruct l as [|a l]; cbn.
  - split; [intros _ x []|reflexivity].
  - split; [discriminate|]. intros H. exfalso. apply (H a). auto.
Qed.

Lemma modality_lookup_Some (name dir : string) (files : list HtmlFile)
  (k : string) (n : nat) :
  modalities_found (classify_carrier name dir files) !! k = Some n ->
  n = length (positive_signals k (accepted_pages files)) /\ (0 < n)%nat.
Proof.
  destruct (classify_carrier_fields name dir files) as (_ & _ & _ & Hm).
  rewrite Hm. cbn zeta.
  destruct (Nat.eqb_spec (length (positive_signals k (accepted_pages files))) 0);
    [discriminate|].
  intros [= <-]. split; [reflexivity|lia].
Qed.

Lemma modalities_empty_iff (name dir : string) (files : list HtmlFile) :
  modalities_found (classify_carrier name dir files) = ∅
  <-> accepted_pages files = [].
Proof.
  destruct (classify_carrier_fields name dir files) as (_ & _ & _ & Hm).
  split.
  - intros Hempty.
    apply length_zero_iff_nil, length_zero_iff_no_element. intros p Hin.
    destruct (accepted_page_facts files p Hin) as (_ & _ & (s & Hs & Hpos) & _).
    specialize (Hm (signal_type s)). rewrite Hempty, lookup_empty in Hm.
    cbn zeta in Hm.
    destruct (Nat.eqb_spec
                (length (positive_signals (signal_type s)
                           (accepted_pages files))) 0) as [Hz|];
      [|discriminate].
    apply (proj1 (length_zero_iff_no_element _) Hz s).
    apply In_positive_signals. split; [|auto]. exists p. auto.
  - intros Hnil. apply map_eq. intros k. rewrite Hm, Hnil, lookup_empty.
    reflexivity.
Qed.

Lemma modality_keys_known (name dir : string) (files : list HtmlFile)
  (k : string) :
  is_Some (modalities_found (classify_carrier name dir files) !! k) ->
  In k SIGNAL_TYPES.
Proof.
  intros [n Hn]. apply modality_lookup_Some in Hn as [-> Hpos].
  destruct (positive_signals k (accepted_pages files)) as [|s l] eqn:Hps;
    [cbn in Hpos; lia|].
  assert (In s (positive_signals k (accepted_pages files))) as Hin
    by (rewrite Hps; left; reflexivity).
  apply In_positive_signals in Hin as ((p & Hp & Hs) & _ & <-).
  destruct (accepted_page_facts files p Hp) as (_ & _ & _ & Hty & _).
  apply mem_In. rewrite List.Forall_forall in Hty. apply Hty, Hs.
Qed.


(** ** The recommendation *)

Lemma has_modality_absent (m : gmap string nat) (k : string) :
  m !! k = None -> has_modality m k = false.
Proof. unfold has_modality. intros ->. reflexivity. Qed.

Lemma recommended_approach_eq (name dir : string) (files : list HtmlFile) :
  recommended_approach (classify_carrier name dir files)
  = _generate_recommendation
      (modalities_found (classify_carrier name dir files)).
Proof.
  unfold classify_carrier.
  destruct (fold_left scan_file files (0%nat, [], ∅)) as [[n all] m].
  reflexivity.
Qed.

Lemma recommendation_without_dead_keys (m : gmap string nat) :
  m !! "GOOGLE_MAPS_LINKS" = None ->
  m !! "JSON_LD_LOCATION" = None ->
  Py.contains "Parse Google Maps URLs" (_generate_recommendation m) = false
  /\ Py.contains "Parse JSON-LD structured data" (_generate_recommendation m)
     = false.
Proof.
  intros Hl Hj. unfold _generate_recommendation.
  rewrite (has_modality_absent m "GOOGLE_MAPS_LINKS" Hl).
  rewrite (has_modality_absent m "JSON_LD_LOCATION" Hj).
  destruct (decide (m = ∅)); [split; reflexivity|].
  destruct (has_modality m "ADDRESS_LIST" || has_modality m "ADDRESS_PAIR");
    destruct (has_modality m "GOOGLE_MAPS_EMBED"
              || has_modality m "GOOGLE_MAPS_API");
    destruct (existsb (fun kv => Py.contains "MAP_" (fst kv))
                (map_to_list m));
    destruct (has_modality m "PDF_LOCATIONS");
    destruct (has_modality m "LOCATION_SEARCH");
    split; vm_compute; reflexivity.
Qed.

Lemma not_in_unadvised (m : gmap string nat) (k : string) :
  (forall k, is_Some (m !! k) -> In k UNADVISED_TYPES) ->
  Urllib.mem k UNADVISED_TYPES = false ->
  has_modality m k = false.
Proof.
  intros Hkeys Hk. apply has_modality_absent.
  destruct (m !! k) as [n|] eqn:Hm; [|reflexivity].
  assert (In k UNADVISED_TYPES) as Hin by (apply Hkeys; eauto).
  apply In_mem in Hin. congruence.
Qed.

End ClassifierFacts.

Section ClassifierExtras.
Import Classifier.
Local Open Scope Z_scope.

(** A page is accepted exactly when no Stage 1 disqualifier fires and
    one primary signal is present: an index URL, five addresses, three
    coordinates, a Google Maps signal of 5 points, a finder or radius
    form, or a location word in the URL. The threshold of 3 points never
    rejects such a page: its score, the plain sum of its points, is at
    least 3. *)
Theorem page_accepted_iff_primary_signal html soup url filename :
  let c := classify_html html soup url filename in
  let url_lower := Py.lower (str_or url filename) in
  is_location_page c
  = negb (stage1_disqualified html soup url filename)
    && (Re.any_search INDEX_URL_PATTERNS url_lower
        || (5 <=? fst (_count_real_addresses html soup))%nat
        || (3 <=? fst (_count_coordinates html soup))%nat
        || match _detect_google_maps_strict html soup with
           | Some s => 5 <=? points s
           | None => false
           end
        || match _detect_location_finder_form html soup with
           | Some _ => true
           | None => false
           end
        || _has_location_url url_lower)
  /\ (is_location_page c = true ->
      LOCATION_PAGE_THRESHOLD <= total_score c
      /\ total_score c = sum_points (signals c)).
Proof.
  intros c url_lower. subst c url_lower.
  rewrite <- (primary_flag html soup url).
  destruct (classify_html_cases html soup url filename)
    as [(Hd & Ht & Hl & _) | [(Hd & Hp & Ht & Hl & _)
                              | (Hd & Hp & Hs & Ht & Hl)]];
    rewrite Hd, Hl; cbn [negb andb].
  - split; [reflexivity|discriminate].
  - rewrite Hp. split; [reflexivity|discriminate].
  - rewrite Hp. split; [reflexivity|]. intros _. split; [|exact Ht].
    rewrite Ht, Hs.
    pose proof (primary_signals_inv html soup url
                  (Py.lower (str_or url filename))) as Hinv.
    destruct (primary_signals html soup url (Py.lower (str_or url filename)))
      as [sigs prim].
    specialize (Hinv _ _ eq_refl) as [_ Hsum]. cbn [fst snd] in *.
    destruct (secondary_signals_app html soup sigs) as (extra & -> & Hex).
    rewrite sum_points_app. pose proof (sum_points_nonneg _ Hex).
    specialize (Hsum Hp). unfold LOCATION_PAGE_THRESHOLD. lia.
Qed.


(** The report of [classify_carrier] counts what it says: [total_pages]
    is the number of files, [location_pages] the number of accepted
    pages, [top_pages] the 20 first of them by score; every top page is
    an accepted page of the directory with a score of at least 3, the
    first one has the highest score of all accepted pages, and the
    report has no top page, and no modality, exactly when no page is
    accepted. *)
Theorem carrier_report_is_consistent (name dir : string)
  (files : list HtmlFile) :
  let r := classify_carrier name dir files in
  total_pages r = length files
  /\ location_pages r = length (accepted_pages files)
  /\ (location_pages r <= total_pages r)%nat
  /\ length (top_pages r) = Nat.min 20 (location_pages r)
  /\ (forall p, In p (top_pages r) ->
        is_location_page p = true
        /\ LOCATION_PAGE_THRESHOLD <= total_score p
        /\ exists f, In f files /\ p = classify_file f)
  /\ (forall q p, head (top_pages r) = Some q ->
        In p (accepted_pages files) -> total_score p <= total_score q)
  /\ (location_pages r = 0%nat <-> top_pages r = [])
  /\ (location_pages r = 0%nat <-> modalities_found r = ∅).
Proof.
  intros r.
  destruct (classify_carrier_fields name dir files) as (Ht & Hl & Htop & Hm).
  fold r in Ht, Hl, Htop, Hm.
  assert (length (sort_by_score (accepted_pages files))
          = length (accepted_pages files)) as Hlen
    by (rewrite sort_by_score_perm; reflexivity).
  split; [exact Ht|]. split; [exact Hl|]. split.
  { rewrite Hl, Ht. unfold accepted_pages.
    etransitivity; [apply List.filter_length_le|]. rewrite length_map. lia. }
  split.
  { rewrite Htop, length_firstn, Hlen, Hl. reflexivity. }
  split.
  { intros p Hp. rewrite Htop in Hp.
    assert (In p (accepted_pages files)) as Hin.
    { apply list_elem_of_In. rewrite <- (sort_by_score_perm _).
      apply list_elem_of_In in Hp. eapply subseteq_take, Hp. }
    destruct (accepted_page_facts files p Hin) as (H1 & H2 & _ & _ & H3).
    auto. }
  split.
  { intros q p Hq Hp. rewrite Htop in Hq.
    pose proof (sort_by_score_sorted (accepted_pages files)) as Hsorted.
    assert (In p (sort_by_score (accepted_pages files))) as Hin.
    { apply list_elem_of_In. rewrite sort_by_score_perm.
      apply list_elem_of_In, Hp. }
    destruct (sort_by_score (accepted_pages files)) as [|q' rest];
      [destruct Hin|].
    change (Some q' = Some q) in Hq. injection Hq as ->.
    unfold score_descending in Hsorted.
    apply StronglySorted_inv in Hsorted as [_ Hall].
    destruct Hin as [-> | Hin]; [lia|].
    rewrite List.Forall_forall in Hall. apply Hall, Hin. }
  split.
  { rewrite Htop, Hl. split.
    - intros Hz. apply length_zero_iff_nil in Hz.
      assert (sort_by_score (accepted_pages files) = []) as ->
        by (apply length_zero_iff_nil; rewrite Hlen, Hz; reflexivity).
      reflexivity.
    - intros Hnil. apply (f_equal (@length _)) in Hnil.
      rewrite length_firstn, Hlen in Hnil. cbn [length] in Hnil. lia. }
  rewrite Hl. unfold r. rewrite modalities_empty_iff.
  apply length_zero_iff_nil.
Qed.

(** The count that [classify_carrier] stores for a signal type is the
    number of signals of that type with positive points on the accepted
    pages; a type without such a signal has no entry, and every entry is
    one of the types that [classify_html] writes. *)
Theorem modality_counts_are_signal_counts (name dir : string)
  (files : list HtmlFile) (k : string) :
  let r := classify_carrier name dir files in
  modalities_found r !! k
  = (let c := length (positive_signals k (accepted_pages files)) in
     if (c =? 0)%nat then None else Some c)
  /\ (is_Some (modalities_found r !! k) -> In k SIGNAL_TYPES).
Proof.
  intros r. split.
  - apply classify_carrier_fields.
  - apply modality_keys_known.
Qed.


(** [_generate_recommendation] tests the keys [GOOGLE_MAPS_LINKS] and
    [JSON_LD_LOCATION], which no detector writes (the signals are named
    [GOOGLE_MAPS_LINK] and [JSON_LD_LOCATIONS]): a report of
    [classify_carrier] has neither key, and its recommendation never
    holds the advice of those two branches. *)
Theorem report_never_advises_links_or_json_ld (name dir : string)
  (files : list HtmlFile) :
  let r := classify_carrier name dir files in
  modalities_found r !! "GOOGLE_MAPS_LINKS" = None
  /\ modalities_found r !! "JSON_LD_LOCATION" = None
  /\ Py.contains "Parse Google Maps URLs" (recommended_approach r) = false
  /\ Py.contains "Parse JSON-LD structured data" (recommended_approach r)
     = false.
Proof.
  intros r.
  assert (forall k, Urllib.mem k SIGNAL_TYPES = false ->
                    modalities_found r !! k = None) as Habsent.
  { intros k Hk. destruct (modalities_found r !! k) as [n|] eqn:Hm;
      [|reflexivity].
    assert (In k SIGNAL_TYPES) as Hin
      by (apply (modality_keys_known name dir files); fold r; eauto).
    apply In_mem in Hin. congruence. }
  pose proof (Habsent "GOOGLE_MAPS_LINKS" eq_refl) as Hl.
  pose proof (Habsent "JSON_LD_LOCATION" eq_refl) as Hj.
  split; [exact Hl|]. split; [exact Hj|].
  unfold r. rewrite recommended_approach_eq.
  apply recommendation_without_dead_keys; assumption.
Qed.

(** When the modalities found are all among those for which
    [_generate_recommendation] has no branch (an index URL, coordinates,
    a links-only Google Maps signal, a finder form, the URL context,
    JSON-LD, an iframe, a service-map PDF), the recommendation is
    "Manual review needed". *)
Theorem unadvised_modalities_need_manual_review (m : gmap string nat) :
  m <> ∅ ->
  (forall k, is_Some (m !! k) -> In k UNADVISED_TYPES) ->
  _generate_recommendation m = "Manual review needed".
Proof.
  intros Hne Hkeys. unfold _generate_recommendation.
  rewrite decide_False by exact Hne.
  rewrite !(not_in_unadvised m _ Hkeys) by reflexivity.
  assert (existsb (fun kv : string * nat => Py.contains "MAP_" (fst kv))
            (map_to_list m) = false) as ->.
  { apply not_true_is_false. intros Hex.
    apply existsb_exists in Hex as ([k v] & Hin & Hc).
    apply list_elem_of_In, elem_of_map_to_list in Hin.
    assert (In k UNADVISED_TYPES) as Hk by (apply Hkeys; eauto).
    cbn [fst] in Hc. unfold UNADVISED_TYPES in Hk. cbn [In] in Hk.
    repeat (destruct Hk as [<- | Hk]; [vm_compute in Hc; discriminate|]).
    exact Hk. }
  reflexivity.
Qed.

Lemma unadvised_modalities_need_manual_review_witness :
  _generate_recommendation {[ "LOCATION_FINDER" := 3%nat ]}
  = "Manual review needed".
Proof.
  apply unadvised_modalities_need_manual_review.
  - intros Hempty.
    assert (({[ "LOCATION_FINDER" := 3%nat ]} : gmap string nat)
              !! "LOCATION_FINDER" = None) as Hbad
      by (rewrite Hempty; apply lookup_empty).
    rewrite lookup_singleton_eq in Hbad. discriminate.
  - intros k [n Hk]. apply lookup_singleton_Some in Hk as [<- _].
    cbn. auto.
Defined.

End ClassifierExtras.
(* ===================================================================== *)
(** * Further properties of the crawler                                  *)
(* ===================================================================== *)

Section CrawlerFacts.
Import Crawler.

(** ** The links of a page *)

Lemma extract_links_fold (self : PageCrawler) (hrefs : list string)
  (page_url : string) (acc : gset string) (u : string) :
  u ∈ fold_left
        (fun links href =>
           if String.eqb href "" then links
           else
             match Utils.normalize_url href page_url with
             | Ok (Some normalized) =>
                 if negb (String.eqb normalized "")
                    && Utils.is_same_domain normalized (domain self)
                 then links ∪ {[normalized]}
                 else links
             | _ => links
             end)
        hrefs acc
  <-> u ∈ acc
      \/ exists href,
           In href hrefs /\ href <> ""
           /\ Utils.normalize_url href page_url = Ok (Some u)
           /\ u <> "" /\ Utils.is_same_domain u (domain self) = true.
Proof.
  revert acc. induction hrefs as [|h hrefs IH]; intros acc.
  - cbn. split; [auto|]. intros [H | (href & [] & _)]. exact H.
  - cbn [fold_left]. rewrite IH. clear IH. split.
    + intros [Hacc | (href & Hin & Hrest)].
      * destruct (String.eqb_spec h "") as [|Hh]; [auto|].
        destruct (Utils.normalize_url h page_url) as [[v|]|] eqn:Hn; [|auto|auto].
        destruct (String.eqb_spec v "") as [|Hv]; cbn [negb andb] in Hacc; [auto|].
        destruct (Utils.is_same_domain v (domain self)) eqn:Hd; [|auto].
        apply elem_of_union in Hacc as [Hacc | Hacc]; [auto|].
        apply elem_of_singleton in Hacc. subst u.
        right. exists h. split; [left; reflexivity|]. auto.
      * right. exists href. split; [right; exact Hin|exact Hrest].
    + intros [Hacc | (href & [<- | Hin] & Hne & Hn & Hu & Hd)].
      * left. destruct (String.eqb h ""); [exact Hacc|].
        destruct (Utils.normalize_url h page_url) as [[v|]|]; try exact Hacc.
        destruct (negb (String.eqb v "")
                  && Utils.is_same_domain v (domain self)); [|exact Hacc].
        apply elem_of_union. auto.
      * left. destruct (String.eqb_spec h "") as [|Hh]; [contradiction|].
        rewrite Hn, Hd. destruct (String.eqb_spec u "") as [|Hv]; [contradiction|].
        cbn [negb andb]. apply elem_of_union. right.
        apply elem_of_singleton. reflexivity.
      * right. exists href. auto.
Qed.

Lemma elem_of_extract_links_js (self : PageCrawler) (hrefs : list string)
  (page_url u : string) :
  u ∈ _extract_links_js self hrefs page_url
  <-> exists href,
        In href hrefs /\ href <> ""
        /\ Utils.normalize_url href page_url = Ok (Some u)
        /\ u <> "" /\ Utils.is_same_domain u (domain self) = true.
Proof.
  unfold _extract_links_js. rewrite extract_links_fold.
  split; [intros [H | H]; [set_solver|exact H]|auto].
Qed.

Lemma extract_links_loop_spec (self : PageCrawler) (hrefs : list string)
  (page_url : string) (acc : gset string) :
  extract_links_loop self hrefs page_url acc
  ⊆ fold_left
      (fun links href =>
         if String.eqb href "" then links
         else
           match Utils.normalize_url href page_url with
           | Ok (Some normalized) =>
               if negb (String.eqb normalized "")
                  && Utils.is_same_domain normalized (domain self)
               then links ∪ {[normalized]}
               else links
           | _ => links
           end)
      hrefs acc
  /\ ((forall href, In href hrefs ->
         Utils.normalize_url href page_url <> ValueError) ->
      extract_links_loop self hrefs page_url acc
      = fold_left
          (fun links href =>
             if String.eqb href "" then links
             else
               match Utils.normalize_url href page_url with
               | Ok (Some normalized) =>
                   if negb (String.eqb normalized "")
                      && Utils.is_same_domain normalized (domain self)
                   then links ∪ {[normalized]}
                   else links
               | _ => links
               end)
          hrefs acc).
Proof.
  revert acc. induction hrefs as [|h hrefs IH]; intros acc.
  - cbn. split; [set_solver|reflexivity].
  - cbn [extract_links_loop fold_left].
    destruct (String.eqb h "").
    { destruct (IH acc) as [Hsub Heq]. split; [exact Hsub|].
      intros Hok. apply Heq. intros href Hin. apply Hok. right. exact Hin. }
    destruct (Utils.normalize_url h page_url) as [[v|]|] eqn:Hn.
    + destruct (negb (String.eqb v "")
                && Utils.is_same_domain v (domain self)).
      * destruct (IH (acc ∪ {[v]})) as [Hsub Heq]. split; [exact Hsub|].
        intros Hok. apply Heq. intros href Hin. apply Hok. right. exact Hin.
      * destruct (IH acc) as [Hsub Heq]. split; [exact Hsub|].
        intros Hok. apply Heq. intros href Hin. apply Hok. right. exact Hin.
    + destruct (IH acc) as [Hsub Heq]. split; [exact Hsub|].
      intros Hok. apply Heq. intros href Hin. apply Hok. right. exact Hin.
    + split.
      * intros u Hu. apply extract_links_fold. left. exact Hu.
      * intros Hok. exfalso. apply (Hok h); [left; reflexivity|exact Hn].
Qed.

End CrawlerFacts.

Section CrawlerExtras.
Import Crawler.


End CrawlerExtras.
Section LoopFacts.
Import Crawler.

Variable goto : nat -> string -> Navigation.
Variable set_order : gset string -> list string.
Hypothesis set_order_perm : forall s, set_order s ≡ₚ elements s.

(** What the loop over the links of a page does: it queues some of the
    links, and changes nothing else. *)
Lemma enqueue_links_step (links : list string) (self : PageCrawler)
  (log : list Event) :
  exists more,
    snd (fold_left enqueue_link links (self, log))
    = (log ++ List.map Enqueued more)%list
    /\ urls_to_visit (fst (fold_left enqueue_link links (self, log)))
       ≡ₚ (urls_to_visit self ++ more)%list
    /\ (forall u, u ∈ more -> u ∈ links)
    /\ base_url (fst (fold_left enqueue_link links (self, log)))
       = base_url self
    /\ domain (fst (fold_left enqueue_link links (self, log))) = domain self
    /\ visited_urls (fst (fold_left enqueue_link links (self, log)))
       = visited_urls self
    /\ failed_urls (fst (fold_left enqueue_link links (self, log)))
       = failed_urls self
    /\ pages_data (fst (fold_left enqueue_link links (self, log)))
       = pages_data self.
Proof.
  revert self log.
  induction links as [|h links IH]; intros self log; cbn [fold_left].
  - exists []. cbn. rewrite !app_nil_r. repeat split; try reflexivity.
    intros u Hu. inversion Hu.
  - destruct (enqueue_link_shape self log h)
      as [-> | (_ & _ & q & Hq & ->)].
    + destruct (IH self log) as (more & Hlog & Hqueue & Hsub & Hrest).
      exists more. split; [exact Hlog|]. split; [exact Hqueue|].
      split; [|exact Hrest].
      intros u Hu. apply elem_of_cons. right. apply Hsub, Hu.
    + destruct (IH (with_queue self q) (log ++ [Enqueued h])%list)
        as (more & Hlog & Hqueue & Hsub & Hb & Hd & Hv & Hf & Hp).
      exists (h :: more). split.
      { rewrite Hlog, <- app_assoc. reflexivity. }
      split.
      { rewrite Hqueue. cbn [with_queue urls_to_visit]. rewrite Hq.
        cbn [app]. apply Permutation_middle. }
      split.
      { intros u Hu. apply elem_of_cons in Hu as [-> | Hu];
          apply elem_of_cons; [left; reflexivity|right; apply Hsub, Hu]. }
      rewrite Hb, Hd, Hv, Hf, Hp. repeat split.
Qed.

(** One round of the [while] loop, from a state in which its guard
    holds. *)
Lemma loop_body_step (st : LoopState) :
  crawl_inv goto st -> running st = true ->
  exists url rest,
    urls_to_visit (crawler st) = url :: rest
    /\ url ∉ visited_urls (crawler st)
    /\ base_url (crawler (loop_body goto set_order st)) = base_url (crawler st)
    /\ domain (crawler (loop_body goto set_order st)) = domain (crawler st)
    /\ visited_urls (crawler (loop_body goto set_order st))
       = visited_urls (crawler st) ∪ {[url]}
    /\ ((load_failed (goto (S (page_num st)) url) = true
         /\ failed_urls (crawler (loop_body goto set_order st))
            = failed_urls (crawler st) ∪ {[url]}
         /\ pages_data (crawler (loop_body goto set_order st))
            = pages_data (crawler st)
         /\ urls_to_visit (crawler (loop_body goto set_order st)) = rest
         /\ trace (loop_body goto set_order st)
            = (trace st ++ [Fetched url])%list)
        \/ (exists resp more d,
              goto (S (page_num st)) url = Loaded resp
              /\ load_failed (goto (S (page_num st)) url) = false
              /\ failed_urls (crawler (loop_body goto set_order st))
                 = failed_urls (crawler st)
              /\ pages_data (crawler (loop_body goto set_order st))
                 = (pages_data (crawler st) ++ [d])%list
              /\ pd_url d = url /\ pd_has_location_data d = false
              /\ urls_to_visit (crawler (loop_body goto set_order st))
                 ≡ₚ (rest ++ more)%list
              /\ (forall u, u ∈ more ->
                    u ∈ _extract_links_js (crawler st) (hrefs resp)
                          (final_url resp))
              /\ trace (loop_body goto set_order st)
                 = (trace st ++ Fetched url :: List.map Enqueued more)%list)).
Proof.
  intros Hinv Hrun.
  destruct Hinv as [Hqn Hqf Hfv _ _ _ _ _ _ _ _ _].
  unfold running in Hrun. unfold loop_body.
  destruct st as [self pn log]; cbn [crawler page_num trace] in *.
  destruct (urls_to_visit self) as [|url rest] eqn:Hq; [discriminate|].
  exists url, rest. split; [reflexivity|].
  assert (url ∉ visited_urls self) as Hnv.
  { apply Hqf. apply elem_of_cons. auto. }
  assert (url ∉ failed_urls self) as Hnf by set_solver.
  split; [exact Hnv|].
  rewrite bool_decide_eq_false_2 by (cbn; exact Hnv).
  rewrite bool_decide_eq_false_2 by (cbn; exact Hnf).
  cbn [orb]. unfold _crawl_page, load_failed.
  destruct (goto (S pn) url) as [| |resp].
  - cbn. repeat split. left. repeat split.
  - cbn. repeat split. left. repeat split.
  - destruct (400 <=? status resp) eqn:Hst.
    + cbn -[Nat.leb]. repeat split. left. repeat split.
    + cbn [with_queue base_url carrier_name domain urls_to_visit visited_urls
             failed_urls pages_data].
      match goal with
      | |- context [fold_left enqueue_link ?ls (?s, ?l)] =>
          destruct (enqueue_links_step ls s l)
            as (more & Hlog & Hqueue & Hsub & Hb & Hd & Hv & Hf & Hp);
          destruct (fold_left enqueue_link ls (s, l)) as [self3 log3]
      end.
      cbn [fst snd crawler trace base_url carrier_name domain urls_to_visit
             visited_urls failed_urls pages_data pd_extracted_links] in *.
      split; [exact Hb|]. split; [exact Hd|]. split; [exact Hv|].
      right. eexists resp, more, _.
      split; [reflexivity|]. split; [reflexivity|]. split; [exact Hf|].
      split; [exact Hp|]. split; [reflexivity|]. split; [reflexivity|].
      split; [exact Hqueue|]. split.
      * intros u Hu. apply Hsub in Hu. rewrite set_order_perm in Hu.
        apply elem_of_elements in Hu. exact Hu.
      * rewrite Hlog, <- app_assoc. reflexivity.
Qed.

(** A property that holds on entry of the loop and that each round
    keeps holds after any number of rounds made while the guard holds. *)
Lemma rounds_invariant (P : LoopState -> Prop) (k : nat) (st : LoopState) :
  crawl_inv goto st ->
  P st ->
  (forall s, crawl_inv goto s -> running s = true -> P s ->
             P (loop_body goto set_order s)) ->
  (forall j, j < k -> running (rounds goto set_order j st) = true) ->
  P (rounds goto set_order k st).
Proof.
  intros Hinv HP Hstep. revert st Hinv HP.
  induction k as [|k IH]; intros st Hinv HP Hrun; [exact HP|].
  cbn [rounds].
  assert (running st = true) as Hr by (apply (Hrun 0); lia).
  apply IH.
  - apply (loop_body_inv goto set_order set_order_perm st Hinv Hr).
  - apply Hstep; assumption.
  - intros j Hj. apply (Hrun (S j)). lia.
Qed.

(** The crawl as a whole: the state in which the loop ends, with the
    invariant of the loop and any property that the rounds keep. *)
Lemma crawl_final (P : LoopState -> Prop) (self : PageCrawler)
  (seeds : gset string) (fuel : nat) :
  visited_urls self = ∅ -> failed_urls self = ∅ ->
  Config.MAX_PAGES_PER_SITE <= fuel ->
  P (start set_order self seeds) ->
  (forall s, crawl_inv goto s -> running s = true -> P s ->
             P (loop_body goto set_order s)) ->
  exists st,
    crawl goto set_order fuel self seeds = Some st
    /\ running st = false /\ crawl_inv goto st /\ P st.
Proof.
  intros Hv Hf Hfuel HP Hstep.
  pose proof (start_inv goto set_order set_order_perm self seeds Hv Hf) as Hinv.
  destruct (crawl_loop_rounds goto set_order set_order_perm fuel
              (start set_order self seeds) Hinv)
    as (k & _ & Hloop & Hbefore & Hafter & Hend); [lia|].
  exists (rounds goto set_order k (start set_order self seeds)).
  split; [exact Hloop|]. split; [exact Hafter|]. split; [exact Hend|].
  apply rounds_invariant; assumption.
Qed.

End LoopFacts.
Section CrawlFacts.
Import Crawler.

Variable goto : nat -> string -> Navigation.
Variable set_order : gset string -> list string.
Hypothesis set_order_perm : forall s, set_order s ≡ₚ elements s.

Lemma seed_queue_elements (self : PageCrawler) (seeds : gset string)
  (u : string) :
  u ∈ seed_queue set_order self seeds -> u = base_url self \/ u ∈ seeds.
Proof.
  unfold seed_queue. intros Hu.
  apply elem_of_cons in Hu as [-> | Hu]; [auto|]. right.
  apply elem_of_app in Hu as [Hu | Hu].
  - apply list_elem_of_In, filter_In in Hu as [Hu _].
    apply filter_In in Hu as [Hu _]. apply list_elem_of_In in Hu.
    rewrite set_order_perm in Hu. apply elem_of_elements, Hu.
  - apply subseteq_take, list_elem_of_In, filter_In in Hu as [Hu _].
    apply filter_In in Hu as [Hu _]. apply list_elem_of_In in Hu.
    rewrite set_order_perm in Hu. apply elem_of_elements, Hu.
Qed.

Lemma from_site_start (self : PageCrawler) (seeds : gset string) :
  visited_urls self = ∅ ->
  from_site self seeds (start set_order self seeds).
Proof.
  intros Hv. unfold from_site, start.
  cbn [crawler with_queue base_url domain visited_urls urls_to_visit].
  split; [reflexivity|]. split; [reflexivity|].
  intros u [Hu | Hu]; [rewrite Hv in Hu; set_solver|].
  destruct (seed_queue_elements self seeds u Hu); auto.
Qed.

Lemma from_site_step (self : PageCrawler) (seeds : gset string)
  (s : LoopState) :
  crawl_inv goto s -> running s = true ->
  from_site self seeds s ->
  from_site self seeds (loop_body goto set_order s).
Proof.
  intros Hinv Hrun (Hb & Hd & Hsite).
  destruct (loop_body_step goto set_order set_order_perm s Hinv Hrun)
    as (url & rest & Hq & _ & Hb' & Hd' & Hv' & Hcase).
  split; [congruence|]. split; [congruence|].
  assert (forall u, u ∈ rest ->
            u = base_url self \/ u ∈ seeds
            \/ Utils.is_same_domain u (domain self) = true) as Hrest.
  { intros u Hu. apply Hsite. right. rewrite Hq. apply elem_of_cons. auto. }
  intros u [Hu | Hu].
  - rewrite Hv' in Hu. apply elem_of_union in Hu as [Hu | Hu]; [auto|].
    apply elem_of_singleton in Hu. subst u.
    apply Hsite. right. rewrite Hq. apply elem_of_cons. auto.
  - destruct Hcase as [(_ & _ & _ & Hq' & _)
                      | (resp & more & d & _ & _ & _ & _ & _ & _ & Hq' & Hmore & _)].
    + rewrite Hq' in Hu. auto.
    + rewrite Hq' in Hu. apply elem_of_app in Hu as [Hu | Hu]; [auto|].
      apply Hmore, elem_of_extract_links_js in Hu
        as (href & _ & _ & _ & _ & Hsame).
      rewrite Hd in Hsame. auto.
Qed.

Lemma homepage_first_step (self : PageCrawler) (s : LoopState) :
  crawl_inv goto s -> running s = true ->
  homepage_first self s ->
  homepage_first self (loop_body goto set_order s).
Proof.
  intros Hinv Hrun Hfirst.
  destruct (loop_body_step goto set_order set_order_perm s Hinv Hrun)
    as (url & rest & Hq & _ & _ & _ & _ & Hcase).
  assert (exists tail, fetched (trace (loop_body goto set_order s))
                       = (fetched (trace s) ++ url :: tail)%list) as [tail Ht].
  { destruct Hcase as [(_ & _ & _ & _ & ->)
                      | (resp & more & d & _ & _ & _ & _ & _ & _ & _ & _ & ->)].
    - exists []. apply fetched_snoc_Fetched.
    - exists []. rewrite fetched_app.
      change (Fetched url :: List.map Enqueued more)
        with ([Fetched url] ++ List.map Enqueued more)%list.
      rewrite fetched_app, fetched_map_Enqueued. reflexivity. }
  right. rewrite Ht.
  destruct Hfirst as [[Hnil Hhead] | Hhead].
  - rewrite Hnil, Hq in *. cbn in *. exact Hhead.
  - destruct (fetched (trace s)); [discriminate|exact Hhead].
Qed.

Lemma counted_step (s : LoopState) :
  crawl_inv goto s -> running s = true ->
  counted s -> counted (loop_body goto set_order s).
Proof.
  intros Hinv Hrun (Hmax & Hsum & Hall).
  destruct (loop_body_inv goto set_order set_order_perm s Hinv Hrun)
    as [_ Hsize].
  destruct (loop_body_step goto set_order set_order_perm s Hinv Hrun)
    as (url & rest & Hq & Hfresh & _ & _ & Hv' & Hcase).
  apply running_true in Hrun as [_ Hlt].
  assert (url ∉ failed_urls (crawler s)) as Hnf.
  { intros Hin. apply Hfresh. apply (inv_failed_visited goto s Hinv), Hin. }
  split; [lia|].
  destruct Hcase as [(_ & Hf' & Hp' & _)
                    | (resp & more & d & _ & _ & Hf' & Hp' & Hurl & Hloc & _)].
  - rewrite Hf', Hp', Hsize. split.
    + rewrite size_union by set_solver. rewrite size_singleton. lia.
    + eapply Forall_impl; [exact Hall|].
      intros x (Hx1 & Hx2 & Hx3). cbn beta. rewrite Hv'.
      split; [exact Hx1|]. split; [set_solver|].
      intros Hin. apply elem_of_union in Hin as [Hin | Hin]; [auto|].
      apply elem_of_singleton in Hin. apply Hfresh. rewrite <- Hin. exact Hx2.
  - rewrite Hf', Hp', Hsize, length_app. cbn [length]. split; [lia|].
    apply Forall_app. split.
    + eapply Forall_impl; [exact Hall|].
      intros x (Hx1 & Hx2 & Hx3). cbn beta. rewrite Hv'.
      split; [exact Hx1|]. split; [set_solver|exact Hx3].
    + constructor; [|constructor]. rewrite Hv', Hurl.
      split; [exact Hloc|]. split; [set_solver|exact Hnf].
Qed.

End CrawlFacts.
Section CrawlExtras.
Import Crawler.

(** A crawl never leaves the carrier's site: every URL it visits or
    still has queued when it ends is the homepage, a seed, or a link that
    has passed [is_same_domain] for the carrier's domain. *)
Theorem crawl_stays_on_site
  (goto : nat -> string -> Navigation) (set_order : gset string -> list string)
  (base name : string) (self : PageCrawler) (seeds : gset string)
  (fuel : nat) :
  (forall s, set_order s ≡ₚ elements s) ->
  init base name = Ok self ->
  Config.MAX_PAGES_PER_SITE <= fuel ->
  exists st,
    crawl goto set_order fuel self seeds = Some st
    /\ forall u,
         u ∈ visited_urls (crawler st) \/ u ∈ urls_to_visit (crawler st) ->
         u = base_url self \/ u ∈ seeds
         \/ Utils.is_same_domain u (domain self) = true.
Proof.
  intros Hperm Hinit Hfuel.
  destruct (init_fresh base name self Hinit) as (Hv & Hf & _).
  destruct (crawl_final goto set_order Hperm (from_site self seeds)
              self seeds fuel Hv Hf Hfuel)
    as (st & Hst & _ & _ & _ & _ & Hsite).
  - apply from_site_start; assumption.
  - intros s. apply from_site_step. exact Hperm.
  - exists st. split; [exact Hst|exact Hsite].
Qed.

Lemma crawl_stays_on_site_witness :
  exists st,
    crawl CrawlSamples.goto_small_site elements 200
      CrawlSamples.sample_crawler CrawlSamples.sample_seeds = Some st
    /\ forall u,
         u ∈ visited_urls (crawler st) ->
         u = "https://carrier.example" \/ u ∈ CrawlSamples.sample_seeds
         \/ Utils.is_same_domain u "carrier.example" = true.
Proof.
  destruct (crawl_stays_on_site CrawlSamples.goto_small_site elements
              "https://carrier.example" "Carrier" CrawlSamples.sample_crawler
              CrawlSamples.sample_seeds 200)
    as (st & Hst & Hsite).
  - intros s. reflexivity.
  - reflexivity.
  - unfold Config.MAX_PAGES_PER_SITE. lia.
  - exists st. split; [exact Hst|]. intros u Hu. apply Hsite. left. exact Hu.
Defined.

(** The homepage is the first page a crawl fetches, whatever the seeds
    and whatever the pages answer. *)
Theorem homepage_is_fetched_first
  (goto : nat -> string -> Navigation) (set_order : gset string -> list string)
  (base name : string) (self : PageCrawler) (seeds : gset string)
  (fuel : nat) :
  (forall s, set_order s ≡ₚ elements s) ->
  init base name = Ok self ->
  Config.MAX_PAGES_PER_SITE <= fuel ->
  exists st,
    crawl goto set_order fuel self seeds = Some st
    /\ head (fetched (trace st)) = Some (base_url self)
    /\ base_url self ∈ visited_urls (crawler st).
Proof.
  intros Hperm Hinit Hfuel.
  destruct (init_fresh base name self Hinit) as (Hv & Hf & _).
  destruct (crawl_final goto set_order Hperm (homepage_first self)
              self seeds fuel Hv Hf Hfuel)
    as (st & Hst & Hstop & Hinv & Hfirst).
  - left. unfold start. cbn [crawler trace with_queue urls_to_visit].
    rewrite fetched_map_Enqueued. split; reflexivity.
  - intros s. apply homepage_first_step. exact Hperm.
  - exists st. split; [exact Hst|].
    assert (head (fetched (trace st)) = Some (base_url self)) as Hhead.
    { destruct Hfirst as [[Hnil Hhead] | Hhead]; [|exact Hhead].
      exfalso. apply running_false in Hstop as [Hq | Hfull].
      - rewrite Hq in Hhead. discriminate.
      - rewrite (inv_size goto st Hinv), Hnil in Hfull.
        unfold Config.MAX_PAGES_PER_SITE in Hfull. cbn in Hfull. lia. }
    split; [exact Hhead|].
    apply (inv_fetched_visited goto st Hinv).
    destruct (fetched (trace st)) as [|u l]; [discriminate|].
    injection Hhead as ->. apply elem_of_cons. auto.
Qed.

Lemma homepage_is_fetched_first_witness :
  exists st,
    crawl CrawlSamples.goto_small_site elements 200
      CrawlSamples.sample_crawler CrawlSamples.sample_seeds = Some st
    /\ head (fetched (trace st)) = Some "https://carrier.example".
Proof.
  destruct (homepage_is_fetched_first CrawlSamples.goto_small_site elements
              "https://carrier.example" "Carrier" CrawlSamples.sample_crawler
              CrawlSamples.sample_seeds 200)
    as (st & Hst & Hhead & _).
  - intros s. reflexivity.
  - reflexivity.
  - unfold Config.MAX_PAGES_PER_SITE. lia.
  - exists st. split; [exact Hst|exact Hhead].
Defined.

(** The summary of a crawl: at most 200 pages are counted as crawled,
    each of them either failed or has an entry in [pages_data], so
    [pages_failed] is at most [pages_crawled]; and since
    [_detect_location_signals] finds nothing, no page is ever listed as
    having location signals. *)
Theorem crawl_summary_counts
  (goto : nat -> string -> Navigation) (set_order : gset string -> list string)
  (base name : string) (self : PageCrawler) (seeds : gset string)
  (fuel : nat) :
  (forall s, set_order s ≡ₚ elements s) ->
  init base name = Ok self ->
  Config.MAX_PAGES_PER_SITE <= fuel ->
  exists st,
    crawl goto set_order fuel self seeds = Some st
    /\ let summary := _generate_summary (crawler st) in
       1 <= pages_crawled summary <= Config.MAX_PAGES_PER_SITE
       /\ pages_crawled summary
          = pages_failed summary + length (pages_data (crawler st))
       /\ pages_failed summary <= pages_crawled summary
       /\ pages_with_location_signals summary = 0
       /\ signal_summary summary = ∅
       /\ pages_with_signals summary = [].
Proof.
  intros Hperm Hinit Hfuel.
  destruct (init_fresh base name self Hinit) as (Hv & Hf & _).
  assert (pages_data self = []) as Hp.
  { unfold init in Hinit. destruct (Utils.extract_domain base);
      cbn [bind] in Hinit; [|discriminate].
    injection Hinit as <-. reflexivity. }
  destruct (crawl_final goto set_order Hperm
              (fun st => counted st /\ homepage_first self st)
              self seeds fuel Hv Hf Hfuel)
    as (st & Hst & Hstop & Hinv & (Hmax & Hsum & Hall) & Hfirst).
  - split.
    + unfold counted, start.
      cbn [crawler with_queue visited_urls failed_urls pages_data].
      rewrite Hv, Hf, Hp, size_empty. cbn [length].
      split; [lia|]. split; [reflexivity|constructor].
    + left. unfold start. cbn [crawler trace with_queue urls_to_visit].
      rewrite fetched_map_Enqueued. split; reflexivity.
  - intros s Hi Hr [Hc Hh]. split.
    + apply counted_step; assumption.
    + apply homepage_first_step; assumption.
  - exists st. split; [exact Hst|].
    assert (List.filter pd_has_location_data (pages_data (crawler st)) = [])
      as Hnone.
    { clear -Hall. induction Hall as [|d l (Hd & _) _ IH]; [reflexivity|].
      cbn [List.filter]. rewrite Hd. exact IH. }
    unfold _generate_summary.
    cbn [pages_crawled pages_failed pages_with_location_signals
           signal_summary pages_with_signals].
    rewrite Hnone. cbn [length fold_left List.map].
    split; [|split; [lia|split; [lia|auto]]].
    split; [|exact Hmax].
    rewrite (inv_size goto st Hinv).
    destruct Hfirst as [[Hnil Hhead] | Hhead].
    + exfalso. apply running_false in Hstop as [Hq | Hfull].
      * rewrite Hq in Hhead. discriminate.
      * rewrite (inv_size goto st Hinv), Hnil in Hfull.
        unfold Config.MAX_PAGES_PER_SITE in Hfull. cbn in Hfull. lia.
    + destruct (fetched (trace st)); [discriminate|]. cbn [length]. lia.
Qed.

Lemma crawl_summary_counts_witness :
  exists st,
    crawl CrawlSamples.goto_small_site elements 200
      CrawlSamples.sample_crawler CrawlSamples.sample_seeds = Some st
    /\ pages_failed (_generate_summary (crawler st))
       <= pages_crawled (_generate_summary (crawler st)).
Proof.
  destruct (crawl_summary_counts CrawlSamples.goto_small_site elements
              "https://carrier.example" "Carrier" CrawlSamples.sample_crawler
              CrawlSamples.sample_seeds 200)
    as (st & Hst & _ & _ & Hle & _).
  - intros s. reflexivity.
  - reflexivity.
  - unfold Config.MAX_PAGES_PER_SITE. lia.
  - exists st. split; [exact Hst|exact Hle].
Defined.

(** The queue on entry of the loop: the homepage first, then every seed
    that is an index page or a location document, then at most 50 of the
    other seeds; a seed equal to the homepage, with or without a final
    slash, is not queued again, and no URL is queued twice. *)
Theorem seeds_are_queued_by_priority
  (set_order : gset string -> list string) (self : PageCrawler)
  (seeds : gset string) :
  (forall s, set_order s ≡ₚ elements s) ->
  exists index_urls other_urls,
    seed_queue set_order self seeds
    = (base_url self :: index_urls ++ other_urls)%list
    /\ NoDup (seed_queue set_order self seeds)
    /\ length other_urls <= 50
    /\ (forall u, u ∈ index_urls <->
          u ∈ seeds /\ u <> base_url self /\ u <> base_url self ++ "/"
          /\ (_is_index_page u || _is_pdf_or_map u) = true)
    /\ (forall u, u ∈ other_urls ->
          u ∈ seeds /\ u <> base_url self /\ u <> base_url self ++ "/"
          /\ (_is_index_page u || _is_pdf_or_map u) = false).
Proof.
  intros Hperm. unfold seed_queue.
  eexists _, _. split; [reflexivity|].
  split; [apply (seed_queue_nodup set_order Hperm self seeds)|].
  split; [rewrite length_firstn; lia|].
  assert (forall u,
            In u (List.filter
                    (fun url =>
                       negb (String.eqb url (base_url self))
                       && negb (String.eqb url (base_url self ++ "/")))
                    (set_order seeds))
            <-> u ∈ seeds /\ u <> base_url self /\ u <> base_url self ++ "/")
    as Hseed.
  { intros u. rewrite filter_In, andb_true_iff, !negb_true_iff.
    rewrite !String.eqb_neq, <- list_elem_of_In, Hperm, elem_of_elements.
    tauto. }
  split.
  - intros u. rewrite list_elem_of_In, filter_In, Hseed. tauto.
  - intros u Hu.
    apply subseteq_take, list_elem_of_In, filter_In in Hu as [Hu Hn].
    apply Hseed in Hu. apply negb_true_iff in Hn. tauto.
Qed.

Lemma seeds_are_queued_by_priority_witness :
  exists index_urls other_urls,
    seed_queue elements CrawlSamples.sample_crawler CrawlSamples.sample_seeds
    = ("https://carrier.example" :: index_urls ++ other_urls)%list
    /\ length other_urls <= 50.
Proof.
  destruct (seeds_are_queued_by_priority elements CrawlSamples.sample_crawler
              CrawlSamples.sample_seeds)
    as (index_urls & other_urls & Hq & _ & Hlen & _).
  - intros s. reflexivity.
  - exists index_urls, other_urls. split; [exact Hq|exact Hlen].
Defined.

End CrawlExtras.
(* ===================================================================== *)
(** * Properties of URL discovery                                        *)
(* ===================================================================== *)

Section DiscoveryFacts.
Import Discovery.

Variable get_sitemap : string -> SitemapResponse.

Lemma fold_left_set_invariant {A} (P : string -> Prop)
  (f : gset string -> A -> gset string) (l : list A) (acc : gset string) :
  (forall u, u ∈ acc -> P u) ->
  (forall acc x, (forall u, u ∈ acc -> P u) ->
                 forall u, u ∈ f acc x -> P u) ->
  forall u, u ∈ fold_left f l acc -> P u.
Proof.
  intros Hacc Hstep. revert acc Hacc.
  induction l as [|x l IH]; intros acc Hacc; cbn [fold_left]; [exact Hacc|].
  apply IH. apply Hstep, Hacc.
Qed.

Lemma fetch_sitemap_same_domain (depth : nat) (self : URLDiscovery)
  (url u : string) :
  u ∈ _fetch_sitemap get_sitemap depth self url ->
  Utils.is_same_domain u (domain self) = true.
Proof.
  revert url u. induction depth as [|depth IH]; intros url u;
    cbn [_fetch_sitemap]; [set_solver|].
  destruct (get_sitemap url) as [|refs elems]; [set_solver|].
  revert u.
  destruct refs as [|r refs].
  - apply (fold_left_set_invariant
             (fun u => Utils.is_same_domain u (domain self) = true));
      [set_solver|].
    intros acc [text|] Hacc v Hv; [|auto].
    destruct (String.eqb text ""); [auto|].
    destruct (Utils.is_same_domain (Py.strip text) (domain self)) eqn:Hd;
      [|auto].
    apply elem_of_union in Hv as [Hv | Hv]; [auto|].
    apply elem_of_singleton in Hv. subst v. exact Hd.
  - apply (fold_left_set_invariant
             (fun u => Utils.is_same_domain u (domain self) = true));
      [set_solver|].
    intros acc [sub|] Hacc v Hv; [|auto].
    destruct (String.eqb sub ""); [auto|].
    apply elem_of_union in Hv as [Hv | Hv]; [auto|]. eapply IH, Hv.
Qed.

Lemma add_sitemap_urls_on_site (self0 self : URLDiscovery)
  (urls : gset string) :
  discovered_on_site self0 self ->
  (forall u, u ∈ urls -> Utils.is_same_domain u (domain self0) = true) ->
  discovered_on_site self0 (add_sitemap_urls self urls).
Proof.
  intros (Hb & Hd & Hdisc & Hsm & Hpr & Hkw) Hurls.
  unfold discovered_on_site, add_sitemap_urls, _identify_priority_urls.
  cbn [base_url domain discovered_urls sitemap_urls priority_urls].
  split; [exact Hb|]. split; [exact Hd|]. split; [|split; [|split]].
  - intros u Hu. apply elem_of_union in Hu as [Hu | Hu]; auto.
  - set_solver.
  - intros u Hu. apply elem_of_union in Hu as [Hu | Hu]; [set_solver|].
    apply elem_of_list_to_set, list_elem_of_In, filter_In in Hu as [Hu _].
    apply list_elem_of_In, elem_of_elements in Hu. set_solver.
  - intros u Hu. apply elem_of_union in Hu as [Hu | Hu]; [auto|].
    apply elem_of_list_to_set, list_elem_of_In, filter_In in Hu as [_ Hu].
    exact Hu.
Qed.

Lemma sitemap_loop_on_site (depth : nat) (self0 self : URLDiscovery)
  (candidates : list string) :
  discovered_on_site self0 self ->
  discovered_on_site self0 (sitemap_loop get_sitemap depth self candidates).
Proof.
  intros Hinv. induction candidates as [|c cs IH]; cbn [sitemap_loop];
    [exact Hinv|].
  case_bool_decide; [exact IH|].
  apply add_sitemap_urls_on_site; [exact Hinv|].
  intros u Hu. apply fetch_sitemap_same_domain in Hu.
  destruct Hinv as (_ & Hd & _). rewrite <- Hd. exact Hu.
Qed.

Lemma robots_line_on_site (depth : nat) (self0 self : URLDiscovery)
  (line : string) :
  discovered_on_site self0 self ->
  discovered_on_site self0 (robots_line get_sitemap depth self line).
Proof.
  intros Hinv. unfold robots_line.
  destruct (Py.startswith _ "sitemap:"); [|exact Hinv].
  destruct (negb _ && bool_decide _); [|exact Hinv].
  apply add_sitemap_urls_on_site; [exact Hinv|].
  intros u Hu. apply fetch_sitemap_same_domain in Hu.
  destruct Hinv as (_ & Hd & _). rewrite <- Hd. exact Hu.
Qed.

Lemma discover_from_robots_on_site (get_robots : string -> option string)
  (depth : nat) (self0 self : URLDiscovery) :
  discovered_on_site self0 self ->
  discovered_on_site self0
    (_discover_from_robots get_sitemap get_robots depth self).
Proof.
  intros Hinv. unfold _discover_from_robots.
  destruct (get_robots _) as [content|]; [|exact Hinv].
  generalize (Py.split Re.newline content). intros lines.
  revert self Hinv. induction lines as [|l lines IH]; intros self Hinv;
    cbn [fold_left]; [exact Hinv|].
  apply IH, robots_line_on_site, Hinv.
Qed.

Lemma init_on_site (website : string) (self : URLDiscovery) :
  init website = Ok self ->
  discovered_on_site self self
  /\ base_url self = Py.rstrip_slash website
  /\ Utils.extract_domain website = Ok (domain self).
Proof.
  unfold init. destruct (Utils.extract_domain website) as [d|]; cbn [bind];
    [|discriminate].
  intros [= <-]. split; [|auto].
  unfold discovered_on_site.
  cbn [base_url domain discovered_urls sitemap_urls priority_urls].
  repeat split; set_solver.
Qed.

End DiscoveryFacts.

Section DiscoveryFacts2.
Import Discovery.

Lemma discover_all_on_site
  (get_sitemap : string -> SitemapResponse)
  (get_robots : string -> option string)
  (depth : nat) (website : string) (self : URLDiscovery) :
  init website = Ok self ->
  let found := discover_all get_sitemap get_robots depth self in
  base_url self ∈ discovered_urls found
  /\ (forall u, u ∈ discovered_urls found ->
        u = base_url self \/ Utils.is_same_domain u (domain self) = true)
  /\ sitemap_urls found ⊆ discovered_urls found
  /\ priority_urls found ⊆ discovered_urls found
  /\ (forall u, u ∈ priority_urls found ->
        Py.any_in Config.LOCATION_URL_KEYWORDS (Py.lower u) = true).
Proof.
  intros Hinit found.
  destruct (init_on_site website self Hinit) as [Hinv _].
  assert (discovered_on_site self
            (_discover_from_robots get_sitemap get_robots depth
               (_discover_from_sitemap get_sitemap depth self)))
    as (Hb & Hd & Hdisc & Hsm & Hpr & Hkw).
  { apply discover_from_robots_on_site.
    unfold _discover_from_sitemap. apply sitemap_loop_on_site. exact Hinv. }
  unfold found, discover_all.
  cbn [base_url domain discovered_urls sitemap_urls priority_urls].
  rewrite Hb. split; [set_solver|]. split; [|split; [|split]].
  - intros u Hu. apply elem_of_union in Hu as [Hu | Hu]; [auto|].
    apply elem_of_singleton in Hu. auto.
  - set_solver.
  - set_solver.
  - exact Hkw.
Qed.


End DiscoveryFacts2.

Section DiscoveryExtras.
Import Discovery.

(** [discover_all] returns the homepage and URLs of the carrier's own
    domain only: every URL taken from a sitemap, at any depth of sitemap
    indexes and also through [robots.txt], has passed [is_same_domain];
    the priority URLs are among the discovered ones and each has a
    location keyword. *)
Theorem discovered_urls_are_on_site
  (get_sitemap : string -> SitemapResponse)
  (get_robots : string -> option string)
  (depth : nat) (website : string) (self : URLDiscovery) :
  init website = Ok self ->
  let found := discover_all get_sitemap get_robots depth self in
  base_url self ∈ discovered_urls found
  /\ (forall u, u ∈ discovered_urls found ->
        u = base_url self \/ Utils.is_same_domain u (domain self) = true)
  /\ sitemap_urls found ⊆ discovered_urls found
  /\ priority_urls found ⊆ discovered_urls found
  /\ (forall u, u ∈ priority_urls found ->
        Py.any_in Config.LOCATION_URL_KEYWORDS (Py.lower u) = true).
Proof. apply discover_all_on_site. Qed.

Lemma discovered_urls_are_on_site_witness :
  "https://carrier.example"
  ∈ discovered_urls
      (discover_all PipelineSamples.get_sitemap PipelineSamples.get_robots 3
         PipelineSamples.sample_discovery)
  /\ forall u,
       u ∈ discovered_urls
             (discover_all PipelineSamples.get_sitemap
                PipelineSamples.get_robots 3 PipelineSamples.sample_discovery) ->
       u = "https://carrier.example"
       \/ Utils.is_same_domain u "carrier.example" = true.
Proof.
  destruct (discovered_urls_are_on_site PipelineSamples.get_sitemap
              PipelineSamples.get_robots 3 "https://carrier.example"
              PipelineSamples.sample_discovery eq_refl)
    as (Hbase & Hsite & _).
  split; [exact Hbase|exact Hsite].
Defined.

End DiscoveryExtras.
Section PipelineExtras.

(** Discovery and crawl together, as [crawl_single_carrier] runs them on
    a carrier's website: whatever the sitemaps, [robots.txt] and the
    pages hold, every URL the crawl visits is the homepage or a URL that
    has passed [is_same_domain] for the carrier's domain. *)
Theorem discovered_crawl_stays_on_site
  (get_sitemap : string -> Discovery.SitemapResponse)
  (get_robots : string -> option string) (depth : nat)
  (goto : nat -> string -> Crawler.Navigation)
  (set_order : gset string -> list string)
  (website name : string) (discovery : Discovery.URLDiscovery)
  (self : Crawler.PageCrawler) (fuel : nat) :
  (forall s, set_order s ≡ₚ elements s) ->
  Discovery.init website = Ok discovery ->
  Crawler.init website name = Ok self ->
  Config.MAX_PAGES_PER_SITE <= fuel ->
  exists st,
    Crawler.crawl goto set_order fuel self
      (Discovery.discovered_urls
         (Discovery.discover_all get_sitemap get_robots depth discovery))
    = Some st
    /\ forall u,
         u ∈ Crawler.visited_urls (Crawler.crawler st) ->
         u = Crawler.base_url self
         \/ Utils.is_same_domain u (Crawler.domain self) = true.
Proof.
  intros Hperm Hdisc Hinit Hfuel.
  destruct (init_fresh website name self Hinit) as (Hv & Hf & Hbase).
  destruct (init_on_site website discovery Hdisc) as (_ & Hbase' & Hdom').
  assert (Utils.extract_domain website = Ok (Crawler.domain self)) as Hdom.
  { unfold Crawler.init in Hinit.
    destruct (Utils.extract_domain website); cbn [bind] in Hinit;
      [|discriminate].
    injection Hinit as <-. reflexivity. }
  assert (Discovery.domain discovery = Crawler.domain self) as Hd
    by congruence.
  assert (Discovery.base_url discovery = Crawler.base_url self) as Hb
    by congruence.
  destruct (discover_all_on_site get_sitemap get_robots depth website
              discovery Hdisc) as (_ & Hseeds & _).
  set (seeds := Discovery.discovered_urls
                  (Discovery.discover_all get_sitemap get_robots depth
                     discovery)) in *.
  destruct (crawl_final goto set_order Hperm (Crawler.from_site self seeds)
              self seeds fuel Hv Hf Hfuel)
    as (st & Hst & _ & _ & _ & _ & Hsite).
  - apply from_site_start; assumption.
  - intros s. apply from_site_step. exact Hperm.
  - exists st. split; [exact Hst|]. intros u Hu.
    destruct (Hsite u (or_introl Hu)) as [-> | [Hseed | Hsame]]; [auto| |auto].
    destruct (Hseeds u Hseed) as [-> | Hsame]; [left; congruence|].
    right. rewrite <- Hd. exact Hsame.
Qed.

Lemma discovered_crawl_stays_on_site_witness :
  exists st,
    Crawler.crawl CrawlSamples.goto_small_site elements 200
      CrawlSamples.sample_crawler
      (Discovery.discovered_urls
         (Discovery.discover_all PipelineSamples.get_sitemap
            PipelineSamples.get_robots 3 PipelineSamples.sample_discovery))
    = Some st
    /\ forall u,
         u ∈ Crawler.visited_urls (Crawler.crawler st) ->
         u = "https://carrier.example"
         \/ Utils.is_same_domain u "carrier.example" = true.
Proof.
  apply (discovered_crawl_stays_on_site PipelineSamples.get_sitemap
           PipelineSamples.get_robots 3 CrawlSamples.goto_small_site elements
           "https://carrier.example" "Carrier"
           PipelineSamples.sample_discovery CrawlSamples.sample_crawler 200).
  - intros s. reflexivity.
  - reflexivity.
  - reflexivity.
  - unfold Config.MAX_PAGES_PER_SITE. lia.
Defined.

End PipelineExtras.
(* ===================================================================== *)
(** * Properties of the carrier list and of the run of one carrier       *)
(* ===================================================================== *)

Section LoaderFacts.
Import Runner Loader.

Lemma rstrip_by_no_trailing (f : ascii -> bool) (s : string) (c : ascii) :
  f c = true ->
  Py.endswith (Py.rstrip_by f s) (String c EmptyString) = false.
Proof.
  intros Hc. induction s as [|d s IH]; [reflexivity|].
  cbn [Py.rstrip_by].
  destruct (Py.rstrip_by f s) as [|e r] eqn:Hr.
  - destruct (f d) eqn:Hd; [reflexivity|].
    cbn [Py.endswith]. rewrite orb_false_r.
    apply String.eqb_neq. intros [= ->]. congruence.
  - change (Py.endswith (String d (String e r)) (String c ""))
      with (String.eqb (String d (String e r)) (String c "")
            || Py.endswith (String e r) (String c "")).
    rewrite IH, orb_false_r. apply String.eqb_neq. discriminate.
Qed.

Lemma rstrip_by_fixed (f : ascii -> bool) (s : string) :
  Py.rstrip_by f (Py.rstrip_by f s) = Py.rstrip_by f s.
Proof.
  induction s as [|d s IH]; [reflexivity|].
  cbn [Py.rstrip_by].
  destruct (Py.rstrip_by f s) as [|e r] eqn:Hr.
  - destruct (f d) eqn:Hd; [reflexivity|].
    cbn [Py.rstrip_by]. rewrite Hd. reflexivity.
  - change (Py.rstrip_by f (String d (String e r)))
      with (match Py.rstrip_by f (String e r) with
            | EmptyString => if f d then EmptyString else String d EmptyString
            | r' => String d r'
            end).
    rewrite IH. reflexivity.
Qed.

Lemma load_row_website (row : Row) (c : Carrier) :
  load_row row = Some c ->
  Py.startswith (website c) "http" = true
  /\ Py.endswith (website c) "/" = false
  /\ Py.rstrip_slash (website c) = website c.
Proof.
  unfold load_row.
  destruct (String.eqb _ "" || String.eqb _ "nan"); [discriminate|].
  set (w := if Py.contains "," _ then _ else _).
  assert (Py.startswith
            (if negb (Py.startswith w "http") then "https://" ++ w else w)
            "http" = true) as Hs.
  { destruct (Py.startswith w "http") eqn:Hw; [exact Hw|reflexivity]. }
  revert Hs. generalize (if negb (Py.startswith w "http")
                         then "https://" ++ w else w).
  intros w' Hs [= <-]. cbn [website].
  split; [|split].
  - apply startswith_rstrip; [discriminate|reflexivity|exact Hs].
  - apply rstrip_by_no_trailing. reflexivity.
  - apply rstrip_by_fixed.
Qed.

Lemma In_load_carriers (rows : list Row) (c : Carrier) :
  In c (load_carriers rows) <-> exists row, In row rows /\ load_row row = Some c.
Proof.
  unfold load_carriers. rewrite <- list_elem_of_In, list_elem_of_omap.
  split; intros (row & Hrow & Hc); exists row;
    [apply list_elem_of_In in Hrow|apply list_elem_of_In in Hrow]; auto.
Qed.

Lemma load_carriers_length (rows : list Row) :
  length (load_carriers rows) <= length rows.
Proof.
  unfold load_carriers. induction rows as [|r rows IH]; [reflexivity|].
  cbn [omap list_omap length]. destruct (load_row r); cbn [length]; lia.
Qed.

Lemma startswith_nonempty (s p : string) :
  p <> "" -> Py.startswith s p = true -> s <> "".
Proof. intros Hp Hs ->. destruct p; [congruence|discriminate]. Qed.

End LoaderFacts.

Section LoaderExtras.
Import Runner Loader CarrierRun.

(** Every website that [load_carriers] returns starts with [http] and
    has no final slash, so [PageCrawler] takes it as its base URL
    unchanged and [crawl_single_carrier] never skips a carrier of the
    list; a row without website gives no carrier, and the carriers keep
    the order of the rows. *)
Theorem loaded_carriers_are_crawlable (rows : list Row) :
  (forall c, In c (load_carriers rows) ->
     Py.startswith (website c) "http" = true
     /\ Py.endswith (website c) "/" = false
     /\ Py.rstrip_slash (website c) = website c
     /\ forall crawl_site name reason,
          crawl_single_carrier crawl_site c <> Skipped name reason)
  /\ length (load_carriers rows) <= length rows
  /\ (forall name, load_carriers (rows ++ [(name, "nan")]) = load_carriers rows)
  /\ (forall rows', load_carriers (rows ++ rows')
                    = (load_carriers rows ++ load_carriers rows')%list).
Proof.
  split; [|split; [|split]].
  - intros c Hc. apply In_load_carriers in Hc as (row & _ & Hrow).
    destruct (load_row_website row c Hrow) as (Hs & He & Hr).
    split; [exact Hs|]. split; [exact He|]. split; [exact Hr|].
    intros crawl_site name reason. unfold crawl_single_carrier.
    rewrite Hs.
    assert (website c <> "") as Hne
      by (apply (startswith_nonempty _ "http"); [discriminate|exact Hs]).
    apply String.eqb_neq in Hne. rewrite Hne. cbn [negb orb].
    destruct (crawl_site (website c) (Runner.name c)) as [e | [s f]];
      discriminate.
  - apply load_carriers_length.
  - intros name. unfold load_carriers. rewrite omap_app.
    cbn [omap list_omap]. unfold load_row at 2. cbn [fst snd].
    change (Py.strip "nan") with "nan". cbn. apply app_nil_r.
  - intros rows'. unfold load_carriers. apply omap_app.
Qed.

End LoaderExtras.
Section CarrierRunExtras.
Import Runner CarrierRun.
Local Open Scope Z_scope.

(** The result of a carrier whose crawl went through is consistent with
    its report: the status is [OK] exactly when a page was accepted, and
    then there is a top URL, a top score of at least 3 and a modality;
    otherwise the status is [NO_LOC], there is no top URL, the top score
    is 0, no modality, and the approach is the "no location data"
    text. *)
Theorem carrier_result_matches_report
  (crawl_site :
     string -> string -> string + (Crawler.Summary * list Classifier.HtmlFile))
  (carrier : Carrier)
  (name url domain status : string)
  (pages_crawled pages_failed location_pages total_pages : nat)
  (top_url : option string) (top_score : Z)
  (modalities : list string) (approach : string) :
  crawl_single_carrier crawl_site carrier
  = Crawled name url domain status pages_crawled pages_failed location_pages
      total_pages top_url top_score modalities approach ->
  (location_pages <= total_pages)%nat
  /\ ((status = "OK" /\ (0 < location_pages)%nat
       /\ (exists u, top_url = Some u)
       /\ Classifier.LOCATION_PAGE_THRESHOLD <= top_score
       /\ modalities <> [])
      \/ (status = "NO_LOC" /\ location_pages = 0%nat
          /\ top_url = None /\ top_score = 0 /\ modalities = []
          /\ approach = "No location data detected - manual review needed")).
Proof.
  unfold crawl_single_carrier.
  destruct (String.eqb _ "" || negb _); [discriminate|].
  destruct (crawl_site _ _) as [e | [summary files]]; [discriminate|].
  intros [= <- <- <- <- <- <- <- <- <- <- <- <-].
  set (r := Classifier.classify_carrier _ _ files).
  destruct (classify_carrier_fields (Runner.name carrier)
              (carrier_dir_name (website carrier)) files)
    as (Ht & Hl & Htop & Hm).
  fold r in Ht, Hl, Htop, Hm.
  pose proof (modalities_empty_iff (Runner.name carrier)
                (carrier_dir_name (website carrier)) files) as Hempty.
  fold r in Hempty.
  pose proof (recommended_approach_eq (Runner.name carrier)
                (carrier_dir_name (website carrier)) files) as Happ.
  fold r in Happ.
  split.
  { rewrite Hl, Ht. unfold Classifier.accepted_pages.
    etransitivity; [apply List.filter_length_le|]. rewrite length_map. lia. }
  destruct (Classifier.accepted_pages files) as [|p ps] eqn:Hacc.
  - right. rewrite Hl, Htop. cbn [length].
    assert (Classifier.modalities_found r = ∅) as Hnone
      by (apply Hempty; reflexivity).
    rewrite Happ, Hnone, map_to_list_empty.
    repeat split; reflexivity.
  - left. rewrite Hl. cbn [length].
    split; [reflexivity|]. split; [lia|].
    assert (exists q rest,
              Classifier.sort_by_score (p :: ps) = q :: rest
              /\ In q (p :: ps)) as (q & rest & Hsort & Hq).
    { pose proof (sort_by_score_perm (p :: ps)) as Hperm.
      destruct (Classifier.sort_by_score (p :: ps)) as [|q rest] eqn:Hs.
      - apply Permutation_nil in Hperm. discriminate.
      - exists q, rest. split; [reflexivity|].
        apply list_elem_of_In. rewrite <- Hperm. apply elem_of_cons. auto. }
    rewrite Htop, Hsort. cbn [firstn].
    split; [eauto|]. split.
    + rewrite <- Hacc in Hq.
      destruct (accepted_page_facts files q Hq) as (_ & Hthr & _). exact Hthr.
    + intros Hnil. apply map_eq_nil in Hnil.
      apply map_to_list_empty_iff in Hnil.
      apply Hempty in Hnil. discriminate.
Qed.

Lemma carrier_result_matches_report_witness :
  exists (status : string) (location_pages total_pages : nat)
         (top_url : option string),
    (location_pages <= total_pages)%nat
    /\ ((status = "OK" /\ exists u, top_url = Some u)
        \/ (status = "NO_LOC" /\ top_url = None)).
Proof.
  assert (String.eqb (website (RunSamples.carrier_number 1)) ""
          || negb (Py.startswith (website (RunSamples.carrier_number 1))
                     "http") = false) as Hguard by reflexivity.
  destruct (crawl_single_carrier PipelineSamples.crawl_site
              (RunSamples.carrier_number 1))
    as [n rs | n u d st pc pf lp tp tu ts ms ap | n u d e] eqn:Hres.
  - exfalso. unfold crawl_single_carrier in Hres. rewrite Hguard in Hres.
    unfold PipelineSamples.crawl_site in Hres. discriminate Hres.
  - destruct (carrier_result_matches_report PipelineSamples.crawl_site
                (RunSamples.carrier_number 1) n u d st pc pf lp tp tu ts ms ap
                Hres)
      as [Hle [(Hs & _ & Hu & _) | (Hs & _ & Hu & _)]].
    + exists st, lp, tp, tu. split; [exact Hle|]. left. auto.
    + exists st, lp, tp, tu. split; [exact Hle|]. right. auto.
  - exfalso. unfold crawl_single_carrier in Hres. rewrite Hguard in Hres.
    unfold PipelineSamples.crawl_site in Hres. discriminate Hres.
Defined.

End CarrierRunExtras.
(* ===================================================================== *)
(** * Further properties of the URL helpers                              *)
(* ===================================================================== *)

Section CharFacts.

Lemma all_chars_take (f : ascii -> bool) (n : nat) (s : string) :
  Py.all_chars f s = true -> Py.all_chars f (Py.take n s) = true.
Proof.
  revert n. induction s as [|c s IH]; intros n Hs; [destruct n; reflexivity|].
  destruct n as [|n]; [reflexivity|].
  cbn [Py.take Py.all_chars] in *. apply andb_true_iff in Hs as [Hc Hs].
  rewrite Hc. apply IH, Hs.
Qed.

Lemma all_chars_drop_last (f : ascii -> bool) (s : string) :
  Py.all_chars f s = true -> Py.all_chars f (Py.drop_last s) = true.
Proof.
  induction s as [|c s IH]; [reflexivity|]. intros Hs.
  cbn [Py.all_chars] in Hs. apply andb_true_iff in Hs as [Hc Hs].
  destruct s as [|d s]; [reflexivity|].
  change (Py.drop_last (String c (String d s)))
    with (String c (Py.drop_last (String d s))).
  cbn [Py.all_chars]. rewrite Hc. apply IH, Hs.
Qed.

Lemma all_chars_lower (f : ascii -> bool) (s : string) :
  (forall c, f c = true -> f (Py.lower_char c) = true) ->
  Py.all_chars f s = true -> Py.all_chars f (Py.lower s) = true.
Proof.
  intros Hf. induction s as [|c s IH]; [reflexivity|]. intros Hs.
  cbn [Py.all_chars Py.lower] in *. apply andb_true_iff in Hs as [Hc Hs].
  rewrite (Hf c Hc). apply IH, Hs.
Qed.

Lemma span_until_fst (f : ascii -> bool) (s : string) :
  Py.all_chars (fun c => negb (f c)) (fst (Urllib.span_until f s)) = true.
Proof.
  induction s as [|c s IH]; [reflexivity|].
  cbn [Urllib.span_until]. destruct (f c) eqn:Hc; [reflexivity|].
  destruct (Urllib.span_until f s) as [a b]. cbn [fst Py.all_chars] in *.
  rewrite Hc, IH. reflexivity.
Qed.

Lemma partition_all_chars (f : ascii -> bool) (c : ascii) (s : string) :
  Py.all_chars f s = true ->
  Py.all_chars f (fst (Py.partition c s)) = true
  /\ Py.all_chars f (snd (Py.partition c s)) = true.
Proof.
  induction s as [|d s IH]; [auto|]. intros Hs.
  cbn [Py.all_chars] in Hs. apply andb_true_iff in Hs as [Hd Hs].
  cbn [Py.partition]. destruct (Ascii.eqb c d); [auto|].
  destruct (IH Hs) as [Ha Hb].
  destruct (Py.partition c s) as [a b]. cbn [fst snd Py.all_chars] in *.
  rewrite Hd, Ha. auto.
Qed.

Lemma partition_fst_is_not (c : ascii) (s : string) :
  Py.all_chars (Py.is_not c) (fst (Py.partition c s)) = true.
Proof.
  induction s as [|d s IH]; [reflexivity|].
  cbn [Py.partition]. destruct (Ascii.eqb c d) eqn:Hcd; [reflexivity|].
  destruct (Py.partition c s) as [a b]. cbn [fst Py.all_chars] in *.
  unfold Py.is_not at 1. rewrite Ascii.eqb_sym, Hcd, IH. reflexivity.
Qed.

Lemma contains_char_all_chars (x : ascii) (s : string) :
  Py.contains (String x EmptyString) s = false ->
  Py.all_chars (Py.is_not x) s = true.
Proof.
  induction s as [|d s IH]; [reflexivity|]. intros Hs.
  change (Py.contains (String x "") (String d s))
    with (Py.startswith (String d s) (String x "")
          || Py.contains (String x "") s) in Hs.
  apply orb_false_iff in Hs as [Hd Hs].
  change (Py.startswith (String d s) (String x ""))
    with (Ascii.eqb x d && true) in Hd.
  rewrite andb_true_r in Hd.
  cbn [Py.all_chars]. unfold Py.is_not at 1.
  rewrite Ascii.eqb_sym, Hd. apply IH, Hs.
Qed.

Lemma is_not_contains (x : ascii) (s : string) :
  Py.all_chars (Py.is_not x) s = true ->
  Py.contains (String x EmptyString) s = false.
Proof. apply contains_char_false. Qed.

End CharFacts.
Section NoFragmentFacts.
Import Urllib Utils.

Notation no_hash := (Py.all_chars (Py.is_not "#")).

Lemma split_tail_no_hash (s : string) :
  no_hash (fst (fst (split_tail s))) = true
  /\ no_hash (snd (fst (split_tail s))) = true.
Proof.
  unfold split_tail.
  assert (forall a, no_hash a = true ->
            no_hash (fst (if Py.contains "?" a then Py.partition "?" a
                          else (a, EmptyString))) = true
            /\ no_hash (snd (if Py.contains "?" a then Py.partition "?" a
                             else (a, EmptyString))) = true) as Hq.
  { intros a Ha. destruct (Py.contains "?" a).
    - apply partition_all_chars, Ha.
    - auto. }
  destruct (Py.contains "#" s) eqn:Hs.
  - pose proof (partition_fst_is_not "#" s) as Ha.
    destruct (Py.partition "#" s) as [a fr]. cbn [fst] in Ha.
    specialize (Hq a Ha).
    destruct (if Py.contains "?" a then Py.partition "?" a else (a, ""))
      as [p q]. exact Hq.
  - specialize (Hq s (contains_char_all_chars "#" s Hs)).
    destruct (if Py.contains "?" s then Py.partition "?" s else (s, ""))
      as [p q]. exact Hq.
Qed.

Lemma split_authority_no_hash (s : string) :
  no_hash (fst (split_authority s)) = true.
Proof.
  unfold split_authority, splitnetloc.
  destruct (Py.startswith s "//"); [|reflexivity].
  eapply all_chars_impl; [|apply span_until_fst].
  intros c Hc. unfold netloc_delim in Hc. unfold Py.is_not.
  destruct (Ascii.eqb c "#"); [|reflexivity].
  rewrite !orb_true_r in Hc. discriminate.
Qed.

Lemma urlsplit_no_hash (url d : string) (r : ParseResult) :
  urlsplit url d = Ok r ->
  no_hash (netloc r) = true /\ no_hash (path r) = true
  /\ no_hash (query r) = true.
Proof.
  unfold urlsplit.
  destruct (split_scheme (clean_url url) (clean_scheme d)) as [sch rest].
  pose proof (split_authority_no_hash rest) as Hn.
  destruct (split_authority rest) as [nl rest2]. cbn [fst] in Hn.
  destruct (Py.contains "[" nl || Py.contains "]" nl); [discriminate|].
  pose proof (split_tail_no_hash rest2) as [Hp Hq].
  destruct (split_tail rest2) as [[p q] fr]. cbn [fst snd] in Hp, Hq.
  intros [= <-]. cbn [netloc path query]. auto.
Qed.

Lemma splitparams_no_hash (p : string) :
  no_hash p = true -> no_hash (fst (splitparams p)) = true.
Proof.
  intros Hp. unfold splitparams.
  repeat case_match; cbn [fst]; try exact Hp; apply all_chars_take, Hp.
Qed.

Lemma urlparse_no_hash (url d : string) (r : ParseResult) :
  urlparse url d = Ok r ->
  no_hash (netloc r) = true /\ no_hash (path r) = true
  /\ no_hash (query r) = true.
Proof.
  unfold urlparse.
  destruct (urlsplit url d) as [r0|] eqn:Hsplit; cbn [bind]; [|discriminate].
  apply urlsplit_no_hash in Hsplit as (Hn & Hp & Hq).
  destruct (mem (scheme r0) uses_params && Py.contains ";" (path r0)).
  - pose proof (splitparams_no_hash (path r0) Hp) as Hp'.
    destruct (splitparams (path r0)) as [p ps]. cbn [fst] in Hp'.
    intros [= <-]. cbn [netloc path query]. auto.
  - intros [= <-]. auto.
Qed.

Lemma lower_char_is_not_hash (c : ascii) :
  Py.is_not "#" c = true -> Py.is_not "#" (Py.lower_char c) = true.
Proof.
  destruct c as [[] [] [] [] [] [] [] []]; vm_compute; auto.
Qed.

Lemma startswith_drop_last (s p : string) :
  Py.startswith s p = true -> Py.len p < Py.len s ->
  Py.startswith (Py.drop_last s) p = true.
Proof.
  revert s. induction p as [|c p IH]; intros s Hs Hlen;
    [destruct (Py.drop_last s); reflexivity|].
  destruct s as [|d s]; [discriminate|].
  cbn [Py.startswith] in Hs. apply andb_true_iff in Hs as [Hc Hs].
  destruct s as [|e s]; [cbn in Hlen; lia|].
  change (Py.drop_last (String d (String e s)))
    with (String d (Py.drop_last (String e s))).
  cbn [Py.startswith]. rewrite Hc. apply IH; [exact Hs|].
  unfold Py.len in *. cbn [String.length] in *. lia.
Qed.

Lemma len_app (a b : string) : Py.len (a ++ b) = Py.len a + Py.len b.
Proof.
  unfold Py.len. induction a as [|c a IH]; [reflexivity|].
  rewrite append_cons. cbn [String.length]. rewrite IH. reflexivity.
Qed.

Lemma drop_last_nonempty (s : string) :
  1 < Py.len s -> Py.drop_last s <> "".
Proof.
  destruct s as [|c [|d s]]; cbn; try lia. discriminate.
Qed.

(** The shape of what [rebuild] returns. *)
Lemma rebuild_shape (parsed : ParseResult) (out : string) :
  no_hash (netloc parsed) = true -> no_hash (path parsed) = true ->
  no_hash (query parsed) = true ->
  rebuild parsed = Some out ->
  Py.contains "#" out = false
  /\ (Py.startswith out "http:/" = true \/ Py.startswith out "https:/" = true)
  /\ out <> "".
Proof.
  intros Hn Hp Hq. unfold rebuild.
  destruct (mem (scheme parsed) ["http"; "https"]) eqn:Hs;
    cbn [negb]; [|discriminate].
  assert (scheme parsed = "http" \/ scheme parsed = "https") as Hsch.
  { cbn [mem existsb] in Hs. rewrite orb_false_r in Hs.
    apply orb_true_iff in Hs as [Hs | Hs]; apply String.eqb_eq in Hs; auto. }
  pose (body := Py.lower (netloc parsed) ++ path parsed).
  pose (tail := if negb (String.eqb (query parsed) "")
               then "?" ++ query parsed else "").
  assert ((if negb (String.eqb (query parsed) "")
           then (scheme parsed ++ "://" ++ Py.lower (netloc parsed)
                 ++ path parsed) ++ "?" ++ query parsed
           else scheme parsed ++ "://" ++ Py.lower (netloc parsed)
                ++ path parsed)
          = scheme parsed ++ ":/" ++ "/" ++ body ++ tail) as ->.
  { unfold body, tail. destruct (negb (String.eqb (query parsed) "")).
    - rewrite !append_assoc. reflexivity.
    - rewrite !append_assoc, append_nil_r. reflexivity. }
  assert (no_hash (scheme parsed ++ ":/" ++ "/" ++ body ++ tail) = true)
    as Hall.
  { rewrite !all_chars_app. unfold body, tail.
    rewrite all_chars_app.
    rewrite (all_chars_lower _ _ lower_char_is_not_hash Hn), Hp.
    assert (no_hash (scheme parsed) = true) as ->
      by (destruct Hsch as [-> | ->]; reflexivity).
    destruct (negb (String.eqb (query parsed) "")); [|reflexivity].
    rewrite all_chars_app, Hq. reflexivity. }
  assert (Py.startswith (scheme parsed ++ ":/" ++ "/" ++ body ++ tail)
            (scheme parsed ++ ":/") = true) as Hstart.
  { rewrite <- append_assoc. apply startswith_app_self. }
  assert (Py.len (scheme parsed ++ ":/")
          < Py.len (scheme parsed ++ ":/" ++ "/" ++ body ++ tail)) as Hlen.
  { rewrite !len_app. unfold Py.len. cbn [String.length]. lia. }
  intros [= <-].
  destruct (Py.endswith _ "/" && negb (String.eqb (path parsed) "/")).
  - split; [apply is_not_contains, all_chars_drop_last, Hall|].
    split.
    + pose proof (startswith_drop_last _ _ Hstart Hlen) as H.
      destruct Hsch as [Hsch | Hsch]; rewrite Hsch in H |- *;
        [left|right]; exact H.
    + apply drop_last_nonempty. rewrite !len_app in *.
      unfold Py.len in *. cbn [String.length] in *. lia.
  - split; [apply is_not_contains, Hall|].
    split.
    + destruct Hsch as [Hsch | Hsch]; rewrite Hsch in Hstart |- *;
        [left|right]; exact Hstart.
    + intros Heq. rewrite Heq in Hlen. cbn in Hlen. lia.
Qed.

Lemma normalize_url_shape (raw base out : string) :
  normalize_url raw base = Ok (Some out) ->
  Py.contains "#" out = false
  /\ (Py.startswith out "http:/" = true \/ Py.startswith out "https:/" = true)
  /\ out <> "".
Proof.
  unfold normalize_url.
  destruct (String.eqb raw "" || String.eqb (Py.strip raw) "");
    [discriminate|].
  destruct (Py.any_in Config.EXCLUDED_URL_PATTERNS _); [discriminate|].
  destruct (absolutize (Py.strip raw) base) as [url|]; cbn [bind];
    [|discriminate].
  destruct (Urllib.urlparse url "") as [parsed|] eqn:Hparse; cbn [bind];
    [|discriminate].
  intros [= Hout].
  destruct (urlparse_no_hash url "" parsed Hparse) as (Hn & Hp & Hq).
  apply (rebuild_shape parsed out Hn Hp Hq Hout).
Qed.

End NoFragmentFacts.

Section NormalizeExtras.
Import Urllib Utils.



End NormalizeExtras.
Section SameDomainFacts.
Import Urllib Utils.

Lemma lower_char_idem (c : ascii) :
  Py.lower_char (Py.lower_char c) = Py.lower_char c.
Proof. destruct c as [[] [] [] [] [] [] [] []]; reflexivity. Qed.

Lemma lower_idem (s : string) : Py.lower (Py.lower s) = Py.lower s.
Proof.
  induction s as [|c s IH]; [reflexivity|].
  cbn [Py.lower]. rewrite lower_char_idem, IH. reflexivity.
Qed.

Lemma host_char_lower_char (c : ascii) :
  host_char c = true -> host_char (Py.lower_char c) = true.
Proof. destruct c as [[] [] [] [] [] [] [] []]; vm_compute; auto. Qed.

Lemma replace_absent (old new s : string) :
  Py.contains old s = false -> Py.replace old new s = s.
Proof.
  unfold Py.replace. induction s as [|c s IH]; [reflexivity|].
  rewrite contains_cons. intros H. apply orb_false_iff in H as [Hs Hc].
  cbn [Py.replace_from]. rewrite Hs, (IH Hc). reflexivity.
Qed.

(** [is_same_domain] on an absolute URL, in terms of the host. *)
Lemma is_same_domain_absolute (sch h rest d : string) :
  sch = "http" \/ sch = "https" ->
  Py.all_chars host_char h = true ->
  after_host rest = true ->
  is_same_domain (sch ++ "://" ++ h ++ rest) d
  = (String.eqb (Py.replace "www." "" (Py.lower h))
       (Py.replace "www." "" (Py.lower d))
     || Py.endswith (Py.replace "www." "" (Py.lower h))
          ("." ++ Py.replace "www." "" (Py.lower d))).
Proof.
  intros Hsch Hh Hrest. unfold is_same_domain.
  destruct (urlparse_absolute sch h rest "" Hsch Hh Hrest)
    as (p & pa & q & fr & -> & _).
  reflexivity.
Qed.

End SameDomainFacts.

Section SameDomainExtras.
Import Urllib Utils.



End SameDomainExtras.
Section CleanTextFacts.
Import Utils.

Lemma split_ws_words (s : string) : Forall Py.word (Py.split_ws s).
Proof.
  induction s as [|c s IH]; [constructor|].
  cbn [Py.split_ws]. destruct (Py.is_space c) eqn:Hc; [exact IH|].
  destruct s as [|d s].
  { repeat constructor; [discriminate|]. cbn. rewrite Hc. reflexivity. }
  destruct (Py.is_space d) eqn:Hd.
  { constructor; [|exact IH]. split; [discriminate|].
    cbn. rewrite Hc. reflexivity. }
  destruct (Py.split_ws (String d s)) as [|w ws].
  { repeat constructor; [discriminate|]. cbn. rewrite Hc. reflexivity. }
  apply Forall_cons in IH as [[Hw1 Hw2] Hws].
  constructor; [|exact Hws]. split; [discriminate|].
  cbn [Py.all_chars]. rewrite Hc, Hw2. reflexivity.
Qed.

Lemma split_ws_word_then (w rest : string) :
  Py.word w -> Py.split_ws (w ++ String " " rest) = w :: Py.split_ws rest.
Proof.
  intros [Hne Hall]. induction w as [|c w IH]; [congruence|].
  cbn [Py.all_chars] in Hall. apply andb_true_iff in Hall as [Hc Hw].
  apply negb_true_iff in Hc.
  rewrite append_cons. cbn [Py.split_ws]. rewrite Hc.
  destruct w as [|d w].
  - rewrite append_nil_l. reflexivity.
  - rewrite append_cons.
    assert (Py.is_space d = false) as Hd.
    { cbn [Py.all_chars] in Hw. apply andb_true_iff in Hw as [Hd _].
      apply negb_true_iff, Hd. }
    rewrite Hd. rewrite <- append_cons. rewrite IH; [reflexivity|discriminate|exact Hw].
Qed.

Lemma split_ws_word (w : string) : Py.word w -> Py.split_ws w = [w].
Proof.
  intros [Hne Hall]. induction w as [|c w IH]; [congruence|].
  cbn [Py.all_chars] in Hall. apply andb_true_iff in Hall as [Hc Hw].
  apply negb_true_iff in Hc.
  cbn [Py.split_ws]. rewrite Hc.
  destruct w as [|d w]; [reflexivity|].
  assert (Py.is_space d = false) as Hd.
  { cbn [Py.all_chars] in Hw. apply andb_true_iff in Hw as [Hd _].
    apply negb_true_iff, Hd. }
  rewrite Hd, IH; [reflexivity|discriminate|exact Hw].
Qed.

Lemma split_ws_join (ws : list string) :
  Forall Py.word ws -> Py.split_ws (Py.join " " ws) = ws.
Proof.
  induction 1 as [|w ws Hw Hws IH]; [reflexivity|].
  destruct ws as [|w2 ws]; [apply split_ws_word, Hw|].
  change (Py.join " " (w :: w2 :: ws))
    with (w ++ String " " (Py.join " " (w2 :: ws))).
  rewrite split_ws_word_then by exact Hw. rewrite IH. reflexivity.
Qed.

Lemma rstrip_by_word (w : string) :
  Py.word w -> Py.rstrip_by Py.is_space w = w.
Proof.
  intros [Hne Hall]. induction w as [|c w IH]; [congruence|].
  cbn [Py.all_chars] in Hall. apply andb_true_iff in Hall as [Hc Hw].
  apply negb_true_iff in Hc. cbn [Py.rstrip_by].
  destruct w as [|d w]; [cbn; rewrite Hc; reflexivity|].
  rewrite IH; [reflexivity|discriminate|exact Hw].
Qed.

Lemma rstrip_by_app_fixed (f : ascii -> bool) (a b : string) :
  Py.rstrip_by f b = b -> b <> "" -> Py.rstrip_by f (a ++ b) = a ++ b.
Proof.
  intros Hb Hne. induction a as [|c a IH]; [exact Hb|].
  rewrite append_cons. cbn [Py.rstrip_by]. rewrite IH.
  destruct (a ++ b) eqn:Hab; [|reflexivity].
  destruct a; [rewrite append_nil_l in Hab; congruence|discriminate].
Qed.

Lemma join_words_nonempty (w : string) (ws : list string) :
  Py.word w -> Py.join " " (w :: ws) <> "".
Proof.
  intros [Hne _]. destruct ws as [|w2 ws]; [exact Hne|].
  change (Py.join " " (w :: w2 :: ws))
    with (w ++ String " " (Py.join " " (w2 :: ws))).
  destruct w; [congruence|discriminate].
Qed.

Lemma rstrip_join_words (ws : list string) :
  Forall Py.word ws ->
  Py.rstrip_by Py.is_space (Py.join " " ws) = Py.join " " ws.
Proof.
  induction 1 as [|w ws Hw Hws IH]; [reflexivity|].
  destruct ws as [|w2 ws]; [apply rstrip_by_word, Hw|].
  change (Py.join " " (w :: w2 :: ws))
    with (w ++ String " " (Py.join " " (w2 :: ws))).
  change (String " " (Py.join " " (w2 :: ws)))
    with (" " ++ Py.join " " (w2 :: ws)).
  rewrite <- append_assoc.
  apply rstrip_by_app_fixed; [exact IH|].
  apply Forall_cons in Hws as [Hw2 _]. apply join_words_nonempty, Hw2.
Qed.

Lemma lstrip_join_words (ws : list string) :
  Forall Py.word ws ->
  Py.lstrip_by Py.is_space (Py.join " " ws) = Py.join " " ws.
Proof.
  intros Hws. destruct Hws as [|w ws [Hne Hall] Hws]; [reflexivity|].
  destruct w as [|c w]; [congruence|].
  cbn [Py.all_chars] in Hall. apply andb_true_iff in Hall as [Hc _].
  apply negb_true_iff in Hc.
  destruct ws as [|w2 ws].
  - cbn [Py.join Py.lstrip_by]. rewrite Hc. reflexivity.
  - change (Py.join " " (String c w :: w2 :: ws))
      with (String c (w ++ String " " (Py.join " " (w2 :: ws)))).
    cbn [Py.lstrip_by]. rewrite Hc. reflexivity.
Qed.

Lemma clean_text_join (text : string) :
  clean_text text = Py.join " " (Py.split_ws text).
Proof.
  unfold clean_text. destruct (String.eqb_spec text "") as [-> |]; reflexivity.
Qed.

End CleanTextFacts.

Section CleanTextExtras.
Import Utils.


End CleanTextExtras.
Section SavePageFacts.
Import Crawler.

Lemma startswith_self (s : string) : Py.startswith s s = true.
Proof.
  induction s as [|c s IH]; [reflexivity|].
  cbn [Py.startswith]. rewrite Ascii.eqb_refl, IH. reflexivity.
Qed.

Lemma contains_self (s : string) : Py.contains s s = true.
Proof.
  destruct s as [|c s]; [reflexivity|].
  rewrite contains_cons, startswith_self. reflexivity.
Qed.

Lemma contains_middle (p a b : string) : Py.contains p (a ++ p ++ b) = true.
Proof. apply contains_app_r, contains_app_l, contains_self. Qed.

Lemma replace_first_split (old new s : string) :
  Py.contains old s = true ->
  exists a b, Py.replace_first old new s = a ++ new ++ b.
Proof.
  induction s as [|c s IH].
  - cbn [Py.contains Py.replace_first]. rewrite orb_false_r. intros ->.
    exists "", (Py.drop (Py.len old) ""). reflexivity.
  - rewrite contains_cons. cbn [Py.replace_first].
    destruct (Py.startswith (String c s) old) eqn:Hs.
    + intros _. exists "", (Py.drop (Py.len old) (String c s)). reflexivity.
    + cbn [orb]. intros Hc. destruct (IH Hc) as (a & b & ->).
      exists (String c a), b. reflexivity.
Qed.

Lemma marker_in_tag (url : string) :
  Py.contains original_url_marker (inject_tag url) = true.
Proof. unfold inject_tag. apply contains_app_l, contains_self. Qed.

(** What [_save_page_html] writes when it injects the tag. *)
Lemma save_page_injected (url html : string) :
  Py.contains original_url_marker html = false ->
  Py.contains "<head>" html = true \/ Py.contains "<head " html = true ->
  exists a b, _save_page_html url html = a ++ inject_tag url ++ b.
Proof.
  intros Hm Hhead. unfold _save_page_html. rewrite Hm. cbn [negb].
  destruct (Py.contains "<head>" html) eqn:H1.
  - destruct (replace_first_split "<head>" ("<head>" ++ nl ++ inject_tag url)
                html H1) as (a & b & ->).
    exists (a ++ "<head>" ++ nl), b. rewrite !append_assoc. reflexivity.
  - destruct Hhead as [Hh | Hh]; [discriminate|]. rewrite Hh.
    match goal with
    | |- context [Py.take ?n html] =>
        exists (Py.take n html ++ nl), (Py.drop n html)
    end.
    rewrite (append_assoc (Py.take _ html) nl). reflexivity.
Qed.

Lemma save_page_has_marker (url html : string) :
  Py.contains original_url_marker html = true ->
  _save_page_html url html = html.
Proof. intros Hm. unfold _save_page_html. rewrite Hm. reflexivity. Qed.

End SavePageFacts.

Section SavePageExtras.
Import Crawler.

(** [_save_page_html] writes a page that already has the
    [crawler-original-url] tag, or that has no [head] tag, as it is; into
    any other page it puts the tag with the URL of the page, once: saving
    the saved text again changes nothing. *)
Theorem saved_page_carries_original_url (url html : string) :
  (Py.contains original_url_marker html = true ->
   _save_page_html url html = html)
  /\ (Py.contains original_url_marker html = false ->
      Py.contains "<head>" html = false ->
      Py.contains "<head " html = false ->
      _save_page_html url html = html)
  /\ (Py.contains original_url_marker html = false ->
      Py.contains "<head>" html = true \/ Py.contains "<head " html = true ->
      Py.contains (inject_tag url) (_save_page_html url html) = true
      /\ Py.contains original_url_marker (_save_page_html url html) = true)
  /\ _save_page_html url (_save_page_html url html) = _save_page_html url html.
Proof.
  assert (Py.contains original_url_marker html = false ->
          Py.contains "<head>" html = true \/ Py.contains "<head " html = true ->
          Py.contains (inject_tag url) (_save_page_html url html) = true
          /\ Py.contains original_url_marker (_save_page_html url html) = true)
    as Hinj.
  { intros Hm Hhead.
    destruct (save_page_injected url html Hm Hhead) as (a & b & ->).
    split; [apply contains_middle|].
    apply contains_app_r, contains_app_l, marker_in_tag. }
  assert (Py.contains original_url_marker html = false ->
          Py.contains "<head>" html = false ->
          Py.contains "<head " html = false ->
          _save_page_html url html = html) as Hnone.
  { intros Hm H1 H2. unfold _save_page_html. rewrite Hm, H1, H2. reflexivity. }
  split; [apply save_page_has_marker|]. split; [exact Hnone|].
  split; [exact Hinj|].
  destruct (Py.contains original_url_marker html) eqn:Hm.
  - rewrite (save_page_has_marker url html Hm).
    apply save_page_has_marker, Hm.
  - destruct (Py.contains "<head>" html) eqn:H1.
    + apply save_page_has_marker, Hinj; auto.
    + destruct (Py.contains "<head " html) eqn:H2.
      * apply save_page_has_marker, Hinj; auto.
      * rewrite (Hnone eq_refl eq_refl eq_refl). apply Hnone; reflexivity.
Qed.

End SavePageExtras.
Section IndexPageFacts.
Import Classifier Crawler.

Lemma endswith_split (s p : string) :
  Py.endswith s p = true -> exists a, s = a ++ p.
Proof.
  induction s as [|c s IH].
  - cbn [Py.endswith]. rewrite orb_false_r. intros H.
    apply String.eqb_eq in H. subst p. exists "". reflexivity.
  - rewrite endswith_cons. intros H. apply orb_true_iff in H as [H | H].
    + apply String.eqb_eq in H. subst p. exists "". reflexivity.
    + destruct (IH H) as [a ->]. exists (String c a). reflexivity.
Qed.

Lemma rstrip_by_unchanged (f : ascii -> bool) (s : string) (c : ascii) :
  (forall d, f d = true -> d = c) ->
  Py.endswith s (String c EmptyString) = false -> Py.rstrip_by f s = s.
Proof.
  intros Hf. induction s as [|d s IH]; [reflexivity|].
  rewrite endswith_cons. intros H. apply orb_false_iff in H as [Hd Hs].
  cbn [Py.rstrip_by]. rewrite (IH Hs).
  destruct s as [|e s]; [|reflexivity].
  destruct (f d) eqn:Hfd; [|reflexivity].
  apply Hf in Hfd. subst d. rewrite String.eqb_refl in Hd. discriminate.
Qed.

Lemma lower_char_slash (c : ascii) :
  Ascii.eqb (Py.lower_char c) "/" = Ascii.eqb c "/".
Proof. destruct c as [[] [] [] [] [] [] [] []]; reflexivity. Qed.

Lemma endswith_slash_lower (s : string) :
  Py.endswith (Py.lower s) "/" = Py.endswith s "/".
Proof.
  induction s as [|c s IH]; [reflexivity|].
  cbn [Py.lower]. rewrite !endswith_cons, IH. f_equal.
  cbn [String.eqb]. rewrite lower_char_slash.
  destruct s; reflexivity.
Qed.

Lemma any_in_app_r (ps : list string) (a b : string) :
  Py.any_in ps b = true -> Py.any_in ps (a ++ b) = true.
Proof.
  unfold Py.any_in. rewrite !existsb_exists.
  intros (p & Hin & Hc). exists p. split; [exact Hin|].
  apply contains_app_r, Hc.
Qed.

Lemma search_app_r (r : list Re.atom) (a b : string) :
  Re.search r b = true -> Re.search r (a ++ b) = true.
Proof.
  intros Hb. induction a as [|c a IH]; [exact Hb|].
  rewrite append_cons. cbn [Re.search]. rewrite IH. apply orb_true_r.
Qed.

Lemma any_search_app_r (ps : list string) (a b : string) :
  Re.any_search ps b = true -> Re.any_search ps (a ++ b) = true.
Proof.
  unfold Re.any_search. rewrite !existsb_exists.
  intros (p & Hin & Hc). exists p. split; [exact Hin|].
  apply search_app_r, Hc.
Qed.

(** A URL that the crawler takes for an index page has a location URL
    for the classifier: one of its index patterns or of its location
    keywords. *)
Lemma index_page_is_location_url (u : string) :
  Py.endswith u "/" = false ->
  _is_index_page u = true ->
  Re.any_search INDEX_URL_PATTERNS (Py.lower u)
  || _has_location_url (Py.lower u) = true.
Proof.
  intros Hslash. unfold _is_index_page, Py.rstrip_slash. cbv zeta.
  rewrite (rstrip_by_unchanged (Ascii.eqb "/") (Py.lower u) "/").
  2:{ intros d Hd. apply Ascii.eqb_eq in Hd. auto. }
  2:{ rewrite endswith_slash_lower. exact Hslash. }
  destruct (existsb _ _) eqn:Hends.
  - intros _. apply existsb_exists in Hends as (p & Hin & Hp).
    apply endswith_split in Hp as [a ->].
    cbn [In] in Hin.
    repeat (destruct Hin as [<- | Hin];
            [apply orb_true_iff;
             first [ right; apply any_in_app_r; vm_compute; reflexivity
                   | left; apply any_search_app_r; vm_compute; reflexivity ]
            |]).
    destruct Hin.
  - destruct (Py.contains "servicemap" (Py.lower u)) eqn:Hsm;
      [|discriminate].
    intros _. apply orb_true_iff. right.
    unfold _has_location_url, Py.any_in. apply existsb_exists.
    exists "servicemap". split; [cbn; tauto|exact Hsm].
Qed.

End IndexPageFacts.

Section IndexPageExtras.
Import Classifier Crawler.
Local Open Scope Z_scope.



End IndexPageExtras.
